(** * pi-llm-usage: the usage normalisation engine and the panel renderer

    A shallow embedding of [src/providers.ts] (credential lookup, the two
    provider clients, the duration formatter) and of [src/index.ts] (the
    overlay panel renderer), with the properties of the specification
    stated over it.

    Conventions of the embedding.
    - A JavaScript string is the list of its UTF-16 code units, so that
      [.length], [.slice] and [.padEnd] count what the engine counts.
    - A JavaScript number is an exact rational or [NaN] and arithmetic on
      it is exact; the infinities are outside the model.  The engine
      computes in binary64, so the properties are stated where the two
      agree (whole seconds up to 2^53, percentages away from the half-way
      points of the gauge formula) or as bounds that rounding to the
      nearest double, being monotone, keeps (a percentage on the scale
      fills between 0 and 8 cells).
    - A [throw] is the [Throw] result of an error monad and [try]/[catch]
      is [try_catch]; an [async] function is its settled result, [Throw]
      standing for a rejected promise.
    - Built-ins whose behaviour the engine owns ([JSON.parse], the base64
      decoder, [Date] parsing, number formatting of fractions and of
      numbers beyond 2^53) are the fields of the class [Engine]; the file
      system, the network and the clock of one run are a [World], and a
      request carries the [AbortSignal] it was made with.
    - Parsed JSON is untyped, as in the source: property reads, truthiness
      and [??] follow the language.  Where an interface declares a field a
      [string] ([accountId], [plan_type]) a value of another type counts
      as absent, and a number-typed field is read through [toNumber]. *)

From Stdlib Require Import ZArith QArith Qround Qminmax List String Ascii.
From Stdlib Require Import NArith Bool Lia Lqa DecimalString.
Import ListNotations.
Local Open Scope Z_scope.
Set Warnings "-register-all".

(** ** JavaScript values *)

Module JS.

(** UTF-16 code units and strings. *)
Definition cu := N.
Definition jstring := list cu.

Definition lit (s : string) : jstring :=
  map N_of_ascii (list_ascii_of_string s).

Definition len (s : jstring) : Z := Z.of_nat (List.length s).

Fixpoint jstring_eqb (a b : jstring) : bool :=
  match a, b with
  | [], [] => true
  | x :: a', y :: b' => N.eqb x y && jstring_eqb a' b'
  | _, _ => false
  end.

Definition SPACE : cu := 32%N.

Definition spaces (n : nat) : jstring := repeat SPACE n.

(** Errors: the two fields the program reads from a caught value. *)
Record exn := mkExn { name : jstring; message : jstring }.

Definition TypeError (m : string) : exn := mkExn (lit "TypeError") (lit m).

Inductive Result (A : Type) : Type :=
| Ok (a : A)
| Throw (e : exn).
Arguments Ok {A} a.
Arguments Throw {A} e.

Definition bind {A B} (m : Result A) (k : A -> Result B) : Result B :=
  match m with
  | Ok a => k a
  | Throw e => Throw e
  end.

Definition try_catch {A} (body : Result A) (handler : exn -> Result A) : Result A :=
  match body with
  | Ok a => Ok a
  | Throw e => handler e
  end.

(** [p.catch(h)] on a promise whose handler cannot fail. *)
Definition catch_with {A} (p : Result A) (h : exn -> A) : A :=
  match p with
  | Ok a => a
  | Throw e => h e
  end.

Definition returns {A} (m : Result A) : Prop := exists a, m = Ok a.

(** Numbers. *)
Inductive num := Fin (q : Q) | NaN.

Definition of_Z (z : Z) : num := Fin (inject_Z z).

Definition lift2 (f : Q -> Q -> Q) (a b : num) : num :=
  match a, b with
  | Fin x, Fin y => Fin (f x y)
  | _, _ => NaN
  end.

Definition num_sub := lift2 Qminus.
Definition num_mul := lift2 Qmult.
(** Division; every divisor in the program is a non-zero constant. *)
Definition num_div := lift2 Qdiv.

Definition cmp (f : Q -> Q -> bool) (a b : num) : bool :=
  match a, b with
  | Fin x, Fin y => f x y
  | _, _ => false
  end.

Definition Qlt_bool (x y : Q) : bool := negb (Qle_bool y x).

Definition num_le := cmp Qle_bool.
Definition num_lt := cmp Qlt_bool.
Definition num_gt (a b : num) : bool := num_lt b a.

(** Truncation toward zero of a rational. *)
Definition Qtrunc (q : Q) : Z := Z.quot (Qnum q) (Z.pos (Qden q)).

(** The remainder operator [%]: the result has the sign of the dividend. *)
Definition num_rem (a b : num) : num :=
  match a, b with
  | Fin x, Fin y =>
      if Qeq_bool y 0 then NaN
      else Fin (x - y * inject_Z (Qtrunc (x / y)))
  | _, _ => NaN
  end.

Definition Math_floor (a : num) : num :=
  match a with
  | Fin x => of_Z (Qfloor x)
  | NaN => NaN
  end.

(** [Math.round] rounds half-way cases toward positive infinity. *)
Definition Math_round (a : num) : num :=
  match a with
  | Fin x => of_Z (Qfloor (x + (1 # 2)))
  | NaN => NaN
  end.

Definition Math_max (a b : num) : num :=
  match a, b with
  | Fin x, Fin y => if Qle_bool x y then Fin y else Fin x
  | _, _ => NaN
  end.

Definition is_integer (q : Q) : bool := Qeq_bool q (inject_Z (Qfloor q)).

(** Decimal rendering of an integer, as the engine gives it for the
    whole numbers it holds exactly, those of at most 2^53 in size. *)
Definition SAFE_INTEGER : Z := 2 ^ 53.

Definition intToString (z : Z) : jstring :=
  lit (NilZero.string_of_int (Z.to_int z)).

(** String methods. *)

(** [s.slice(0, n)]: a negative end counts from the end of the string. *)
Definition slice0 (s : jstring) (n : Z) : jstring :=
  if n <? 0 then firstn (Z.to_nat (len s + n)) s
  else firstn (Z.to_nat n) s.

(** [s.padEnd(n)] and [s.padStart(n)] with the default filler. *)
Definition padEnd (s : jstring) (n : Z) : jstring :=
  s ++ spaces (Z.to_nat (n - len s)).

Definition padStart (s : jstring) (n : Z) : jstring :=
  spaces (Z.to_nat (n - len s)) ++ s.

(** [s.repeat(count)]: the count is truncated to an integer, [NaN] counts
    as zero, and a negative count is a [RangeError] whose message quotes
    the count (a whole number wherever the program calls [repeat]). *)
Definition repeat_count (count : num) : Z :=
  match count with
  | Fin q => Qtrunc q
  | NaN => 0
  end.

Definition InvalidCount (k : Z) : exn :=
  mkExn (lit "RangeError") (lit "Invalid count value: " ++ intToString k).

Definition str_repeat (s : jstring) (count : num) : Result jstring :=
  let k := repeat_count count in
  if k <? 0 then Throw (InvalidCount k)
  else Ok (List.concat (repeat s (Z.to_nat k))).

(** [s.split(".")] for a one-unit separator. *)
Fixpoint split_on (sep : cu) (s : jstring) : list jstring :=
  match s with
  | [] => [[]]
  | c :: s' =>
      if N.eqb c sep then [] :: split_on sep s'
      else match split_on sep s' with
           | [] => [[c]]
           | seg :: segs => (c :: seg) :: segs
           end
  end.

(** [s.replace(/c/g, d)] for single units. *)
Definition replace_all_cu (c d : cu) (s : jstring) : jstring :=
  map (fun x => if N.eqb x c then d else x) s.

Fixpoint starts_with (pat s : jstring) : bool :=
  match pat, s with
  | [], _ => true
  | p :: pat', c :: s' => N.eqb p c && starts_with pat' s'
  | _ :: _, [] => false
  end.

(** [s.replace(/^pat/, rep)] for a literal pattern. *)
Definition replace_prefix (pat rep s : jstring) : jstring :=
  if starts_with pat s then rep ++ skipn (List.length pat) s else s.

(** [s.replace(/pat/, rep)] for a literal pattern without the [g] flag:
    only the leftmost match is replaced. *)
Fixpoint replace_first (pat rep s : jstring) : jstring :=
  if starts_with pat s then rep ++ skipn (List.length pat) s
  else match s with
       | [] => []
       | c :: s' => c :: replace_first pat rep s'
       end.

(** Values read out of parsed JSON, plus [undefined]. *)
Inductive value :=
| VUndef
| VNull
| VBool (b : bool)
| VNum (n : num)
| VStr (s : jstring)
| VArr (items : list value)
| VObj (fields : list (jstring * value)).

Definition nullish (v : value) : bool :=
  match v with
  | VUndef | VNull => true
  | _ => false
  end.

Definition truthy (v : value) : bool :=
  match v with
  | VUndef | VNull => false
  | VBool b => b
  | VNum (Fin q) => negb (Qeq_bool q 0)
  | VNum NaN => false
  | VStr s => negb (jstring_eqb s [])
  | VArr _ | VObj _ => true
  end.

Fixpoint assoc (k : jstring) (fields : list (jstring * value)) : option value :=
  match fields with
  | [] => None
  | (k', v) :: rest => if jstring_eqb k k' then Some v else assoc k rest
  end.

Definition has_key (v : value) (k : jstring) : bool :=
  match v with
  | VObj fields => match assoc k fields with Some _ => true | None => false end
  | _ => false
  end.

(** [v[k]] for the keys the program uses, none of which names a method
    or an index: reading from [null] or [undefined] is a [TypeError],
    reading from any other non-object gives [undefined]. *)
Definition get (v : value) (k : string) : Result value :=
  match v with
  | VUndef | VNull => Throw (TypeError "Cannot read properties of null or undefined")
  | VObj fields =>
      match assoc (lit k) fields with
      | Some x => Ok x
      | None => Ok VUndef
      end
  | _ => Ok VUndef
  end.

(** [v?.k]. *)
Definition get_opt (v : value) (k : string) : Result value :=
  if nullish v then Ok VUndef else get v k.

(** [a ?? b]. *)
Definition coalesce (a b : value) : value := if nullish a then b else a.

(** [typeof v === "object"] and [typeof v === "string"]. *)
Definition typeof_object (v : value) : bool :=
  match v with
  | VNull | VArr _ | VObj _ => true
  | _ => false
  end.

Definition typeof_string (v : value) : bool :=
  match v with
  | VStr _ => true
  | _ => false
  end.

(** The engine's built-ins that the program calls and does not define. *)
Class Engine := {
  (** [JSON.parse], which throws on malformed text. *)
  JSON_parse : jstring -> Result value;
  (** [Buffer.from(s, "base64").toString("utf-8")], which never throws. *)
  base64_to_utf8 : jstring -> jstring;
  (** [new Date(v).getTime()], [NaN] for an invalid date. *)
  Date_getTime : value -> num;
  (** Conversion to a number of a string, array or object. *)
  objToNumber : value -> num;
  (** Rendering of any other number: a fraction, or a number beyond 2^53,
      which is shown by its shortest digits and, from 1e21 on, in
      exponent notation. *)
  fracToString : Q -> jstring
}.

Section WithEngine.
Context {E : Engine}.

Definition numToString (n : num) : jstring :=
  match n with
  | NaN => lit "NaN"
  | Fin q =>
      if is_integer q && (Z.abs (Qfloor q) <=? SAFE_INTEGER) then intToString (Qfloor q)
      else fracToString q
  end.

(** The conversion applied by arithmetic and by numeric comparison. *)
Definition toNumber (v : value) : num :=
  match v with
  | VUndef => NaN
  | VNull => of_Z 0
  | VBool b => of_Z (if b then 1 else 0)
  | VNum n => n
  | _ => objToNumber v
  end.

End WithEngine.

End JS.

Module Notations.
Notation "x <- m ;; k" := (JS.bind m (fun x => k))
  (at level 61, m at next level, right associativity).
End Notations.

(** ** The usage normalisation engine ([src/providers.ts]) *)

Module Providers.
Import JS Notations.

Record UsageWindow := mkWindow {
  label : jstring;
  percentUsed : num;
  resetIn : option jstring
}.

Record ProviderLink := mkLink {
  link_label : jstring;
  url : jstring
}.

Record ProviderUsage := mkUsage {
  provider : jstring;
  plan : option jstring;
  account : option jstring;
  windows : list UsageWindow;
  links : list ProviderLink;
  error : option jstring
}.

Record ReadCodexAuth := mkCodexAuth {
  accessToken : value;
  email : option jstring
}.

(** An [AbortSignal], by the one property the runtime reads of it. *)
Record AbortSignal := mkSignal {
  aborted : bool
}.

(** What one run sees of the outside: the home directory and the files
    under it, the network, and the clock.  A request is the endpoint, the
    bearer token as the program holds it, the beta header if any, and the
    [signal] option; the runtime rejects a call, or the reading of its
    body, with an [AbortError] once the signal of the request has fired. *)
Record Request := mkRequest {
  endpoint : jstring;
  bearer : value;
  beta : option jstring;
  signal : option AbortSignal
}.

Record Response := mkResponse {
  ok : bool;
  status : Z;
  text : Result jstring;
  json : Result value
}.

Record World := mkWorld {
  homedir : jstring;
  readFileSync : jstring -> Result jstring;
  fetch : Request -> Result Response;
  Date_now : num
}.

Definition AbortError : exn :=
  mkExn (lit "AbortError") (lit "This operation was aborted").

Definition is_abort (e : exn) : bool := jstring_eqb (name e) (lit "AbortError").

(** A field the interfaces type as [string]: a JSON string is kept,
    anything else counts as absent. *)
Definition string_of (v : value) : option jstring :=
  match v with
  | VStr s => Some s
  | _ => None
  end.

Definition or_else {A} (a : option A) (b : option A) : option A :=
  match a with
  | Some _ => a
  | None => b
  end.

Section WithWorld.
Context {E : Engine} (W : World).

Definition readPiAuth (provider : string) : Result value :=
  try_catch
    (let authPath := homedir W ++ lit "/.pi/agent/auth.json" in
     raw <- readFileSync W authPath ;;
     data <- JSON_parse raw ;;
     entry <- get data provider ;;
     Ok (coalesce entry VNull))
    (fun _ => Ok VNull).

(** [token.split(".")]: only a string has the method. *)
Definition split_token (token : value) : Result (list jstring) :=
  match token with
  | VStr s => Ok (split_on 46%N s)
  | _ => Throw (TypeError "token.split is not a function")
  end.

Definition normalize_payload (payload : jstring) : jstring :=
  let normalized := replace_all_cu 95%N 47%N (replace_all_cu 45%N 43%N payload) in
  normalized ++ repeat 61%N (Z.to_nat (Z.rem (4 - Z.rem (len normalized) 4) 4)).

(** The three probes of the decoded payload, in priority order. *)
Definition probe_profile (data : value) : Result (option jstring) :=
  p1 <- get data "https://api.openai.com/profile" ;;
  profile <- (if nullish p1 then get data "https://api.anthropic.com/profile" else Ok p1) ;;
  if truthy profile && typeof_object profile && has_key profile (lit "email") then
    em <- get profile "email" ;;
    Ok (if typeof_string em then string_of em else None)
  else Ok None.

Definition probe_email (data : value) : Result (option jstring) :=
  em <- get data "email" ;;
  Ok (if typeof_string em then string_of em else None).

Definition probe_auth (data : value) : Result (option jstring) :=
  a <- get data "https://api.openai.com/auth" ;;
  if typeof_object a then
    em <- get_opt a "email" ;;
    Ok (if truthy em && typeof_string em then string_of em else None)
  else Ok None.

Definition extractEmailFromJwt (token : value) : Result (option jstring) :=
  try_catch
    (parts <- split_token token ;;
     if Z.of_nat (List.length parts) <? 2 then Ok None
     else
       let payload := nth 1 parts [] in
       let raw := base64_to_utf8 (normalize_payload payload) in
       data <- JSON_parse raw ;;
       r1 <- probe_profile data ;;
       match r1 with
       | Some s => Ok (Some s)
       | None =>
           r2 <- probe_email data ;;
           match r2 with
           | Some s => Ok (Some s)
           | None => probe_auth data
           end
       end)
    (fun _ => Ok None).

Definition readCodexAuth : Result (option ReadCodexAuth) :=
  try_catch
    (let authPath := homedir W ++ lit "/.codex/auth.json" in
     raw <- readFileSync W authPath ;;
     data <- JSON_parse raw ;;
     tokens <- get data "tokens" ;;
     access_token <- get_opt tokens "access_token" ;;
     if truthy access_token then
       em <- extractEmailFromJwt access_token ;;
       Ok (Some (mkCodexAuth access_token em))
     else Ok None)
    (fun _ => Ok None).

Definition anthropicProfileRequest (signal : option AbortSignal) (token : value) : Request :=
  mkRequest (lit "https://api.anthropic.com/api/oauth/profile") token
            (Some (lit "oauth-2025-04-20")) signal.

Definition fetchAnthropicProfileEmail (token : value) (signal : option AbortSignal)
  : Result (option jstring) :=
  try_catch
    (res <- fetch W (anthropicProfileRequest signal token) ;;
     if negb (ok res) then Ok None
     else
       data <- json res ;;
       acct <- get data "account" ;;
       em <- get_opt acct "email" ;;
       Ok (if typeof_string em && truthy em then string_of em else None))
    (fun _ => Ok None).

Definition formatSeconds (seconds : num) : jstring :=
  if num_le seconds (of_Z 0) then lit "now"
  else
    let days := Math_floor (num_div seconds (of_Z 86400)) in
    let hours := Math_floor (num_div (num_rem seconds (of_Z 86400)) (of_Z 3600)) in
    let minutes := Math_floor (num_div (num_rem seconds (of_Z 3600)) (of_Z 60)) in
    if num_gt days (of_Z 0) then
      numToString days ++ lit "d" ++
      (if num_gt hours (of_Z 0) then lit " " ++ numToString hours ++ lit "h" else [])
    else if num_gt hours (of_Z 0) then
      numToString hours ++ lit "h" ++
      (if num_gt minutes (of_Z 0) then lit " " ++ numToString minutes ++ lit "m" else [])
    else if num_gt minutes (of_Z 0) then numToString minutes ++ lit "m"
    else lit "<1m".

Definition formatResetTimestamp (isoString : value) : jstring :=
  let resetMs := Date_getTime isoString in
  let now := Date_now W in
  let diffSec := Math_max (of_Z 0) (Math_floor (num_div (num_sub resetMs now) (of_Z 1000))) in
  formatSeconds diffSec.

Definition ANTHROPIC_LINKS : list ProviderLink :=
  [ mkLink (lit "dashboard") (lit "https://console.anthropic.com/settings/usage");
    mkLink (lit "status") (lit "https://status.anthropic.com") ].

Definition CODEX_LINKS : list ProviderLink :=
  [ mkLink (lit "dashboard") (lit "https://chatgpt.com/codex/settings/usage");
    mkLink (lit "status") (lit "https://status.openai.com") ].

(** The [HTTP <status>: <first 100 units of the body>] message; a body
    that cannot be read counts as empty. *)
Definition http_error (res : Response) : jstring :=
  let text := catch_with (text res) (fun _ => []) in
  lit "HTTP " ++ intToString (status res) ++ lit ": " ++ slice0 text 100.

(** The mapping of a parsed Anthropic body: the part of
    [fetchAnthropicUsage] between [res.json()] and the final [return]. *)
Definition anthropicWindows (data : value) : Result (list UsageWindow) :=
  let windows : list UsageWindow := [] in
  five_hour <- get data "five_hour" ;;
  u <- get_opt five_hour "utilization" ;;
  windows <- (if negb (nullish u) then
                r <- get five_hour "resets_at" ;;
                Ok (windows ++ [mkWindow (lit "5h session") (toNumber u)
                      (if truthy r then Some (formatResetTimestamp r) else None)])
              else Ok windows) ;;
  seven_day <- get data "seven_day" ;;
  u <- get_opt seven_day "utilization" ;;
  windows <- (if negb (nullish u) then
                r <- get seven_day "resets_at" ;;
                Ok (windows ++ [mkWindow (lit "Weekly") (toNumber u)
                      (if truthy r then Some (formatResetTimestamp r) else None)])
              else Ok windows) ;;
  seven_day_opus <- get data "seven_day_opus" ;;
  u <- get_opt seven_day_opus "utilization" ;;
  windows <- (if negb (nullish u) then
                r <- get seven_day_opus "resets_at" ;;
                Ok (windows ++ [mkWindow (lit "Weekly (Opus)") (toNumber u)
                      (if truthy r then Some (formatResetTimestamp r) else None)])
              else Ok windows) ;;
  seven_day_sonnet <- get data "seven_day_sonnet" ;;
  u <- get_opt seven_day_sonnet "utilization" ;;
  windows <- (if negb (nullish u) then
                r <- get seven_day_sonnet "resets_at" ;;
                Ok (windows ++ [mkWindow (lit "Weekly (Sonnet)") (toNumber u)
                      (if truthy r then Some (formatResetTimestamp r) else None)])
              else Ok windows) ;;
  Ok windows.

Definition anthropicUsageRequest (signal : option AbortSignal) (access : value) : Request :=
  mkRequest (lit "https://api.anthropic.com/api/oauth/usage") access
            (Some (lit "oauth-2025-04-20")) signal.

Definition fetchAnthropicUsage (signal : option AbortSignal) : Result ProviderUsage :=
  auth <- readPiAuth "anthropic" ;;
  if negb (truthy auth) then
    Ok (mkUsage (lit "Anthropic") None None [] ANTHROPIC_LINKS
                (Some (lit "No OAuth credentials found")))
  else
    access <- get auth "access" ;;
    fromJwt <- extractEmailFromJwt access ;;
    fromProfile <- (match fromJwt with
                    | Some _ => Ok fromJwt
                    | None => fetchAnthropicProfileEmail access signal
                    end) ;;
    accountId <- get auth "accountId" ;;
    let account := or_else fromProfile (string_of accountId) in
    try_catch
      (res <- fetch W (anthropicUsageRequest signal access) ;;
       if negb (ok res) then
         Ok (mkUsage (lit "Anthropic") None account [] ANTHROPIC_LINKS
                     (Some (http_error res)))
       else
         data <- json res ;;
         windows <- anthropicWindows data ;;
         Ok (mkUsage (lit "Anthropic") None account windows ANTHROPIC_LINKS None))
      (fun e =>
         if is_abort e then
           Ok (mkUsage (lit "Anthropic") None account [] ANTHROPIC_LINKS
                       (Some (lit "Cancelled")))
         else
           Ok (mkUsage (lit "Anthropic") None account [] ANTHROPIC_LINKS
                       (Some (message e)))).

(** A window of the main Codex rate limit, and the reset text shared by
    every Codex window: [w.reset_after_seconds != null ? formatSeconds(..)
    : undefined]. *)
Definition resetOf (w : value) : Result (option jstring) :=
  ras <- get_opt w "reset_after_seconds" ;;
  Ok (if negb (nullish ras) then Some (formatSeconds (toNumber ras)) else None).

Definition codexWindow (lbl : string) (w : value) : Result UsageWindow :=
  used <- get w "used_percent" ;;
  reset <- resetOf w ;;
  Ok (mkWindow (lit lbl) (toNumber used) reset).

(** [limit_name.replace(/^GPT-/, "").replace(/-Codex-/, " ")]. *)
Definition shortName (limit_name : jstring) : jstring :=
  replace_first (lit "-Codex-") (lit " ") (replace_prefix (lit "GPT-") [] limit_name).

(** One turn of the loop over [additional_rate_limits]: [None] is
    [continue]. *)
Definition extraWindow (extra : value) : Result (option UsageWindow) :=
  limit_name <- get extra "limit_name" ;;
  rate_limit <- get extra "rate_limit" ;;
  if negb (truthy limit_name) || negb (truthy rate_limit) then Ok None
  else
    pw <- get rate_limit "primary_window" ;;
    sw <- get rate_limit "secondary_window" ;;
    pu <- get_opt pw "used_percent" ;;
    su <- get_opt sw "used_percent" ;;
    let p := toNumber (coalesce pu (VNum (of_Z 0))) in
    let s := toNumber (coalesce su (VNum (of_Z 0))) in
    let anyUsage := num_gt p (of_Z 0) || num_gt s (of_Z 0) in
    if negb anyUsage then Ok None
    else
      short <- (match limit_name with
                | VStr n => Ok (shortName n)
                | _ => Throw (TypeError "extra.limit_name.replace is not a function")
                end) ;;
      reset <- resetOf sw ;;
      Ok (Some (mkWindow short (Math_max p s) reset)).

Fixpoint extraWindows (items : list value) : Result (list UsageWindow) :=
  match items with
  | [] => Ok []
  | extra :: rest =>
      o <- extraWindow extra ;;
      ws <- extraWindows rest ;;
      Ok (match o with
          | Some w => w :: ws
          | None => ws
          end)
  end.

(** [for (const extra of v)]: an array yields its items, a string its
    units as one-unit strings; nothing else is iterable. *)
Definition iterate (v : value) : Result (list value) :=
  match v with
  | VArr items => Ok items
  | VStr s => Ok (map (fun c => VStr [c]) s)
  | _ => Throw (TypeError "data.additional_rate_limits is not iterable")
  end.

(** The mapping of a parsed Codex body: the part of [fetchCodexUsage]
    between [res.json()] and the final [return], with the plan. *)
Definition codexWindows (data : value) : Result (option jstring * list UsageWindow) :=
  let windows : list UsageWindow := [] in
  plan_type <- get data "plan_type" ;;
  let plan := string_of plan_type in
  rate_limit <- get data "rate_limit" ;;
  pw <- get_opt rate_limit "primary_window" ;;
  windows <- (if truthy pw then
                w <- codexWindow "5h session" pw ;; Ok (windows ++ [w])
              else Ok windows) ;;
  sw <- get_opt rate_limit "secondary_window" ;;
  windows <- (if truthy sw then
                w <- codexWindow "Weekly" sw ;; Ok (windows ++ [w])
              else Ok windows) ;;
  additional <- get data "additional_rate_limits" ;;
  windows <- (if truthy additional then
                items <- iterate additional ;;
                extras <- extraWindows items ;;
                Ok (windows ++ extras)
              else Ok windows) ;;
  code_review <- get data "code_review_rate_limit" ;;
  cr <- get_opt code_review "primary_window" ;;
  windows <- (if truthy cr then
                used <- get cr "used_percent" ;;
                if num_gt (toNumber used) (of_Z 0) then
                  w <- codexWindow "Code Review" cr ;; Ok (windows ++ [w])
                else Ok windows
              else Ok windows) ;;
  Ok (plan, windows).

Definition codexUsageRequest (signal : option AbortSignal) (accessToken : value) : Request :=
  mkRequest (lit "https://chatgpt.com/backend-api/wham/usage") accessToken None signal.

Definition fetchCodexUsage (signal : option AbortSignal) : Result ProviderUsage :=
  piAuth <- readPiAuth "openai-codex" ;;
  codexAuth <- readCodexAuth ;;
  piAccess <- get_opt piAuth "access" ;;
  let accessToken :=
    coalesce piAccess (match codexAuth with
                       | Some c => accessToken c
                       | None => VUndef
                       end) in
  if negb (truthy accessToken) then
    Ok (mkUsage (lit "OpenAI Codex") None None [] CODEX_LINKS
                (Some (lit "No OAuth credentials found")))
  else
    fromJwt <- extractEmailFromJwt accessToken ;;
    accountId <- get_opt piAuth "accountId" ;;
    let account :=
      or_else fromJwt
        (or_else (match codexAuth with
                  | Some c => email c
                  | None => None
                  end)
                 (string_of accountId)) in
    try_catch
      (res <- fetch W (codexUsageRequest signal accessToken) ;;
       if negb (ok res) then
         Ok (mkUsage (lit "OpenAI Codex") None account [] CODEX_LINKS
                     (Some (http_error res)))
       else
         data <- json res ;;
         pw <- codexWindows data ;;
         Ok (mkUsage (lit "OpenAI Codex") (fst pw) account (snd pw) CODEX_LINKS None))
      (fun e =>
         if is_abort e then
           Ok (mkUsage (lit "OpenAI Codex") None account [] CODEX_LINKS
                       (Some (lit "Cancelled")))
         else
           Ok (mkUsage (lit "OpenAI Codex") None account [] CODEX_LINKS
                       (Some (message e)))).

End WithWorld.
End Providers.

(** ** The panel layout renderer ([src/index.ts]) *)

Module Panel.
Import JS Notations Providers.

(** Styled text.  The renderer only ever concatenates plain strings and
    escape sequences produced by the theme and by [hyperlink]; a styled
    string is kept as the list of its printable units and of its escape
    sequences, each sequence being one cell of no width. *)
Inductive cell :=
| Glyph (c : cu)
| Esc (seq : jstring).

Definition styled := list cell.

Definition plain (s : jstring) : styled := map Glyph s.

(** Single-column units: printable ASCII and the box-drawing block. *)
Definition narrow (c : cu) : bool :=
  ((32 <=? c) && (c <=? 126) || (0x2500 <=? c) && (c <=? 0x257F))%N.

(** The terminal: how many columns a unit takes. *)
Class Terminal := {
  colw : cu -> nat;
  colw_narrow : forall c, narrow c = true -> colw c = 1%nat
}.

Section WithTerminal.
Context {T : Terminal}.

Definition cellw (x : cell) : nat :=
  match x with
  | Glyph c => colw c
  | Esc _ => 0%nat
  end.

Definition cols (t : styled) : nat := list_sum (map cellw t).

(** Modelled from the spec: [visibleWidth] belongs to the host's terminal
    library, of which section 6 gives the contract only (a width measure
    that is aware of escape sequences): the printable columns of a styled
    string, escape sequences counting for nothing. *)
Definition visibleWidth (t : styled) : Z := Z.of_nat (cols t).

(** The longest prefix that fits in [budget] columns. *)
Fixpoint take_cols (budget : nat) (t : styled) : styled :=
  match t with
  | [] => []
  | Esc s :: rest => Esc s :: take_cols budget rest
  | Glyph c :: rest =>
      if (colw c <=? budget)%nat then Glyph c :: take_cols (budget - colw c) rest
      else []
  end.

Definition SGR_RESET : cell := Esc (27%N :: lit "[0m").

(** Modelled from the spec: [truncateToWidth] belongs to the host's
    terminal library (section 6: a width-truncating helper that is aware
    of escape sequences).  Text that fits is returned as it is; text that
    does not is cut at the last unit that fits, closed by a style reset
    and followed by the ellipsis; with [pad] the result is filled with
    spaces up to [maxWidth]. *)
Definition truncateToWidth (t : styled) (maxWidth : Z) (ellipsis : styled) (pad : bool) : styled :=
  let w := visibleWidth t in
  if w <=? maxWidth then
    if pad then t ++ plain (spaces (Z.to_nat (maxWidth - w))) else t
  else
    let target := maxWidth - visibleWidth ellipsis in
    if target <=? 0 then take_cols (Z.to_nat maxWidth) ellipsis
    else
      let truncated := take_cols (Z.to_nat target) t ++ [SGR_RESET] ++ ellipsis in
      if pad then
        truncated ++ plain (spaces (Z.to_nat (Z.max 0 (maxWidth - visibleWidth truncated))))
      else truncated.

(** The host's theme: [fg(role, text)] and [bold(text)] wrap a string in
    styling whose visible width is that of the string (section 6). *)
Class Theme := {
  fg : string -> styled -> styled;
  bold : styled -> styled;
  fg_width : forall role t, visibleWidth (fg role t) = visibleWidth t;
  bold_width : forall t, visibleWidth (bold t) = visibleWidth t
}.

End WithTerminal.

Inductive RenderState := Loading | Done | Error.

Definition BOX_V : cu := 0x2502%N.
Definition BOX_H : cu := 0x2500%N.
Definition BOX_TL : cu := 0x256D%N.
Definition BOX_TR : cu := 0x256E%N.
Definition BOX_BL : cu := 0x2570%N.
Definition BOX_BR : cu := 0x256F%N.
Definition GAUGE_FULL : cu := 0x25AE%N.
Definition GAUGE_EMPTY : cu := 0xB7%N.
Definition WARNING_SIGN : cu := 0x26A0%N.
Definition ESC_CHAR : cu := 27%N.

Definition fitTextEnd (text : jstring) (maxLength : Z) : jstring :=
  if len text <=? maxLength then text
  else if maxLength <=? 3 then slice0 text maxLength
  else slice0 text (maxLength - 3) ++ lit "...".

(** [`\x1b]8;;${url}\x1b\\${text}\x1b]8;;\x1b\\`]. *)
Definition hyperlink (url : jstring) (t : styled) : styled :=
  [Esc (ESC_CHAR :: lit "]8;;" ++ url ++ ESC_CHAR :: lit "\")] ++ t ++
  [Esc (ESC_CHAR :: lit "]8;;" ++ ESC_CHAR :: lit "\")].

(** Visible character width of the links string. *)
Definition linksVisibleWidth (links : list ProviderLink) : Z :=
  if Z.of_nat (List.length links) =? 0 then 0
  else fold_left (fun sum l => sum + len (link_label l) + 2) links 0
       + (Z.of_nat (List.length links) - 1).

(** [pieces.join(" ")]. *)
Fixpoint join_space (pieces : list styled) : styled :=
  match pieces with
  | [] => []
  | [p] => p
  | p :: rest => p ++ plain (lit " ") ++ join_space rest
  end.

(** The locals of [renderUsageRow] that decide colour and gauge. *)
Definition remainingOf (win : UsageWindow) : num := num_sub (of_Z 100) (percentUsed win).

Definition colorOf (remaining : num) : string :=
  if num_le remaining (of_Z 20) then "error"
  else if num_le remaining (of_Z 50) then "warning"
  else "success".

Definition gaugeWidth : Z := 8.

Definition filledOf (remaining : num) : num :=
  Math_round (num_mul (num_div remaining (of_Z 100)) (of_Z gaugeWidth)).

Definition emptyOf (remaining : num) : num := num_sub (of_Z gaugeWidth) (filledOf remaining).

Section WithTheme.
Context {E : Engine} {T : Terminal} {Th : Theme}.

Definition renderLinks (links : list ProviderLink) : styled :=
  join_space
    (map (fun l =>
            let label := fg "dim" (plain (lit "[")) ++ fg "muted" (plain (link_label l))
                         ++ fg "dim" (plain (lit "]")) in
            hyperlink (url l) label)
         links).

Definition renderUsageRow (win : UsageWindow) (labelWidth maxWidth : Z) : Result styled :=
  let remaining := remainingOf win in
  let color := colorOf remaining in
  let filled := filledOf remaining in
  let empty := emptyOf remaining in
  fill <- str_repeat [GAUGE_FULL] filled ;;
  rest <- str_repeat [GAUGE_EMPTY] empty ;;
  let gauge :=
    fg "dim" (plain (lit "[")) ++ fg color (plain fill) ++ fg "dim" (plain rest)
    ++ fg "dim" (plain (lit "]")) in
  let label := padEnd (label win) labelWidth in
  let pct := padStart (numToString remaining ++ lit "%") 4 in
  let reset :=
    match resetIn win with
    | Some r => if jstring_eqb r [] then []
                else fg "dim" (plain (lit " resets in " ++ r))
    | None => []
    end in
  Ok (fg "text" (plain label) ++ plain (lit " ") ++ gauge ++ plain (lit " ")
      ++ fg color (plain pct) ++ plain (lit " left") ++ reset).

(** The helpers that [renderPanel] closes over. *)
Section Rows.
Variable width : Z.

Definition innerW : Z := width - 2.
Definition contentPadding : Z := 2.
Definition verticalPadding : Z := contentPadding.
Definition bottomEdgePadding : Z := Z.max 0 (verticalPadding - 1).
Definition contentArea : Z := innerW - contentPadding * 2.

Definition border_bar : styled := fg "border" (plain [BOX_V]).

Definition row (content : styled) : styled :=
  border_bar
  ++ plain (spaces (Z.to_nat contentPadding))
  ++ truncateToWidth content contentArea [] true
  ++ plain (spaces (Z.to_nat contentPadding))
  ++ border_bar.

Definition rowExact (content : styled) (visibleLen : Z) : styled :=
  border_bar
  ++ plain (spaces (Z.to_nat contentPadding))
  ++ content
  ++ plain (spaces (Z.to_nat (Z.max 0 (contentArea - visibleLen))))
  ++ plain (spaces (Z.to_nat contentPadding))
  ++ border_bar.

Definition emptyRow : Result styled :=
  pad <- str_repeat [SPACE] (of_Z innerW) ;;
  Ok (border_bar ++ plain pad ++ border_bar).

(** [addVerticalPad(n)]: the rows it pushes. *)
Fixpoint addVerticalPad (n : nat) : Result (list styled) :=
  match n with
  | O => Ok []
  | S n' =>
      r <- emptyRow ;;
      rs <- addVerticalPad n' ;;
      Ok (r :: rs)
  end.

Definition borderLine (left right : cu) : Result styled :=
  bar <- str_repeat [BOX_H] (of_Z innerW) ;;
  Ok (fg "border" (plain ([left] ++ bar ++ [right]))).

(** The first loop of the [done] branch. *)
Definition sharedLabelWidthOf (results : list ProviderUsage) : Z :=
  fold_left
    (fun acc result =>
       fold_left (fun acc' win => Z.max acc' (len (label win))) (windows result) acc)
    results 0.

Definition is_empty (s : jstring) : bool := jstring_eqb s [].

(** The heading row of one provider. *)
Definition headingRow (result : ProviderUsage) : Result styled :=
  let providerLabel :=
    match plan result with
    | Some p => if is_empty p then provider result
                else provider result ++ lit " (" ++ p ++ lit ")"
    | None => provider result
    end in
  let linksStr := renderLinks (links result) in
  let lw := linksVisibleWidth (links result) in
  let providerLabelWidth := visibleWidth (plain providerLabel) in
  let accountMaxWidth := Z.max 0 (Z.min 40 (contentArea - providerLabelWidth - lw - 2)) in
  let accountPart :=
    match account result with
    | Some a => if negb (is_empty a) && (2 <? accountMaxWidth)
                then lit "(" ++ fitTextEnd a (accountMaxWidth - 2) ++ lit ")"
                else []
    | None => []
    end in
  let rightClusterWidth :=
    lw + (if is_empty accountPart then 0 else visibleWidth (plain accountPart) + 1) in
  let gap := Z.max 1 (contentArea - providerLabelWidth - rightClusterWidth) in
  gapStr <- str_repeat [SPACE] (of_Z gap) ;;
  Ok (row (fg "accent" (bold (plain providerLabel))
           ++ plain gapStr
           ++ (if is_empty accountPart then []
               else fg "muted" (plain accountPart) ++ plain (lit " "))
           ++ linksStr)).

Fixpoint windowRows (wins : list UsageWindow) (sharedLabelWidth : Z) : Result (list styled) :=
  match wins with
  | [] => Ok []
  | win :: rest =>
      r <- renderUsageRow win sharedLabelWidth (innerW - 2) ;;
      rs <- windowRows rest sharedLabelWidth ;;
      Ok (row r :: rs)
  end.

(** The body rows of one provider, after the heading and its spacer. *)
Definition bodyRows (result : ProviderUsage) (sharedLabelWidth : Z) : Result (list styled) :=
  match error result with
  | Some e =>
      if negb (is_empty e)
      then Ok [row (fg "error" (plain ([WARNING_SIGN] ++ lit " " ++ e)))]
      else match windows result with
           | [] => Ok [row (fg "muted" (plain (lit "No usage data available")))]
           | wins => windowRows wins sharedLabelWidth
           end
  | None =>
      match windows result with
      | [] => Ok [row (fg "muted" (plain (lit "No usage data available")))]
      | wins => windowRows wins sharedLabelWidth
      end
  end.

(** The second loop of the [done] branch; the spacer rows separate a
    provider from the next one. *)
Fixpoint providerRows (results : list ProviderUsage) (sharedLabelWidth : Z)
  : Result (list styled) :=
  match results with
  | [] => Ok []
  | result :: rest =>
      heading <- headingRow result ;;
      spacer <- emptyRow ;;
      body <- bodyRows result sharedLabelWidth ;;
      sep <- (match rest with
              | [] => Ok []
              | _ :: _ => addVerticalPad (Z.to_nat verticalPadding)
              end) ;;
      others <- providerRows rest sharedLabelWidth ;;
      Ok ([heading; spacer] ++ body ++ sep ++ others)
  end.

Definition footerRow : styled :=
  let footerRight := lit "esc/q to close" in
  let footerRightWidth := visibleWidth (plain footerRight) in
  let footerLeftMax := Z.max 0 (contentArea - footerRightWidth - 1) in
  let footerLeftLabel := fitTextEnd (lit "[star/fork]") footerLeftMax in
  let footerLeft :=
    if is_empty footerLeftLabel then []
    else hyperlink (lit "https://github.com/taviks/pi-llm-usage") (plain footerLeftLabel) in
  let footerLeftWidth := len footerLeftLabel in
  let footerGap := Z.max 0 (contentArea - footerLeftWidth - footerRightWidth) in
  rowExact
    (fg "dim" footerLeft ++ plain (spaces (Z.to_nat footerGap)) ++ fg "dim" (plain footerRight))
    (footerLeftWidth + footerGap + footerRightWidth).

End Rows.

Definition renderPanel (width : Z) (state : RenderState) (results : list ProviderUsage)
  : Result (list styled) :=
  top <- borderLine width BOX_TL BOX_TR ;;
  pad1 <- addVerticalPad width (Z.to_nat (verticalPadding)) ;;
  body <- (match state with
           | Loading => Ok [row width (fg "muted" (plain (lit "Fetching usage data...")))]
           | Error => Ok [row width (fg "error" (plain (lit "Failed to fetch usage data")))]
           | Done => providerRows width results (sharedLabelWidthOf results)
           end) ;;
  pad2 <- addVerticalPad width (Z.to_nat (verticalPadding)) ;;
  let footer := footerRow width in
  pad3 <- addVerticalPad width (Z.to_nat (bottomEdgePadding)) ;;
  bottom <- borderLine width BOX_BL BOX_BR ;;
  Ok ([top] ++ pad1 ++ body ++ pad2 ++ [footer] ++ pad3 ++ [bottom]).

End WithTheme.
End Panel.

(** ** Concrete collaborators for the worked examples *)

Module Examples.
Import JS Notations Providers Panel.

(** A terminal in which every unit takes one column. *)
Definition unitTerminal : Terminal :=
  {| colw := fun _ => 1%nat; colw_narrow := fun _ _ => eq_refl |}.

(** A theme that brackets text between a start and an end sequence. *)
Definition sgr (code : string) : cell := Esc (ESC_CHAR :: lit "[" ++ lit code ++ lit "m").

Definition ansi_fg (role : string) (t : styled) : styled := [sgr role] ++ t ++ [sgr "39"].

Definition ansi_bold (t : styled) : styled := [sgr "1"] ++ t ++ [sgr "22"].

Lemma bracketed_width (a b : cell) (t : styled) :
  cellw (T := unitTerminal) a = 0%nat -> cellw (T := unitTerminal) b = 0%nat ->
  visibleWidth (T := unitTerminal) ([a] ++ t ++ [b]) = visibleWidth (T := unitTerminal) t.
Proof.
  intros Ha Hb. unfold visibleWidth, cols.
  rewrite !map_app, !list_sum_app. cbn [map]. rewrite Ha, Hb.
  change (list_sum [0%nat]) with 0%nat. lia.
Qed.

Definition ansiTheme : @Theme unitTerminal :=
  {| fg := ansi_fg;
     bold := ansi_bold;
     fg_width := fun role t => bracketed_width (sgr role) (sgr "39") t eq_refl eq_refl;
     bold_width := fun t => bracketed_width (sgr "1") (sgr "22") t eq_refl eq_refl |}.

(** Decimal rendering of a fraction whose expansion ends within
    seventeen digits. *)
Fixpoint frac_digits (fuel : nat) (r d : Z) : jstring :=
  match fuel with
  | O => []
  | S fuel' =>
      if r =? 0 then []
      else intToString (r * 10 / d) ++ frac_digits fuel' ((r * 10) mod d) d
  end.

Definition decimalToString (q : Q) : jstring :=
  let n := Qnum q in
  let d := Z.pos (Qden q) in
  (if n <? 0 then lit "-" else []) ++ intToString (Z.abs n / d) ++ lit "."
  ++ frac_digits 17 (Z.abs n mod d) d.

(** An engine for the examples: [JSON.parse] knows the listed documents
    and rejects every other text, the decoder hands its input on, dates
    are five hours after the epoch. *)
Definition SyntaxError : exn := mkExn (lit "SyntaxError") (lit "Unexpected token").

Fixpoint lookup_document (docs : list (jstring * value)) (s : jstring) : Result value :=
  match docs with
  | [] => Throw SyntaxError
  | (text, v) :: rest => if jstring_eqb s text then Ok v else lookup_document rest s
  end.

Definition tableEngine (docs : list (jstring * value)) : Engine :=
  {| JSON_parse := lookup_document docs;
     base64_to_utf8 := fun s => s;
     Date_getTime := fun v => match v with
                              | VStr _ => of_Z 18000000
                              | _ => NaN
                              end;
     objToNumber := fun _ => NaN;
     fracToString := decimalToString |}.

Definition quoted (s : string) : jstring := [34%N] ++ lit s ++ [34%N].

(** [~/.pi/agent/auth.json] holding one token for each provider. *)
Definition piAuthText : jstring :=
  lit "{" ++ quoted "anthropic" ++ lit ":{" ++ quoted "access" ++ lit ":" ++ quoted "tok"
  ++ lit "}," ++ quoted "openai-codex" ++ lit ":{" ++ quoted "access" ++ lit ":"
  ++ quoted "tok" ++ lit "}}".

Definition piAuthValue : value :=
  VObj [ (lit "anthropic", VObj [(lit "access", VStr (lit "tok"))]);
         (lit "openai-codex", VObj [(lit "access", VStr (lit "tok"))]) ].

Definition exampleEngine : Engine := tableEngine [(piAuthText, piAuthValue)].

(** A run with the credentials above in which every network call has
    the given outcome. *)
Definition worldAnswering (outcome : Result Response) : World :=
  {| homedir := lit "/home/u";
     readFileSync := fun path =>
       if jstring_eqb path (lit "/home/u/.pi/agent/auth.json") then Ok piAuthText
       else Throw (mkExn (lit "Error") (lit "ENOENT: no such file or directory"));
     fetch := fun _ => outcome;
     Date_now := of_Z 0 |}.

(** The providers answer with an empty object. *)
Definition emptyBodyWorld : World :=
  worldAnswering (Ok (mkResponse true 200 (Ok (lit "{}")) (Ok (VObj [])))).

(** A signal that has fired, and whether a request carries one. *)
Definition firedSignal : AbortSignal := mkSignal true.

Definition fired (req : Request) : bool :=
  match signal req with
  | Some s => aborted s
  | None => false
  end.

(** A run with the credentials above in which the runtime gives the
    calls it cancels, those with a fired signal among the [affected]
    ones, the outcome [onAbort]; every other call is answered with an
    empty object. *)
Definition cancellingWorld (affected : Request -> bool) (onAbort : Result Response) : World :=
  {| homedir := homedir emptyBodyWorld;
     readFileSync := readFileSync emptyBodyWorld;
     fetch := fun req => if fired req && affected req then onAbort
                         else fetch emptyBodyWorld req;
     Date_now := Date_now emptyBodyWorld |}.

(** The signal fires before the answer: [fetch] rejects. *)
Definition abortedWorld : World := cancellingWorld (fun _ => true) (Throw AbortError).

(** The same, when only Anthropic's usage call is still under way. *)
Definition anthropicAbortedWorld : World :=
  cancellingWorld
    (fun req => jstring_eqb (endpoint req) (lit "https://api.anthropic.com/api/oauth/usage"))
    (Throw AbortError).

(** The signal fires while the body of a 500 answer is being read. *)
Definition abortedErrorBodyWorld : World :=
  cancellingWorld (fun _ => true)
                  (Ok (mkResponse false 500 (Throw AbortError) (Throw AbortError))).

(** Two provider results for a panel. *)
Definition anthropicResult : ProviderUsage :=
  mkUsage (lit "Anthropic") None (Some (lit "someone.with.a.long.address@example.com"))
          [ mkWindow (lit "5h session") (of_Z 34) (Some (lit "5h"));
            mkWindow (lit "Weekly") (of_Z 81) None ]
          ANTHROPIC_LINKS None.

Definition codexResult : ProviderUsage :=
  mkUsage (lit "OpenAI Codex") None None [] CODEX_LINKS (Some (lit "HTTP 500: ")).

End Examples.

(** ** The vocabulary of the specification *)

Module Spec.
Import JS Notations Providers Panel.

(** Section 4.3 in its own words, on a whole number of seconds, given
    how a count is written; the specification writes it in decimal. *)
Definition formatSeconds_with (show : Z -> jstring) (n : Z) : jstring :=
  if n <=? 0 then lit "now"
  else
    let d := n / 86400 in
    let h := (n mod 86400) / 3600 in
    let m := ((n mod 86400) mod 3600) / 60 in
    if 0 <? d then
      show d ++ lit "d" ++ (if 0 <? h then lit " " ++ show h ++ lit "h" else [])
    else if 0 <? h then
      show h ++ lit "h" ++ (if 0 <? m then lit " " ++ show m ++ lit "m" else [])
    else if 0 <? m then show m ++ lit "m"
    else lit "<1m".

Definition formatSeconds_spec (n : Z) : jstring := formatSeconds_with intToString n.

(** The whole seconds on which the engine's arithmetic is exact: every
    whole number up to 2^53 is a double, and below it the quotients of
    [formatSeconds] are at least [1/86400] away from a whole number
    unless they are one. *)
Definition SAFE_SECONDS : Z := SAFE_INTEGER.

(** Section 4.4: what is left of a quota, and the filled cells of its
    gauge, [round(remaining / 100 * 8)]. *)
Definition remainingPct (percent : Q) : Q := inject_Z 100 - percent.

Definition fillCount (percent : Q) : Z :=
  Qfloor (remainingPct percent / inject_Z 100 * inject_Z 8 + (1 # 2)).

(** A window whose gauge can be drawn: its fill count, as the formula
    gives it, is one of 0 to 8, or its percentage is not a number. *)
Definition drawable (win : UsageWindow) : Prop :=
  match percentUsed win with
  | Fin p => 0 <= fillCount p <= 8
  | NaN => True
  end.

(** A window whose percentage is on the scale, from 0 to 100, or is not
    a number; and one that is at most 6 off the scale. *)
Definition onScale (win : UsageWindow) : Prop :=
  match percentUsed win with
  | Fin p => (0 <= p /\ p <= 100)%Q
  | NaN => True
  end.

Definition nearScale (win : UsageWindow) : Prop :=
  match percentUsed win with
  | Fin p => (- (6) <= p /\ p <= 106)%Q
  | NaN => True
  end.

(** The percentages at which [remaining / 100 * 8] lies half-way between
    two whole numbers, 6.25 + 12.5 k: there the fill count steps, at the
    first and the last of them out of [0,8]. *)
Definition gaugeTies : list Q :=
  [ - (625 # 100); 625 # 100; 1875 # 100; 3125 # 100; 4375 # 100;
    5625 # 100; 6875 # 100; 8125 # 100; 9375 # 100; 10625 # 100 ]%Q.

(** A percentage that is a tie or at least a millionth away from every
    tie.  The embedding computes [100 - p], the quotient by 100 and the
    product by 8 exactly; the engine rounds the first two to the nearest
    double, a relative change of 2^-53 at most each (the product by 8 is
    exact), and at a tie all three results are doubles.  Between -7 and
    107 this moves the product by less than 10^-12, so for such a
    percentage the engine's fill count is the exact one, and beyond it
    leaves the count on the side of [0,8] where the exact one is; next to
    a tie the engine's count may be the neighbouring one. *)
Definition awayFromTies (p : Q) : bool :=
  forallb (fun t => Qeq_bool p t
                    || Qle_bool (1 # 1000000) (p - t)%Q
                    || Qle_bool (1 # 1000000) (t - p)%Q)
          gaugeTies.

Definition tieFree (win : UsageWindow) : Prop :=
  match percentUsed win with
  | Fin p => awayFromTies p = true
  | NaN => True
  end.

(** A value read as data: [undefined] where the program would not get
    one. *)
Definition field (v : value) (k : string) : value :=
  match get_opt v k with
  | Ok x => x
  | Throw _ => VUndef
  end.

(** The two credential files. *)
Definition piAuthPath (W : World) : jstring := homedir W ++ lit "/.pi/agent/auth.json".
Definition codexAuthPath (W : World) : jstring := homedir W ++ lit "/.codex/auth.json".

(** The invariant of section 3. *)
Definition error_implies_no_windows (r : ProviderUsage) : Prop :=
  error r <> None -> windows r = [].

(** Cancellation as a client can observe it: the usage call rejects with
    an [AbortError], or it answers 2xx and reading the body does. *)
Definition cancelled (W : World) (req : Request) : Prop :=
  (exists e, fetch W req = Throw e /\ is_abort e = true) \/
  (exists res e, fetch W req = Ok res /\ ok res = true /\
                 json res = Throw e /\ is_abort e = true).

(** What the runtime owes a request made with a signal that has fired
    before the call is over. *)
Definition honoursSignal (W : World) (req : Request) : Prop :=
  forall s, signal req = Some s -> aborted s = true -> cancelled W req.

Definition cancelledUsage (who : string) (lnks : list ProviderLink) (acct : option jstring)
  : ProviderUsage :=
  mkUsage (lit who) None acct [] lnks (Some (lit "Cancelled")).

(** The fields of the Anthropic body and their labels, in the order of
    section 4.2. *)
Definition anthropicFields : list (string * string) :=
  [ ("five_hour", "5h session"); ("seven_day", "Weekly");
    ("seven_day_opus", "Weekly (Opus)"); ("seven_day_sonnet", "Weekly (Sonnet)") ]%string.

(** The body of the example of section 8, item 6. *)
Definition exampleAnthropicBody (iso : jstring) : value :=
  VObj [ (lit "five_hour", VObj [ (lit "utilization", VNum (of_Z 34));
                                  (lit "resets_at", VStr iso) ]);
         (lit "seven_day", VObj [ (lit "utilization", VNum (of_Z 81)) ]) ].

(** An entry of [additional_rate_limits] as in section 8, item 7. *)
Definition exampleExtra (limit_name : string) (primary secondary : Z) : value :=
  VObj [ (lit "limit_name", VStr (lit limit_name));
         (lit "rate_limit",
          VObj [ (lit "primary_window", VObj [(lit "used_percent", VNum (of_Z primary))]);
                 (lit "secondary_window", VObj [(lit "used_percent", VNum (of_Z secondary))]) ]) ].

(** Whether [pat] occurs in [s]. *)
Definition occurs (pat s : jstring) : bool :=
  existsb (fun i => starts_with pat (skipn i s)) (seq 0 (S (List.length s))).

(** An entry as the interface types it: an object whose name, when it
    has one, is a string. *)
Definition typedEntry (extra : value) : Prop :=
  nullish extra = false /\
  (truthy (field extra "limit_name") = true -> exists n, field extra "limit_name" = VStr n).

Section WithEngine.
Context {E : Engine}.

(** The credentials each client ends up with. *)
Definition anthropicAuth (W : World) : value :=
  match readPiAuth W "anthropic" with
  | Ok auth => auth
  | Throw _ => VNull
  end.

Definition codexToken (W : World) : value :=
  match readPiAuth W "openai-codex", readCodexAuth W with
  | Ok piAuth, Ok codexAuth =>
      coalesce (field piAuth "access")
               (match codexAuth with
                | Some c => accessToken c
                | None => VUndef
                end)
  | _, _ => VUndef
  end.

(** Section 4.2, Anthropic mapping: the window of one field, none when
    its utilization is absent or null. *)
Definition mappedWindow (W : World) (data : value) (fl : string * string) : list UsageWindow :=
  let bucket := field data (fst fl) in
  let utilization := field bucket "utilization" in
  let resets_at := field bucket "resets_at" in
  if nullish utilization then []
  else [mkWindow (lit (snd fl)) (toNumber utilization)
                 (if truthy resets_at then Some (formatResetTimestamp W resets_at) else None)].

(** Section 4.2, Codex mapping, for one entry of
    [additional_rate_limits]. *)
Definition usedPercent (w : value) : num :=
  toNumber (coalesce (field w "used_percent") (VNum (of_Z 0))).

Definition resetText (w : value) : option jstring :=
  let seconds := field w "reset_after_seconds" in
  if nullish seconds then None else Some (formatSeconds (toNumber seconds)).

Definition surfaced (extra : value) : option UsageWindow :=
  let limit_name := field extra "limit_name" in
  let payload := field extra "rate_limit" in
  let primary := usedPercent (field payload "primary_window") in
  let secondary := usedPercent (field payload "secondary_window") in
  match limit_name with
  | VStr n =>
      if jstring_eqb n [] || negb (truthy payload) then None
      else if negb (num_gt primary (of_Z 0)) && negb (num_gt secondary (of_Z 0)) then None
      else Some (mkWindow (shortName n) (Math_max primary secondary)
                          (resetText (field payload "secondary_window")))
  | _ => None
  end.

Definition surfacedList (extra : value) : list UsageWindow :=
  match surfaced extra with
  | Some w => [w]
  | None => []
  end.

End WithEngine.

Section WithTheme.
Context {E : Engine} {T : Terminal} {Th : Theme}.

Definition all_wide (width : Z) (lines : list styled) : Prop :=
  Forall (fun line => visibleWidth line = width) lines.

(** The row of section 4.4 for a window whose gauge has [filled] filled
    cells: label column, gauge, percentage left, reset text. *)
Definition resetSuffix (win : UsageWindow) : styled :=
  match resetIn win with
  | Some r => if jstring_eqb r [] then [] else fg "dim" (plain (lit " resets in " ++ r))
  | None => []
  end.

Definition usageRow (win : UsageWindow) (labelWidth : Z) (filled : nat) : styled :=
  let color := colorOf (remainingOf win) in
  fg "text" (plain (padEnd (label win) labelWidth)) ++ plain (lit " ")
  ++ (fg "dim" (plain (lit "[")) ++ fg color (plain (repeat GAUGE_FULL filled))
      ++ fg "dim" (plain (repeat GAUGE_EMPTY (8 - filled)))
      ++ fg "dim" (plain (lit "]")))
  ++ plain (lit " ")
  ++ fg color (plain (padStart (numToString (remainingOf win) ++ lit "%") 4))
  ++ plain (lit " left")
  ++ resetSuffix win.

End WithTheme.
End Spec.

(** ** The overlay's handler ([src/index.ts], the default export) *)

Module Overlay.
Import JS Notations Providers Panel.

(** [Promise.all] over promises that have settled: the results in the
    order of the promises, or a rejection. *)
Fixpoint Promise_all {A} (promises : list (Result A)) : Result (list A) :=
  match promises with
  | [] => Ok []
  | p :: rest =>
      x <- p ;;
      xs <- Promise_all rest ;;
      Ok (x :: xs)
  end.

(** The variables of the handler's closure; the signal is that of its
    [AbortController]. *)
Record PanelState := mkPanel {
  state : RenderState;
  results : list ProviderUsage
}.

Definition opened : PanelState := mkPanel Loading [].

Section WithEngine.
Context {E : Engine}.

(** The [then] and the [catch] of the handler, once both calls have
    settled; [tui.requestRender()] only asks the host for a redraw. *)
Definition settle (W : World) (controller : AbortSignal) (panel : PanelState) : PanelState :=
  match Promise_all [fetchAnthropicUsage W (Some controller);
                     fetchCodexUsage W (Some controller)] with
  | Ok r => mkPanel Done r
  | Throw _ => mkPanel Error (results panel)
  end.

End WithEngine.

Section WithTheme.
Context {E : Engine} {T : Terminal} {Th : Theme}.

Definition render (panel : PanelState) (width : Z) : Result (list styled) :=
  renderPanel width (state panel) (results panel).

End WithTheme.
End Overlay.

(** ** Vocabulary for the behaviour of the clients *)

Module Outcome.
Import JS Notations Providers Panel Spec.

Definition noCredentials (who : string) (lnks : list ProviderLink) : ProviderUsage :=
  mkUsage (lit who) None None [] lnks (Some (lit "No OAuth credentials found")).

(** What the [catch] of a client makes of a failure. *)
Definition failed (who : string) (lnks : list ProviderLink) (acct : option jstring) (e : exn)
  : ProviderUsage :=
  mkUsage (lit who) None acct [] lnks
          (Some (if is_abort e then lit "Cancelled" else message e)).

(** What a client returns once it holds credentials, by the outcome of
    the usage call, of the body reader and of the mapping. *)
Definition settled (who : string) (lnks : list ProviderLink) (acct : option jstring)
    (response : Result Response)
    (mapping : value -> Result (option jstring * list UsageWindow)) : ProviderUsage :=
  match response with
  | Throw e => failed who lnks acct e
  | Ok res =>
      if ok res then
        match json res with
        | Throw e => failed who lnks acct e
        | Ok data =>
            match mapping data with
            | Throw e => failed who lnks acct e
            | Ok (plan, windows) => mkUsage (lit who) plan acct windows lnks None
            end
        end
      else mkUsage (lit who) None acct [] lnks (Some (http_error res))
  end.

(** The same run with another network. *)
Definition withNetwork (W : World) (net : Request -> Result Response) : World :=
  mkWorld (homedir W) (readFileSync W) net (Date_now W).

(** The keys the token decoder probes. *)
Definition OPENAI_PROFILE : string := "https://api.openai.com/profile".
Definition ANTHROPIC_PROFILE : string := "https://api.anthropic.com/profile".
Definition OPENAI_AUTH : string := "https://api.openai.com/auth".

(** A string that is not empty. *)
Definition nonempty (s : option jstring) : option jstring :=
  match s with
  | Some e => if jstring_eqb e [] then None else Some e
  | None => None
  end.

(** No [-] and no [_] is left. *)
Definition url_safe_free (s : jstring) : bool :=
  forallb (fun x => negb (N.eqb x 45%N) && negb (N.eqb x 95%N)) s.

(** The email of a profile answer: [account.email] of the body of a 2xx
    answer, when it is a string that is not empty. *)
Definition profileEmailOf (answer : Result Response) : option jstring :=
  match answer with
  | Ok res =>
      if ok res then
        match json res with
        | Ok data => nonempty (string_of (field (field data "account") "email"))
        | Throw _ => None
        end
      else None
  | Throw _ => None
  end.

Definition typedExtras (additional : value) : Prop :=
  truthy additional = false \/
  exists items, additional = VArr items /\ Forall typedEntry items.

Section WithEngine.
Context {E : Engine}.

(** What the two credential files hold: the entry of a provider in
    [~/.pi/agent/auth.json], [null] when there is none, and the token
    [tokens.access_token] of [~/.codex/auth.json]. *)
Definition piEntry (W : World) (provider : string) : value :=
  match readFileSync W (piAuthPath W) with
  | Ok raw =>
      match JSON_parse raw with
      | Ok data => coalesce (field data provider) VNull
      | Throw _ => VNull
      end
  | Throw _ => VNull
  end.

Definition legacyToken (W : World) : value :=
  match readFileSync W (codexAuthPath W) with
  | Ok raw =>
      match JSON_parse raw with
      | Ok data => field (field data "tokens") "access_token"
      | Throw _ => VUndef
      end
  | Throw _ => VUndef
  end.

(** The email a token holds, if any. *)
Definition jwtEmailOf (token : value) : option jstring :=
  match extractEmailFromJwt token with
  | Ok found => found
  | Throw _ => None
  end.

(** The email of the legacy store: that of its token, when it has one. *)
Definition legacyEmail (W : World) : option jstring :=
  if truthy (legacyToken W) then jwtEmailOf (legacyToken W) else None.

(** The account each client attaches to its results, by priority. *)
Definition anthropicAccount (W : World) (signal : option AbortSignal) : option jstring :=
  let auth := anthropicAuth W in
  let access := field auth "access" in
  let fromJwt := match extractEmailFromJwt access with
                 | Ok found => found
                 | Throw _ => None
                 end in
  let fromProfile := match fromJwt with
                     | Some _ => fromJwt
                     | None => match fetchAnthropicProfileEmail W access signal with
                               | Ok found => found
                               | Throw _ => None
                               end
                     end in
  or_else fromProfile (string_of (field auth "accountId")).

Definition codexAccount (W : World) : option jstring :=
  let fromJwt := match extractEmailFromJwt (codexToken W) with
                 | Ok found => found
                 | Throw _ => None
                 end in
  let fromLegacy := match readCodexAuth W with
                    | Ok (Some c) => email c
                    | _ => None
                    end in
  let accountId := match readPiAuth W "openai-codex" with
                   | Ok piAuth => field piAuth "accountId"
                   | Throw _ => VUndef
                   end in
  or_else fromJwt (or_else fromLegacy (string_of accountId)).

(** The window of a main Codex limit, none when the provider did not
    send it. *)
Definition mainWindow (lbl : string) (w : value) : list UsageWindow :=
  if truthy w then [mkWindow (lit lbl) (toNumber (field w "used_percent")) (resetText w)]
  else [].

(** The code-review window, shown only when used. *)
Definition reviewWindow (w : value) : list UsageWindow :=
  if truthy w && num_gt (toNumber (field w "used_percent")) (of_Z 0)
  then [mkWindow (lit "Code Review") (toNumber (field w "used_percent")) (resetText w)]
  else [].

(** The windows of the model-specific limits. *)
Definition extraWindowsOf (additional : value) : list UsageWindow :=
  match additional with
  | VArr items => flat_map surfacedList items
  | _ => []
  end.

End WithEngine.
End Outcome.

(** ** Vocabulary for the layout of the panel *)

Module Layout.
Import JS Notations Providers Panel Spec.

Definition narrowLinks (links : list ProviderLink) : Prop :=
  Forall (fun l => forallb narrow (link_label l) = true) links.

(** The windows of a result that reach the screen: an error hides them. *)
Definition displayed (result : ProviderUsage) : list UsageWindow :=
  match error result with
  | Some e => if is_empty e then windows result else []
  | None => windows result
  end.

(** The rows a panel has, by state: eight of frame, padding and footer,
    and per provider a heading, a spacer and at least one body row, with
    two spacers between providers. *)
Definition bodyHeight (result : ProviderUsage) : nat :=
  2 + Nat.max 1 (List.length (displayed result)).

Fixpoint providersHeight (results : list ProviderUsage) : nat :=
  match results with
  | [] => 0
  | [result] => bodyHeight result
  | result :: rest => bodyHeight result + 2 + providersHeight rest
  end.

Definition panelHeight (state : RenderState) (results : list ProviderUsage) : nat :=
  8 + match state with
      | Done => providersHeight results
      | _ => 1
      end.

(** The columns of the text put after a row when the window has a reset
    time. *)
Definition resetWidth (win : UsageWindow) : Z :=
  match resetIn win with
  | Some r => if is_empty r then 0 else 11 + len r
  | None => 0
  end.

(** The name a provider is shown under. *)
Definition providerLabelOf (result : ProviderUsage) : jstring :=
  match plan result with
  | Some p => if is_empty p then provider result
              else provider result ++ lit " (" ++ p ++ lit ")"
  | None => provider result
  end.

(** A result whose texts are made of single-column units. *)
Definition narrowResult (result : ProviderUsage) : Prop :=
  forallb narrow (provider result) = true /\
  (forall p, plan result = Some p -> forallb narrow p = true) /\
  (forall a, account result = Some a -> forallb narrow a = true) /\
  narrowLinks (links result).

Definition labelFold (acc : Z) (results : list ProviderUsage) : Z :=
  fold_left
    (fun acc result =>
       fold_left (fun acc' win => Z.max acc' (len (label win))) (windows result) acc)
    results acc.

Section WithTheme.
Context {E : Engine} {T : Terminal} {Th : Theme}.

(** One link of the cluster, as [renderLinks] draws it. *)
Definition linkToken (l : ProviderLink) : styled :=
  hyperlink (url l)
            (fg "dim" (plain (lit "[")) ++ fg "muted" (plain (link_label l))
             ++ fg "dim" (plain (lit "]"))).

End WithTheme.
End Layout.

(** ** More runs for the worked examples *)

Module Runs.
Import JS Notations Providers Panel Spec Examples.

(** The provider answers 503 with a body of 150 units. *)
Definition unavailable : Response :=
  mkResponse false 503 (Ok (repeat 120%N 150)) (Throw SyntaxError).

Definition unavailableWorld : World := worldAnswering (Ok unavailable).

(** The network is down. *)
Definition fetchFailed : exn := mkExn (lit "TypeError") (lit "fetch failed").

Definition offlineWorld : World := worldAnswering (Throw fetchFailed).

(** A token whose middle segment decodes to an object with a top-level
    [email]; the engine knows that one document. *)
Definition jwtToken : jstring := lit "eyJhbGciOiJub25lIn0.eyJlbWFpbCI6ImFAYi5jIn0.sig".

Definition jwtPayload : value := VObj [(lit "email", VStr (lit "a@b.c"))].

Definition jwtEngine : Engine :=
  tableEngine [(normalize_payload (lit "eyJlbWFpbCI6ImFAYi5jIn0"), jwtPayload)].

(** A machine that holds the given files, with the given network. *)
Fixpoint fileAt (files : list (jstring * jstring)) (path : jstring) : Result jstring :=
  match files with
  | [] => Throw (mkExn (lit "Error") (lit "ENOENT: no such file or directory"))
  | (name, content) :: rest => if jstring_eqb path name then Ok content else fileAt rest path
  end.

Definition machine (files : list (jstring * jstring)) (net : Request -> Result Response)
  : World :=
  {| homedir := lit "/home/u";
     readFileSync := fileAt files;
     fetch := net;
     Date_now := of_Z 0 |}.

(** The two credential files for a given token: the primary store with
    an entry and an [accountId] for each provider, and the legacy store. *)
Definition inQuotes (s : jstring) : jstring := [34%N] ++ s ++ [34%N].

Definition storeText (token : jstring) : jstring :=
  lit "{" ++ quoted "anthropic" ++ lit ":{" ++ quoted "access" ++ lit ":" ++ inQuotes token
  ++ lit "," ++ quoted "accountId" ++ lit ":" ++ quoted "acct-1" ++ lit "},"
  ++ quoted "openai-codex" ++ lit ":{" ++ quoted "access" ++ lit ":" ++ inQuotes token
  ++ lit "," ++ quoted "accountId" ++ lit ":" ++ quoted "acct-2" ++ lit "}}".

Definition storeValue (token : jstring) : value :=
  VObj [ (lit "anthropic", VObj [ (lit "access", VStr token);
                                  (lit "accountId", VStr (lit "acct-1")) ]);
         (lit "openai-codex", VObj [ (lit "access", VStr token);
                                     (lit "accountId", VStr (lit "acct-2")) ]) ].

Definition legacyText (token : jstring) : jstring :=
  lit "{" ++ quoted "tokens" ++ lit ":{" ++ quoted "access_token" ++ lit ":"
  ++ inQuotes token ++ lit "}}".

Definition legacyValue (token : jstring) : value :=
  VObj [(lit "tokens", VObj [(lit "access_token", VStr token)])].

(** An engine that knows these documents and the payload of [jwtToken]. *)
Definition accountEngine : Engine :=
  tableEngine [ (storeText (lit "tok"), storeValue (lit "tok"));
                (storeText jwtToken, storeValue jwtToken);
                (legacyText jwtToken, legacyValue jwtToken);
                (normalize_payload (lit "eyJlbWFpbCI6ImFAYi5jIn0"), jwtPayload) ].

(** A network whose profile endpoint gives the stated answer and whose
    other endpoints answer with an empty object. *)
Definition emptyAnswer : Response := mkResponse true 200 (Ok (lit "{}")) (Ok (VObj [])).

Definition profileAnswer : Response :=
  mkResponse true 200 (Ok [])
             (Ok (VObj [(lit "account", VObj [(lit "email", VStr (lit "p@q.r"))])])).

Definition networkWithProfile (answer : Result Response) (req : Request) : Result Response :=
  if jstring_eqb (endpoint req) (lit "https://api.anthropic.com/api/oauth/profile")
  then answer else Ok emptyAnswer.

(** Four runs: the token of the primary store holds an email; it holds
    none and the profile endpoint gives one; neither does; neither does
    and the legacy store has a token that holds one. *)
Definition tokenEmailWorld : World :=
  machine [(lit "/home/u/.pi/agent/auth.json", storeText jwtToken)]
          (networkWithProfile (Ok profileAnswer)).

Definition profileEmailWorld : World :=
  machine [(lit "/home/u/.pi/agent/auth.json", storeText (lit "tok"))]
          (networkWithProfile (Ok profileAnswer)).

Definition accountIdWorld : World :=
  machine [(lit "/home/u/.pi/agent/auth.json", storeText (lit "tok"))]
          (networkWithProfile (Ok unavailable)).

Definition legacyWorld : World :=
  machine [ (lit "/home/u/.pi/agent/auth.json", storeText (lit "tok"));
            (lit "/home/u/.codex/auth.json", legacyText jwtToken) ]
          (networkWithProfile (Ok unavailable)).

(** A machine with a file, but neither credential file. *)
Definition noCredentialsWorld : World :=
  machine [(lit "/home/u/notes.txt", lit "remember the milk")] (fun _ => Throw AbortError).

(** A Codex body with both main windows, one model-specific limit in
    use and an unused code-review limit. *)
Definition codexBody : value :=
  VObj [ (lit "plan_type", VStr (lit "plus"));
         (lit "rate_limit",
          VObj [ (lit "primary_window",
                  VObj [ (lit "used_percent", VNum (of_Z 12));
                         (lit "reset_after_seconds", VNum (of_Z 5400)) ]);
                 (lit "secondary_window", VObj [(lit "used_percent", VNum (of_Z 40))]) ]);
         (lit "additional_rate_limits", VArr [exampleExtra "GPT-5-Codex-mini" 0 12]);
         (lit "code_review_rate_limit",
          VObj [(lit "primary_window", VObj [(lit "used_percent", VNum (of_Z 0))])]) ].

(** A Codex body whose list of model-specific limits holds a [null]. *)
Definition brokenCodexBody : value :=
  VObj [ (lit "rate_limit",
          VObj [(lit "primary_window", VObj [(lit "used_percent", VNum (of_Z 12))])]);
         (lit "additional_rate_limits", VArr [VNull]) ].

Definition brokenCodexAnswer : Response :=
  mkResponse true 200 (Ok []) (Ok brokenCodexBody).

Definition brokenCodexWorld : World := worldAnswering (Ok brokenCodexAnswer).

(** A result with a window at 150 percent. *)
Definition overdrawnResult : ProviderUsage :=
  mkUsage (lit "Anthropic") None None [mkWindow (lit "Weekly") (of_Z 150) None]
          ANTHROPIC_LINKS None.

(** A window object without [used_percent]. *)
Definition windowWithoutPercent : value :=
  VObj [(lit "reset_after_seconds", VNum (of_Z 60))].

End Runs.

(** ** Properties *)

Import JS Notations Providers Panel Spec.

(** *** Numbers and strings *)

Lemma num_le_of_Z (a b : Z) : num_le (of_Z a) (of_Z b) = (a <=? b).
Proof.
  unfold num_le, cmp, of_Z, Qle_bool, inject_Z. simpl. now rewrite !Z.mul_1_r.
Qed.

Lemma num_gt_of_Z (a b : Z) : num_gt (of_Z a) (of_Z b) = (b <? a).
Proof.
  unfold num_gt, num_lt, cmp, Qlt_bool.
  change (negb (num_le (of_Z a) (of_Z b)) = (b <? a)).
  rewrite num_le_of_Z. now rewrite Z.ltb_antisym.
Qed.

Lemma floor_div_of_Z (a k : Z) :
  Math_floor (num_div (of_Z a) (of_Z k)) = of_Z (a / k).
Proof.
  unfold Math_floor, num_div, lift2, of_Z. f_equal. f_equal.
  symmetry. apply Zdiv_Qdiv.
Qed.

Lemma Qtrunc_div_of_Z (a k : Z) : 0 <= a -> 0 < k ->
  Qtrunc (inject_Z a / inject_Z k) = a / k.
Proof.
  intros Ha Hk. unfold Qtrunc.
  destruct k as [|k|k]; try lia.
  unfold Qdiv, Qinv, Qmult, inject_Z; simpl.
  rewrite Z.mul_1_r. rewrite Z.quot_div_nonneg by lia. reflexivity.
Qed.

Lemma floor_rem_div_of_Z (a k j : Z) : 0 <= a -> 0 < k ->
  Math_floor (num_div (num_rem (of_Z a) (of_Z k)) (of_Z j)) = of_Z ((a mod k) / j).
Proof.
  intros Ha Hk. unfold Math_floor, num_div, num_rem, lift2, of_Z.
  assert (Hz : Qeq_bool (inject_Z k) 0 = false).
  { destruct k; try lia. reflexivity. }
  rewrite Hz. f_equal. f_equal.
  rewrite Qtrunc_div_of_Z by assumption.
  rewrite (Zdiv_Qdiv (a mod k) j).
  apply Qfloor_comp.
  assert (Hr : inject_Z a - inject_Z k * inject_Z (a / k) == inject_Z (a mod k)).
  { rewrite <- inject_Z_mult. unfold Qminus. rewrite <- inject_Z_opp, <- inject_Z_plus.
    assert (Hm : a + - (k * (a / k)) = a mod k) by (rewrite Z.mod_eq; lia).
    rewrite Hm. reflexivity. }
  rewrite Hr. reflexivity.
Qed.

Lemma Qfloor_ge (x : Q) (n : Z) : n <= Qfloor x <-> (inject_Z n <= x)%Q.
Proof.
  split; intros H.
  - apply Qle_trans with (inject_Z (Qfloor x)); [now rewrite <- Zle_Qle | apply Qfloor_le].
  - rewrite <- (Qfloor_Z n). now apply Qfloor_resp_le.
Qed.

Lemma Qfloor_lt (x : Q) (n : Z) : Qfloor x < n <-> (x < inject_Z n)%Q.
Proof.
  split; intros H.
  - apply Qlt_le_trans with (inject_Z (Qfloor x + 1)); [apply Qlt_floor|].
    rewrite <- Zle_Qle. lia.
  - apply Z.nle_gt. intros Hn. apply Qfloor_ge in Hn.
    apply (Qlt_irrefl x). now apply Qlt_le_trans with (inject_Z n).
Qed.

Lemma Qtrunc_sub_Z (a b : Z) : Qtrunc (inject_Z a - inject_Z b) = a - b.
Proof.
  unfold Qtrunc, Qminus, Qplus, Qopp, inject_Z. cbn [Qnum Qden].
  change (Z.pos (1 * 1)) with 1. rewrite Z.quot_1_r. lia.
Qed.

Lemma repeat_count_of_Z (z : Z) : repeat_count (of_Z z) = z.
Proof. unfold repeat_count, of_Z, Qtrunc. simpl. apply Z.quot_1_r. Qed.

Lemma concat_repeat_single (c : cu) (n : nat) : List.concat (repeat [c] n) = repeat c n.
Proof. induction n; simpl; congruence. Qed.

Lemma str_repeat_of_Z (c : cu) (z : Z) : 0 <= z ->
  str_repeat [c] (of_Z z) = Ok (repeat c (Z.to_nat z)).
Proof.
  intros Hz. unfold str_repeat. rewrite repeat_count_of_Z.
  destruct (z <? 0) eqn:H; [apply Z.ltb_lt in H; lia|].
  now rewrite concat_repeat_single.
Qed.

Lemma str_repeat_negative (s : jstring) (z : Z) : z < 0 ->
  str_repeat s (of_Z z) = Throw (InvalidCount z).
Proof.
  intros Hz. unfold str_repeat. rewrite repeat_count_of_Z.
  apply Z.ltb_lt in Hz. now rewrite Hz.
Qed.

Lemma len_firstn (s : jstring) (n : nat) : len (firstn n s) = Z.min (Z.of_nat n) (len s).
Proof. unfold len. rewrite length_firstn. lia. Qed.

Lemma len_app (a b : jstring) : len (a ++ b) = len a + len b.
Proof. unfold len. rewrite length_app. lia. Qed.

Lemma forallb_firstn {A} (f : A -> bool) (n : nat) (l : list A) :
  forallb f l = true -> forallb f (firstn n l) = true.
Proof.
  revert n. induction l as [|x l IH]; intros [|n] H; try reflexivity.
  cbn [forallb firstn] in *. apply andb_prop in H as [Hx Hl].
  now rewrite Hx, IH.
Qed.

Lemma starts_with_app (pat s : jstring) : starts_with pat (pat ++ s) = true.
Proof. induction pat as [|c pat IH]; [reflexivity|]. cbn. now rewrite N.eqb_refl. Qed.

Lemma skipn_app_exact {A} (a b : list A) : skipn (List.length a) (a ++ b) = b.
Proof. induction a; [reflexivity | assumption]. Qed.

Lemma replace_first_unfold (pat rep s : jstring) :
  replace_first pat rep s
  = if starts_with pat s then rep ++ skipn (List.length pat) s
    else match s with
         | [] => []
         | c :: s' => c :: replace_first pat rep s'
         end.
Proof. destruct s; reflexivity. Qed.

(** The unflagged [replace] rewrites the leftmost match and nothing
    after it. *)
Lemma replace_first_leftmost (pat rep a b : jstring) :
  (forall i, (i < List.length a)%nat -> starts_with pat (skipn i (a ++ pat ++ b)) = false) ->
  replace_first pat rep (a ++ pat ++ b) = a ++ rep ++ b.
Proof.
  induction a as [|c a IH]; intros H.
  - cbn [app]. rewrite replace_first_unfold, starts_with_app. now rewrite skipn_app_exact.
  - rewrite replace_first_unfold.
    assert (H0 : starts_with pat ((c :: a) ++ pat ++ b) = false)
      by (apply (H 0%nat); cbn; lia).
    rewrite H0. cbn [app]. f_equal.
    apply IH. intros i Hi. apply (H (S i)). cbn; lia.
Qed.

Section WithEngine.
Context {E : Engine}.

Lemma numToString_of_Z (z : Z) :
  Z.abs z <= SAFE_INTEGER -> numToString (of_Z z) = intToString z.
Proof.
  intros Hz. unfold numToString, of_Z, is_integer. rewrite Qfloor_Z.
  assert (H : Qeq_bool (inject_Z z) (inject_Z z) = true) by (apply Qeq_bool_iff; reflexivity).
  rewrite H. apply Z.leb_le in Hz. now rewrite Hz.
Qed.

(** On whole seconds the source's [/], [%] and [Math.floor] are the
    division and the remainders of the rule. *)
Lemma formatSeconds_whole (n : Z) :
  formatSeconds (of_Z n) = formatSeconds_with (fun z => numToString (of_Z z)) n.
Proof.
  unfold formatSeconds, formatSeconds_with.
  rewrite num_le_of_Z. destruct (n <=? 0) eqn:Hn; [reflexivity|].
  apply Z.leb_gt in Hn.
  rewrite floor_div_of_Z.
  rewrite !floor_rem_div_of_Z by lia.
  rewrite !num_gt_of_Z.
  replace ((n mod 86400) mod 3600) with (n mod 3600).
  2:{ symmetry. apply Z.mod_mod_divide. exists 24. reflexivity. }
  reflexivity.
Qed.

Lemma formatSeconds_integer (n : Z) :
  n <= SAFE_SECONDS -> formatSeconds (of_Z n) = formatSeconds_spec n.
Proof.
  intros Hsafe. rewrite formatSeconds_whole. unfold formatSeconds_spec, formatSeconds_with.
  destruct (Z.leb_spec n 0); [reflexivity|].
  assert (H53 : 24 <= SAFE_INTEGER /\ 60 <= SAFE_INTEGER) by (split; discriminate).
  change SAFE_SECONDS with SAFE_INTEGER in Hsafe.
  assert (Hd : 0 <= n / 86400 <= n) by (Z.div_mod_to_equations; lia).
  assert (Hh : 0 <= (n mod 86400) / 3600 < 24) by (Z.div_mod_to_equations; lia).
  assert (Hm : 0 <= ((n mod 86400) mod 3600) / 60 < 60) by (Z.div_mod_to_equations; lia).
  rewrite !numToString_of_Z by lia. reflexivity.
Qed.

(** C8.  On every whole number of seconds up to 2^53, the range in
    which the engine's numbers hold every whole number and its division
    cannot step over one, [formatSeconds] is the rule of section 4.3:
    ["now"] when the count is zero or negative, otherwise days, hours and
    minutes by floor division by 86400, 3600 and 60 on successive
    remainders, written in decimal, the coarsest one or two units being
    shown; in particular 90000 gives ["1d 1h"], 5400 gives ["1h 30m"] and
    45 gives ["<1m"]. *)
Theorem formatSeconds_coarsest_units (n : Z) :
  n <= SAFE_SECONDS ->
  formatSeconds (of_Z n) = formatSeconds_spec n /\
  (n <= 0 -> formatSeconds (of_Z n) = lit "now") /\
  formatSeconds (of_Z 90000) = lit "1d 1h" /\
  formatSeconds (of_Z 5400) = lit "1h 30m" /\
  formatSeconds (of_Z 45) = lit "<1m".
Proof.
  intros Hsafe.
  split; [now apply formatSeconds_integer|].
  split.
  - intros Hn. rewrite formatSeconds_integer by assumption.
    unfold formatSeconds_spec, formatSeconds_with.
    apply Z.leb_le in Hn. now rewrite Hn.
  - rewrite !formatSeconds_integer by (vm_compute; discriminate).
    repeat split; reflexivity.
Qed.

End WithEngine.

(** *** Truncation with an ellipsis *)

Lemma fitTextEnd_fits (text : jstring) (maxLength : Z) :
  len text <= maxLength -> fitTextEnd text maxLength = text.
Proof. intros H. unfold fitTextEnd. apply Z.leb_le in H. now rewrite H. Qed.

Lemma fitTextEnd_ellipsis (text : jstring) (maxLength : Z) :
  maxLength < len text -> 3 < maxLength ->
  fitTextEnd text maxLength = firstn (Z.to_nat (maxLength - 3)) text ++ lit "...".
Proof.
  intros Hlen Hmax. unfold fitTextEnd, slice0.
  destruct (Z.leb_spec (len text) maxLength); [lia|].
  destruct (Z.leb_spec maxLength 3); [lia|].
  destruct (Z.ltb_spec (maxLength - 3) 0); [lia|]. reflexivity.
Qed.

Lemma fitTextEnd_hard (text : jstring) (maxLength : Z) :
  maxLength < len text -> 0 <= maxLength <= 3 ->
  fitTextEnd text maxLength = firstn (Z.to_nat maxLength) text.
Proof.
  intros Hlen Hmax. unfold fitTextEnd, slice0.
  destruct (Z.leb_spec (len text) maxLength); [lia|].
  destruct (Z.leb_spec maxLength 3); [|lia].
  destruct (Z.ltb_spec maxLength 0); [lia|]. reflexivity.
Qed.

Lemma len_fitTextEnd (text : jstring) (maxLength : Z) :
  0 <= maxLength -> len (fitTextEnd text maxLength) = Z.min (len text) maxLength.
Proof.
  intros H0. destruct (Z.le_gt_cases (len text) maxLength) as [Hfit|Hcut].
  - rewrite fitTextEnd_fits by assumption. lia.
  - destruct (Z.le_gt_cases maxLength 3) as [H3|H3].
    + rewrite fitTextEnd_hard by lia. rewrite len_firstn. lia.
    + rewrite fitTextEnd_ellipsis by lia. rewrite len_app, len_firstn.
      change (len (lit "...")) with 3. lia.
Qed.

Lemma fitTextEnd_narrow (text : jstring) (maxLength : Z) :
  0 <= maxLength -> forallb narrow text = true ->
  forallb narrow (fitTextEnd text maxLength) = true.
Proof.
  intros H0 Hn. destruct (Z.le_gt_cases (len text) maxLength) as [Hfit|Hcut].
  - now rewrite fitTextEnd_fits.
  - destruct (Z.le_gt_cases maxLength 3) as [H3|H3].
    + rewrite fitTextEnd_hard by lia. now apply forallb_firstn.
    + rewrite fitTextEnd_ellipsis by lia. rewrite forallb_app.
      rewrite forallb_firstn by assumption. reflexivity.
Qed.

(** C9, as the code has it.  [fitTextEnd] returns a text that fits
    unchanged; a text that does not fit is cut to exactly [maxLength]
    units, the last three of them being an ellipsis when [maxLength] is
    more than 3, and without an ellipsis when [maxLength] is 3 or less:
    what decides is the room available, not how much is cut. *)
Theorem fitTextEnd_ellipsis_by_room (text : jstring) (maxLength : Z) :
  (len text <= maxLength -> fitTextEnd text maxLength = text) /\
  (maxLength < len text -> 3 < maxLength ->
   fitTextEnd text maxLength = firstn (Z.to_nat (maxLength - 3)) text ++ lit "..." /\
   len (fitTextEnd text maxLength) = maxLength) /\
  (maxLength < len text -> 0 <= maxLength <= 3 ->
   fitTextEnd text maxLength = firstn (Z.to_nat maxLength) text /\
   len (fitTextEnd text maxLength) = maxLength).
Proof.
  split; [apply fitTextEnd_fits|]. split.
  - intros Hlen Hmax. split; [now apply fitTextEnd_ellipsis|].
    rewrite len_fitTextEnd by lia. lia.
  - intros Hlen Hmax. split; [now apply fitTextEnd_hard|].
    rewrite len_fitTextEnd by lia. lia.
Qed.

(** C9 as stated fails both ways: cutting two units from an eight-unit
    text at width 6 still produces an ellipsis, and cutting six units at
    width 2 produces none. *)
Lemma fitTextEnd_ellipsis_not_by_cut :
  fitTextEnd (lit "abcdefgh") 6 = lit "abc..." /\
  fitTextEnd (lit "abcdefgh") 6 <> slice0 (lit "abcdefgh") 6 /\
  len (lit "abcdefgh") - 6 <= 3 /\
  fitTextEnd (lit "abcdefgh") 2 = lit "ab" /\
  3 < len (lit "abcdefgh") - 2.
Proof.
  split; [reflexivity|]. split; [discriminate|]. split; [vm_compute; discriminate|].
  split; [reflexivity|]. reflexivity.
Qed.

(** *** The gauge and its colour *)

Lemma fillCount_nonneg (p : Q) : 0 <= fillCount p <-> (p <= 10625 # 100)%Q.
Proof.
  unfold fillCount, remainingPct. rewrite Qfloor_ge. unfold Qdiv.
  change (/ inject_Z 100)%Q with (1 # 100)%Q. change (inject_Z 100) with (100 # 1)%Q.
  change (inject_Z 8) with (8 # 1)%Q. change (inject_Z 0) with (0 # 1)%Q.
  split; intros; lra.
Qed.

Lemma fillCount_le8 (p : Q) : fillCount p <= 8 <-> (- (625 # 100) < p)%Q.
Proof.
  unfold fillCount, remainingPct. rewrite <- Z.lt_succ_r. rewrite Qfloor_lt. unfold Qdiv.
  change (/ inject_Z 100)%Q with (1 # 100)%Q. change (inject_Z 100) with (100 # 1)%Q.
  change (inject_Z 8) with (8 # 1)%Q. change (inject_Z (Z.succ 8)) with (9 # 1)%Q.
  split; intros; lra.
Qed.

Lemma filledOf_fillCount (l : jstring) (p : Q) (r : option jstring) :
  filledOf (remainingOf (mkWindow l (Fin p) r)) = of_Z (fillCount p).
Proof. reflexivity. Qed.

Lemma emptyOf_count (l : jstring) (p : Q) (r : option jstring) :
  repeat_count (emptyOf (remainingOf (mkWindow l (Fin p) r))) = 8 - fillCount p.
Proof.
  unfold emptyOf. rewrite filledOf_fillCount. unfold repeat_count, num_sub, lift2, of_Z.
  apply Qtrunc_sub_Z.
Qed.

Lemma colorOf_error (r : Q) : colorOf (Fin r) = "error"%string <-> (r <= 20)%Q.
Proof.
  unfold colorOf, num_le, cmp, of_Z.
  change (inject_Z 20) with (20 # 1)%Q. change (inject_Z 50) with (50 # 1)%Q.
  destruct (Qle_bool r 20) eqn:H20.
  - apply Qle_bool_iff in H20. tauto.
  - assert (~ (r <= 20)%Q) by (rewrite <- Qle_bool_iff; congruence).
    destruct (Qle_bool r 50); split; intros; try discriminate; tauto.
Qed.

Lemma colorOf_warning (r : Q) : colorOf (Fin r) = "warning"%string <-> (20 < r /\ r <= 50)%Q.
Proof.
  unfold colorOf, num_le, cmp, of_Z.
  change (inject_Z 20) with (20 # 1)%Q. change (inject_Z 50) with (50 # 1)%Q.
  destruct (Qle_bool r 20) eqn:H20.
  - apply Qle_bool_iff in H20. split; [discriminate|]. intros [Hlt _].
    exfalso. apply (Qlt_irrefl r). now apply Qle_lt_trans with 20%Q.
  - assert (H20' : (20 < r)%Q).
    { apply Qnot_le_lt. rewrite <- Qle_bool_iff. congruence. }
    destruct (Qle_bool r 50) eqn:H50.
    + apply Qle_bool_iff in H50. tauto.
    + assert (~ (r <= 50)%Q) by (rewrite <- Qle_bool_iff; congruence).
      split; [discriminate | tauto].
Qed.

Lemma colorOf_success (r : Q) : colorOf (Fin r) = "success"%string <-> (50 < r)%Q.
Proof.
  unfold colorOf, num_le, cmp, of_Z.
  change (inject_Z 20) with (20 # 1)%Q. change (inject_Z 50) with (50 # 1)%Q.
  destruct (Qle_bool r 20) eqn:H20.
  - apply Qle_bool_iff in H20. split; [discriminate|]. intros Hlt.
    exfalso. apply (Qlt_irrefl r). apply Qle_lt_trans with 20%Q; [assumption|].
    apply Qlt_trans with 50%Q; [reflexivity | assumption].
  - destruct (Qle_bool r 50) eqn:H50.
    + apply Qle_bool_iff in H50. split; [discriminate|]. intros Hlt.
      exfalso. apply (Qlt_irrefl r). now apply Qle_lt_trans with 50%Q.
    + split; [|reflexivity]. intros _.
      apply Qnot_le_lt. rewrite <- Qle_bool_iff. congruence.
Qed.

Section WithTheme.
Context {E : Engine} {T : Terminal} {Th : Theme}.

Lemma str_repeat_empty (c : cu) (l : jstring) (p : Q) (r : option jstring) :
  fillCount p <= 8 ->
  str_repeat [c] (emptyOf (remainingOf (mkWindow l (Fin p) r)))
  = Ok (repeat c (Z.to_nat (8 - fillCount p))).
Proof.
  intros H. unfold str_repeat. rewrite emptyOf_count.
  destruct (8 - fillCount p <? 0) eqn:Hlt; [apply Z.ltb_lt in Hlt; lia|].
  now rewrite concat_repeat_single.
Qed.

Lemma renderUsageRow_in_range l p r lw mw :
  0 <= fillCount p <= 8 ->
  renderUsageRow (mkWindow l (Fin p) r) lw mw
  = Ok (usageRow (mkWindow l (Fin p) r) lw (Z.to_nat (fillCount p))).
Proof.
  intros [H0 H8]. unfold renderUsageRow.
  rewrite filledOf_fillCount, str_repeat_of_Z by assumption.
  rewrite str_repeat_empty by assumption. cbn [bind].
  unfold usageRow, resetSuffix.
  replace (Z.to_nat (8 - fillCount p)) with (8 - Z.to_nat (fillCount p))%nat by lia.
  reflexivity.
Qed.

Lemma renderUsageRow_negative_fill l p r lw mw :
  fillCount p < 0 ->
  renderUsageRow (mkWindow l (Fin p) r) lw mw = Throw (InvalidCount (fillCount p)).
Proof.
  intros H. unfold renderUsageRow.
  rewrite filledOf_fillCount, str_repeat_negative by assumption. reflexivity.
Qed.

Lemma renderUsageRow_negative_empty l p r lw mw :
  8 < fillCount p ->
  renderUsageRow (mkWindow l (Fin p) r) lw mw = Throw (InvalidCount (8 - fillCount p)).
Proof.
  intros H. unfold renderUsageRow.
  rewrite filledOf_fillCount, str_repeat_of_Z by lia. cbn [bind].
  unfold str_repeat. rewrite emptyOf_count.
  destruct (8 - fillCount p <? 0) eqn:Hlt; [reflexivity | apply Z.ltb_ge in Hlt; lia].
Qed.

Lemma renderUsageRow_NaN l r lw mw : returns (renderUsageRow (mkWindow l NaN r) lw mw).
Proof. eexists. reflexivity. Qed.

Lemma renderUsageRow_drawable win lw mw :
  drawable win -> returns (renderUsageRow win lw mw).
Proof.
  destruct win as [l [p|] r]; unfold drawable; cbn [percentUsed]; intros H.
  - eexists. now apply renderUsageRow_in_range.
  - apply renderUsageRow_NaN.
Qed.

Lemma onScale_nearScale win : onScale win -> nearScale win.
Proof.
  unfold onScale, nearScale. destruct (percentUsed win) as [p|]; [|trivial].
  intros [H0 H100]. split; lra.
Qed.

Lemma nearScale_drawable win : nearScale win -> drawable win.
Proof.
  unfold nearScale, drawable. destruct (percentUsed win) as [p|]; [|trivial].
  intros [H0 H100]. split; [apply fillCount_nonneg | apply fillCount_le8]; lra.
Qed.

Lemma renderUsageRow_returns_iff (win : UsageWindow) (lw mw : Z) :
  returns (renderUsageRow win lw mw) <-> drawable win.
Proof.
  split; [|apply renderUsageRow_drawable].
  destruct win as [l [p|] r]; unfold drawable; cbn [percentUsed]; [|trivial].
  intros [row Hrow].
  destruct (Z.lt_ge_cases (fillCount p) 0) as [Hneg|Hpos].
  { rewrite renderUsageRow_negative_fill in Hrow by assumption. discriminate. }
  destruct (Z.lt_ge_cases 8 (fillCount p)) as [Hbig|Hsmall]; [|lia].
  rewrite renderUsageRow_negative_empty in Hrow by assumption. discriminate.
Qed.


(** C10, as the code has it.  A window whose percentage is not a number
    gets a row, although it has no fill count.  Otherwise a row is
    returned exactly when the fill count
    [round((100 - percentUsed) / 100 * 8)] lies in [0,8], that is for
    [percentUsed] above -6.25 and up to 106.25: above 106.25 the fill
    count is negative, at -6.25 and below the count of unfilled cells is,
    and the string repetition that builds the gauge throws a [RangeError]
    instead of a row being produced.  This is stated for a percentage at a
    half-way point of the formula or at least a millionth away from all
    of them, where the engine's arithmetic gives the exact count; and
    whatever the rounding, every percentage from -6 to 106 gets a row. *)
Theorem renderUsageRow_total_only_in_range
    (l : jstring) (r : option jstring) (labelWidth maxWidth : Z) (p : Q) :
  returns (renderUsageRow (mkWindow l NaN r) labelWidth maxWidth) /\
  (0 <= fillCount p <= 8 <-> (- (625 # 100) < p /\ p <= 10625 # 100)%Q) /\
  ((- (6) <= p /\ p <= 106)%Q ->
   returns (renderUsageRow (mkWindow l (Fin p) r) labelWidth maxWidth)) /\
  (awayFromTies p = true ->
   (returns (renderUsageRow (mkWindow l (Fin p) r) labelWidth maxWidth)
    <-> 0 <= fillCount p <= 8) /\
   ((10625 # 100 < p)%Q ->
    fillCount p < 0 /\
    exists e, renderUsageRow (mkWindow l (Fin p) r) labelWidth maxWidth = Throw e /\
              name e = lit "RangeError") /\
   ((p <= - (625 # 100))%Q ->
    8 - fillCount p < 0 /\
    exists e, renderUsageRow (mkWindow l (Fin p) r) labelWidth maxWidth = Throw e /\
              name e = lit "RangeError")).
Proof.
  assert (Hiff : 0 <= fillCount p <= 8 <-> (- (625 # 100) < p /\ p <= 10625 # 100)%Q).
  { rewrite fillCount_nonneg, fillCount_le8. tauto. }
  split; [apply renderUsageRow_NaN|]. split; [exact Hiff|]. split.
  { intros Hp. apply renderUsageRow_drawable.
    apply (nearScale_drawable (mkWindow l (Fin p) r)). exact Hp. }
  intros _. split; [apply (renderUsageRow_returns_iff (mkWindow l (Fin p) r))|]. split.
  - intros Hp.
    assert (Hneg : fillCount p < 0).
    { apply Z.nle_gt. rewrite fillCount_nonneg. now apply Qlt_not_le. }
    split; [assumption|]. eexists. split; [now apply renderUsageRow_negative_fill|].
    reflexivity.
  - intros Hp.
    assert (Hbig : 8 < fillCount p).
    { apply Z.nle_gt. rewrite fillCount_le8. now apply Qle_not_lt. }
    split; [lia|]. eexists. split; [now apply renderUsageRow_negative_empty|].
    reflexivity.
Qed.

End WithTheme.

(** *** Line widths *)

Section Widths.
Context {E : Engine} {T : Terminal} {Th : Theme}.

Lemma cols_app (a b : styled) : cols (a ++ b) = (cols a + cols b)%nat.
Proof. unfold cols. now rewrite map_app, list_sum_app. Qed.

Lemma visibleWidth_app (a b : styled) :
  visibleWidth (a ++ b) = visibleWidth a + visibleWidth b.
Proof. unfold visibleWidth. rewrite cols_app. lia. Qed.

Lemma visibleWidth_nil : visibleWidth [] = 0.
Proof. reflexivity. Qed.

Lemma visibleWidth_nonneg t : 0 <= visibleWidth t.
Proof. unfold visibleWidth. lia. Qed.

Lemma cols_narrow (s : jstring) :
  forallb narrow s = true -> cols (plain s) = List.length s.
Proof.
  induction s as [|c s IH]; intros H; [reflexivity|].
  cbn [forallb] in H. apply andb_prop in H as [Hc Hs].
  change (cols (plain (c :: s))) with (colw c + cols (plain s))%nat.
  rewrite (colw_narrow c Hc), (IH Hs). reflexivity.
Qed.

Lemma visibleWidth_narrow (s : jstring) :
  forallb narrow s = true -> visibleWidth (plain s) = len s.
Proof. intros H. unfold visibleWidth, len. now rewrite cols_narrow. Qed.

Lemma visibleWidth_repeat (c : cu) (n : nat) :
  narrow c = true -> visibleWidth (plain (repeat c n)) = Z.of_nat n.
Proof.
  intros Hc. rewrite visibleWidth_narrow.
  - unfold len. now rewrite repeat_length.
  - induction n; [reflexivity|]. cbn [repeat forallb]. now rewrite Hc, IHn.
Qed.

Lemma visibleWidth_spaces (n : nat) : visibleWidth (plain (spaces n)) = Z.of_nat n.
Proof. apply visibleWidth_repeat. reflexivity. Qed.

Lemma visibleWidth_esc s : visibleWidth [Esc s] = 0.
Proof. reflexivity. Qed.

Lemma visibleWidth_hyperlink url t : visibleWidth (hyperlink url t) = visibleWidth t.
Proof.
  unfold hyperlink. rewrite !visibleWidth_app, !visibleWidth_esc.
  lia.
Qed.

Lemma cols_cons (x : cell) (t : styled) : cols (x :: t) = (cellw x + cols t)%nat.
Proof. reflexivity. Qed.

Lemma take_cols_le (budget : nat) (t : styled) : (cols (take_cols budget t) <= budget)%nat.
Proof.
  revert budget. induction t as [|[c|s] t IH]; intros budget; cbn [take_cols].
  - apply Nat.le_0_l.
  - destruct (Nat.leb_spec (colw c) budget) as [Hc|Hc].
    + rewrite cols_cons. cbn [cellw]. specialize (IH (budget - colw c)%nat). lia.
    + apply Nat.le_0_l.
  - rewrite cols_cons. cbn [cellw]. apply IH.
Qed.

(** The contract of the padded truncation. *)
Lemma truncateToWidth_exact (t : styled) (w : Z) :
  0 <= w -> visibleWidth (truncateToWidth t w [] true) = w.
Proof.
  intros Hw. unfold truncateToWidth.
  destruct (visibleWidth t <=? w) eqn:Hfit.
  - apply Z.leb_le in Hfit. rewrite visibleWidth_app, visibleWidth_spaces.
    pose proof (visibleWidth_nonneg t). lia.
  - rewrite visibleWidth_nil, Z.sub_0_r.
    destruct (w <=? 0) eqn:H0.
    + apply Z.leb_le in H0. cbn. lia.
    + rewrite visibleWidth_app, visibleWidth_spaces.
      set (tr := take_cols (Z.to_nat w) t ++ [SGR_RESET] ++ []).
      assert (Htr : visibleWidth tr <= w).
      { unfold tr, SGR_RESET. rewrite !visibleWidth_app, visibleWidth_esc, visibleWidth_nil.
        pose proof (take_cols_le (Z.to_nat w) t). unfold visibleWidth. lia. }
      pose proof (visibleWidth_nonneg tr). lia.
Qed.

Lemma visibleWidth_border_bar : visibleWidth border_bar = 1.
Proof. unfold border_bar. rewrite fg_width. now rewrite visibleWidth_narrow. Qed.

Lemma row_width (width : Z) (content : styled) :
  6 <= width -> visibleWidth (row width content) = width.
Proof.
  intros Hw. unfold row. rewrite !visibleWidth_app, !visibleWidth_border_bar.
  rewrite !visibleWidth_spaces, truncateToWidth_exact;
    unfold contentArea, innerW, contentPadding; lia.
Qed.

Lemma emptyRow_width (width : Z) :
  2 <= width -> exists r, emptyRow width = Ok r /\ visibleWidth r = width.
Proof.
  intros Hw. unfold emptyRow, innerW. rewrite str_repeat_of_Z by lia. cbn [bind].
  eexists. split; [reflexivity|].
  rewrite !visibleWidth_app, !visibleWidth_border_bar.
  fold (spaces (Z.to_nat (width - 2))). rewrite visibleWidth_spaces. lia.
Qed.

Lemma addVerticalPad_width (width : Z) (n : nat) :
  2 <= width -> exists rs, addVerticalPad width n = Ok rs /\ all_wide width rs.
Proof.
  intros Hw. induction n as [|n [rs [Hrs Hall]]]; cbn [addVerticalPad].
  - exists []. split; [reflexivity | constructor].
  - destruct (emptyRow_width width Hw) as [r [Hr Hrw]].
    rewrite Hr, Hrs. cbn [bind]. eexists. split; [reflexivity|].
    constructor; assumption.
Qed.

Lemma borderLine_width (width : Z) (l r : cu) :
  2 <= width -> narrow l = true -> narrow r = true ->
  exists line, borderLine width l r = Ok line /\ visibleWidth line = width.
Proof.
  intros Hw Hl Hr. unfold borderLine, innerW. rewrite str_repeat_of_Z by lia. cbn [bind].
  eexists. split; [reflexivity|].
  rewrite fg_width. unfold plain. rewrite !map_app. fold (plain [l]) (plain [r]).
  fold (plain (repeat BOX_H (Z.to_nat (width - 2)))).
  rewrite !visibleWidth_app, visibleWidth_repeat by reflexivity.
  rewrite !visibleWidth_narrow by (cbn [forallb]; rewrite ?Hl, ?Hr; reflexivity).
  unfold len. cbn [List.length]. lia.
Qed.
Lemma footerRow_width (width : Z) : 20 <= width -> visibleWidth (footerRow width) = width.
Proof.
  intros Hw. unfold footerRow, rowExact. cbv zeta.
  set (area := contentArea width).
  assert (Harea : area = width - 6) by (unfold area, contentArea, innerW, contentPadding; lia).
  rewrite (visibleWidth_narrow (lit "esc/q to close")) by reflexivity.
  change (len (lit "esc/q to close")) with 14.
  set (leftMax := Z.max 0 (area - 14 - 1)).
  set (lbl := fitTextEnd (lit "[star/fork]") leftMax).
  assert (Hlen : len lbl = Z.min 11 leftMax).
  { unfold lbl. rewrite len_fitTextEnd by (unfold leftMax; lia). reflexivity. }
  assert (Hnarrow : forallb narrow lbl = true).
  { apply fitTextEnd_narrow; [unfold leftMax; lia | reflexivity]. }
  match goal with
  | |- context [fg "dim" ?x ++ plain (spaces _) ++ _] =>
      assert (Hleft : visibleWidth x = len lbl)
  end.
  { destruct lbl as [|c rest]; [reflexivity|].
    cbn [is_empty jstring_eqb]. rewrite visibleWidth_hyperlink. now apply visibleWidth_narrow. }
  rewrite !visibleWidth_app, !visibleWidth_border_bar, !fg_width, Hleft.
  rewrite !visibleWidth_spaces, (visibleWidth_narrow (lit "esc/q to close")) by reflexivity.
  change (len (lit "esc/q to close")) with 14.
  unfold contentPadding. unfold leftMax in Hlen. lia.
Qed.

Lemma headingRow_width (width : Z) (result : ProviderUsage) :
  6 <= width ->
  exists line, headingRow width result = Ok line /\ visibleWidth line = width.
Proof.
  intros Hw. unfold headingRow.
  rewrite str_repeat_of_Z by lia. cbn [bind].
  eexists. split; [reflexivity|]. now apply row_width.
Qed.

Lemma windowRows_width (width : Z) wins lw rows :
  6 <= width -> windowRows width wins lw = Ok rows -> all_wide width rows.
Proof.
  intros Hw. revert rows. induction wins as [|win wins IH]; intros rows; cbn [windowRows].
  - intros [= <-]. constructor.
  - destruct (renderUsageRow win lw (innerW width - 2)) as [r|e]; cbn [bind]; [|discriminate].
    destruct (windowRows width wins lw) as [rs|e]; cbn [bind]; [|discriminate].
    intros [= <-]. constructor; [now apply row_width | now apply IH].
Qed.

Lemma windowRows_returns (width : Z) wins lw :
  Forall drawable wins -> returns (windowRows width wins lw).
Proof.
  induction 1 as [|win wins Hwin _ [rs Hrs]]; cbn [windowRows].
  - eexists; reflexivity.
  - destruct (renderUsageRow_drawable win lw (innerW width - 2) Hwin) as [r Hr].
    rewrite Hr, Hrs. cbn [bind]. eexists; reflexivity.
Qed.

Lemma bodyRows_width (width : Z) result lw rows :
  6 <= width -> bodyRows width result lw = Ok rows -> all_wide width rows.
Proof.
  intros Hw. unfold bodyRows.
  assert (Hwins : match windows result with
                  | [] => Ok [row width (fg "muted" (plain (lit "No usage data available")))]
                  | _ :: _ => windowRows width (windows result) lw
                  end = Ok rows -> all_wide width rows).
  { destruct (windows result) as [|w ws] eqn:Hws.
    - intros [= <-]. repeat constructor. now apply row_width.
    - rewrite <- Hws. now apply windowRows_width. }
  destruct (error result) as [e|].
  - destruct (negb (is_empty e)).
    + intros [= <-]. repeat constructor. now apply row_width.
    + destruct (windows result); exact Hwins.
  - destruct (windows result); exact Hwins.
Qed.

Lemma bodyRows_returns (width : Z) result lw :
  Forall drawable (windows result) -> returns (bodyRows width result lw).
Proof.
  intros Hd. unfold bodyRows.
  pose proof (windowRows_returns width (windows result) lw Hd) as Hr.
  destruct (error result) as [e|]; [destruct (negb (is_empty e))|];
    try (eexists; reflexivity);
    destruct (windows result); try (eexists; reflexivity); exact Hr.
Qed.

Lemma all_wide_app width a b : all_wide width a -> all_wide width b -> all_wide width (a ++ b).
Proof. intros Ha Hb. apply Forall_app. now split. Qed.

Lemma providerRows_width (width : Z) results lw rows :
  6 <= width -> providerRows width results lw = Ok rows -> all_wide width rows.
Proof.
  intros Hw. revert rows. induction results as [|result rest IH]; intros rows; cbn [providerRows].
  - intros [= <-]. constructor.
  - destruct (headingRow_width width result Hw) as [h [Hh Hhw]]. rewrite Hh. cbn [bind].
    destruct (emptyRow_width width ltac:(lia)) as [sp [Hsp Hspw]]. rewrite Hsp. cbn [bind].
    destruct (bodyRows width result lw) as [body|e] eqn:Hbody; cbn [bind]; [|discriminate].
    assert (Hsep : exists sep, match rest with
                               | [] => Ok []
                               | _ :: _ => addVerticalPad width (Z.to_nat verticalPadding)
                               end = Ok sep /\ all_wide width sep).
    { destruct rest; [exists []; split; [reflexivity | constructor]|].
      apply addVerticalPad_width. lia. }
    destruct Hsep as [sep [Hsep Hsepw]]. rewrite Hsep. cbn [bind].
    destruct (providerRows width rest lw) as [others|e]; cbn [bind]; [|discriminate].
    intros [= <-].
    constructor; [assumption|]. constructor; [assumption|].
    apply all_wide_app; [now apply (bodyRows_width width result lw)|].
    apply all_wide_app; [assumption | now apply IH].
Qed.

Lemma providerRows_returns (width : Z) results lw :
  6 <= width ->
  Forall (fun result => Forall drawable (windows result)) results ->
  returns (providerRows width results lw).
Proof.
  intros Hw. induction 1 as [|result rest Hres _ [others Hothers]]; cbn [providerRows].
  - eexists; reflexivity.
  - destruct (headingRow_width width result Hw) as [h [Hh _]]. rewrite Hh. cbn [bind].
    destruct (emptyRow_width width ltac:(lia)) as [sp [Hsp _]]. rewrite Hsp. cbn [bind].
    destruct (bodyRows_returns width result lw Hres) as [body Hbody]. rewrite Hbody. cbn [bind].
    destruct (addVerticalPad_width width (Z.to_nat verticalPadding) ltac:(lia)) as [sep [Hsep _]].
    destruct rest; [|rewrite Hsep]; cbn [bind]; rewrite Hothers; cbn [bind]; eexists; reflexivity.
Qed.

(** C3, as the code has it.  At a target width of 20 columns or more,
    every line [renderPanel] produces is exactly that wide in printable
    columns, escape sequences counting for nothing, whatever the state,
    the results, their accounts and their windows; and it does produce
    its lines whenever the percentage of every window is on the scale,
    from 0 to 100, or is not a number.  (The overlay is opened 58 wide
    and never narrower than 44.) *)
Theorem renderPanel_lines_exact_width (width : Z) (state : RenderState)
    (results : list ProviderUsage) :
  20 <= width ->
  (forall lines, renderPanel width state results = Ok lines ->
                 Forall (fun line => visibleWidth line = width) lines) /\
  (Forall (fun result => Forall onScale (windows result)) results ->
   returns (renderPanel width state results)).
Proof.
  intros Hw. unfold renderPanel.
  destruct (borderLine_width width BOX_TL BOX_TR ltac:(lia) eq_refl eq_refl) as [top [Htop Htopw]].
  destruct (borderLine_width width BOX_BL BOX_BR ltac:(lia) eq_refl eq_refl) as [bot [Hbot Hbotw]].
  destruct (addVerticalPad_width width (Z.to_nat verticalPadding) ltac:(lia)) as [p2 [Hp2 Hp2w]].
  destruct (addVerticalPad_width width (Z.to_nat bottomEdgePadding) ltac:(lia)) as [p1 [Hp1 Hp1w]].
  rewrite Htop, Hbot, Hp2, Hp1. cbn [bind].
  set (body := match state with
               | Loading => Ok [row width (fg "muted" (plain (lit "Fetching usage data...")))]
               | Done => providerRows width results (sharedLabelWidthOf results)
               | Error => Ok [row width (fg "error" (plain (lit "Failed to fetch usage data")))]
               end).
  assert (Hbodyw : forall rows, body = Ok rows -> all_wide width rows).
  { unfold body. destruct state; intros rows.
    - intros [= <-]. repeat constructor. apply row_width; lia.
    - apply providerRows_width; lia.
    - intros [= <-]. repeat constructor. apply row_width; lia. }
  split.
  - intros lines. destruct body as [rows|e]; cbn [bind]; [|discriminate].
    intros [= <-].
    constructor; [assumption|].
    apply all_wide_app; [assumption|].
    apply all_wide_app; [now apply Hbodyw|].
    apply all_wide_app; [assumption|].
    constructor; [now apply footerRow_width|].
    apply all_wide_app; [assumption|].
    repeat constructor; assumption.
  - intros Hs.
    assert (Hd : Forall (fun result => Forall drawable (windows result)) results).
    { apply (Forall_impl _ (P := fun result => Forall onScale (windows result))); [|exact Hs].
      intros result. apply Forall_impl. intros win Hwin.
      now apply nearScale_drawable, onScale_nearScale. }
    assert (Hret : returns body).
    { unfold body. destruct state; try (eexists; reflexivity).
      apply providerRows_returns; [lia | assumption]. }
    destruct Hret as [rows Hrows]. rewrite Hrows. cbn [bind]. eexists; reflexivity.
Qed.

End Widths.

(** *** Results, values and credentials *)

Lemma returns_Ok {A} (a : A) : returns (Ok a).
Proof. now exists a. Qed.

Lemma try_catch_returns {A} (body : Result A) (handler : exn -> Result A) :
  (forall e, returns (handler e)) -> returns (try_catch body handler).
Proof. intros H. destruct body as [a|e]; [apply returns_Ok | apply H]. Qed.

Lemma try_catch_invariant {A} (P : A -> Prop) (body : Result A) (handler : exn -> Result A) :
  (forall a, body = Ok a -> P a) ->
  (forall e, exists a, handler e = Ok a /\ P a) ->
  exists a, try_catch body handler = Ok a /\ P a.
Proof.
  intros Hb Hh. destruct body as [a|e]; cbn [try_catch]; [|apply Hh].
  exists a. split; [reflexivity | now apply Hb].
Qed.

Lemma get_not_nullish (v : value) (k : string) : nullish v = false -> returns (get v k).
Proof.
  destruct v; cbn; try discriminate; intros _; try apply returns_Ok.
  destruct (assoc (lit k) fields); apply returns_Ok.
Qed.

Lemma truthy_not_nullish (v : value) : truthy v = true -> nullish v = false.
Proof. destruct v; cbn; congruence. Qed.

Lemma get_opt_returns (v : value) (k : string) : returns (get_opt v k).
Proof.
  unfold get_opt. destruct (nullish v) eqn:H; [apply returns_Ok | now apply get_not_nullish].
Qed.

Lemma get_field (v : value) (k : string) : nullish v = false -> get v k = Ok (field v k).
Proof.
  intros H. unfold field, get_opt. rewrite H.
  destruct (get_not_nullish v k H) as [x Hx]. now rewrite Hx.
Qed.

Lemma get_opt_field (v : value) (k : string) : get_opt v k = Ok (field v k).
Proof.
  unfold field. destruct (get_opt_returns v k) as [x Hx]. now rewrite Hx.
Qed.

Lemma field_nullish (v : value) (k : string) : nullish v = true -> field v k = VUndef.
Proof. intros H. unfold field, get_opt. now rewrite H. Qed.

Lemma field_not_nullish (v : value) (k : string) :
  nullish (field v k) = false -> nullish v = false.
Proof.
  intros H. destruct (nullish v) eqn:Hv; [|reflexivity].
  rewrite field_nullish in H by assumption. discriminate.
Qed.

Section Credentials.
Context {E : Engine} (W : World) (signal : option AbortSignal).

Lemma readPiAuth_returns (provider : string) : returns (readPiAuth W provider).
Proof. apply try_catch_returns. intros _. apply returns_Ok. Qed.

Lemma extractEmailFromJwt_returns (token : value) : returns (extractEmailFromJwt token).
Proof. apply try_catch_returns. intros _. apply returns_Ok. Qed.

Lemma readCodexAuth_returns : returns (readCodexAuth W).
Proof. apply try_catch_returns. intros _. apply returns_Ok. Qed.

Lemma fetchAnthropicProfileEmail_returns (token : value) :
  returns (fetchAnthropicProfileEmail W token signal).
Proof. apply try_catch_returns. intros _. apply returns_Ok. Qed.

Lemma profileEmail_returns (jwt : option jstring) (access : value) :
  returns (match jwt with
           | Some _ => Ok jwt
           | None => fetchAnthropicProfileEmail W access signal
           end).
Proof. destruct jwt; [apply returns_Ok | apply fetchAnthropicProfileEmail_returns]. Qed.

(** C5.  Credential lookup and token decoding never raise.  Both
    readers and the decoder return on every input; a credential file that
    cannot be read, that does not parse, or that parses to an object
    lacking the expected keys gives absence ([null]); a token that is not
    a string, that has fewer than two dot-separated segments, or whose
    middle segment does not decode to JSON gives no account
    ([undefined]). *)
Theorem credentials_never_raise :
  (forall provider, returns (readPiAuth W provider)) /\
  returns (readCodexAuth W) /\
  (forall token, returns (extractEmailFromJwt token)) /\
  (forall provider e,
      readFileSync W (piAuthPath W) = Throw e -> readPiAuth W provider = Ok VNull) /\
  (forall e,
      readFileSync W (codexAuthPath W) = Throw e -> readCodexAuth W = Ok None) /\
  (forall provider raw e,
      readFileSync W (piAuthPath W) = Ok raw -> JSON_parse raw = Throw e ->
      readPiAuth W provider = Ok VNull) /\
  (forall raw e,
      readFileSync W (codexAuthPath W) = Ok raw -> JSON_parse raw = Throw e ->
      readCodexAuth W = Ok None) /\
  (forall provider raw fields,
      readFileSync W (piAuthPath W) = Ok raw -> JSON_parse raw = Ok (VObj fields) ->
      assoc (lit provider) fields = None ->
      readPiAuth W provider = Ok VNull) /\
  (forall raw fields,
      readFileSync W (codexAuthPath W) = Ok raw -> JSON_parse raw = Ok (VObj fields) ->
      assoc (lit "tokens") fields = None ->
      readCodexAuth W = Ok None) /\
  (forall raw fields tokens,
      readFileSync W (codexAuthPath W) = Ok raw -> JSON_parse raw = Ok (VObj fields) ->
      assoc (lit "tokens") fields = Some (VObj tokens) ->
      assoc (lit "access_token") tokens = None ->
      readCodexAuth W = Ok None) /\
  (forall token, (forall s, token <> VStr s) -> extractEmailFromJwt token = Ok None) /\
  (forall s, (List.length (split_on 46%N s) < 2)%nat ->
             extractEmailFromJwt (VStr s) = Ok None) /\
  (forall s e,
      JSON_parse (base64_to_utf8 (normalize_payload (nth 1 (split_on 46%N s) []))) = Throw e ->
      extractEmailFromJwt (VStr s) = Ok None).
Proof.
  split; [exact readPiAuth_returns|].
  split; [exact readCodexAuth_returns|].
  split; [exact extractEmailFromJwt_returns|].
  unfold piAuthPath, codexAuthPath, readPiAuth, readCodexAuth.
  split; [intros provider e Hf; now rewrite Hf|].
  split; [intros e Hf; now rewrite Hf|].
  split; [intros provider raw e Hf Hp; now rewrite Hf; cbn [bind]; rewrite Hp|].
  split; [intros raw e Hf Hp; now rewrite Hf; cbn [bind]; rewrite Hp|].
  split.
  { intros provider raw fields Hf Hp Hk. rewrite Hf; cbn [bind]; rewrite Hp; cbn [bind get].
    now rewrite Hk. }
  split.
  { intros raw fields Hf Hp Hk. rewrite Hf; cbn [bind]; rewrite Hp; cbn [bind get].
    now rewrite Hk. }
  split.
  { intros raw fields tokens Hf Hp Hk Ha. rewrite Hf; cbn [bind]; rewrite Hp; cbn [bind get].
    rewrite Hk. cbn [bind get_opt nullish get]. now rewrite Ha. }
  split.
  { intros token Hs. unfold extractEmailFromJwt, split_token.
    destruct token; try reflexivity. now contradiction (Hs s). }
  split.
  { intros s Hlen. unfold extractEmailFromJwt, split_token. cbn [bind].
    destruct (Z.ltb_spec (Z.of_nat (List.length (split_on 46%N s))) 2); [reflexivity | lia]. }
  intros s e Hp. unfold extractEmailFromJwt, split_token. cbn [bind].
  destruct (Z.of_nat (List.length (split_on 46%N s)) <? 2); [reflexivity|].
  now rewrite Hp.
Qed.

Lemma readPiAuth_value (provider : string) : exists auth, readPiAuth W provider = Ok auth.
Proof. apply readPiAuth_returns. Qed.

End Credentials.

(** *** The provider clients *)

Section Clients.
Context {E : Engine} (W : World) (signal : option AbortSignal).

Lemma handler_invariant (who : jstring) (lnks : list ProviderLink) (acct : option jstring)
    (e : exn) :
  exists r, (if is_abort e
             then Ok (mkUsage who None acct [] lnks (Some (lit "Cancelled")))
             else Ok (mkUsage who None acct [] lnks (Some (message e)))) = Ok r
            /\ error_implies_no_windows r.
Proof. destruct (is_abort e); eexists; (split; [reflexivity|]); intros _; reflexivity. Qed.

Lemma fetchAnthropicUsage_invariant :
  exists r, fetchAnthropicUsage W signal = Ok r /\ error_implies_no_windows r.
Proof.
  unfold fetchAnthropicUsage.
  destruct (readPiAuth_value W "anthropic") as [auth Hauth]. rewrite Hauth. cbn [bind].
  destruct (truthy auth) eqn:Ht; cbn [negb].
  2:{ eexists. split; [reflexivity|]. intros _; reflexivity. }
  rewrite !get_field by now apply truthy_not_nullish. cbn [bind].
  destruct (extractEmailFromJwt_returns (field auth "access")) as [jwt Hjwt].
  rewrite Hjwt. cbn [bind].
  destruct (profileEmail_returns W signal jwt (field auth "access")) as [prof Hprof].
  rewrite Hprof. cbn [bind].
  apply try_catch_invariant; [|intros e; apply handler_invariant].
  intros r. destruct (fetch W _) as [res|e]; cbn [bind]; [|discriminate].
  destruct (ok res); cbn [negb].
  - destruct (json res) as [data|e]; cbn [bind]; [|discriminate].
    destruct (anthropicWindows W data) as [ws|e]; cbn [bind]; [|discriminate].
    intros [= <-]. intros H. now contradiction H.
  - intros [= <-]. intros _. reflexivity.
Qed.

Lemma fetchCodexUsage_invariant :
  exists r, fetchCodexUsage W signal = Ok r /\ error_implies_no_windows r.
Proof.
  unfold fetchCodexUsage.
  destruct (readPiAuth_value W "openai-codex") as [piAuth Hauth]. rewrite Hauth. cbn [bind].
  destruct (readCodexAuth_returns W) as [codexAuth Hcodex]. rewrite Hcodex. cbn [bind].
  rewrite !get_opt_field. cbn [bind].
  match goal with |- context [truthy ?t] => destruct (truthy t) eqn:Ht end; cbn [negb].
  2:{ eexists. split; [reflexivity|]. intros _; reflexivity. }
  match goal with |- context [extractEmailFromJwt ?t] =>
    destruct (extractEmailFromJwt_returns t) as [jwt Hjwt] end.
  rewrite Hjwt. cbn [bind].
  apply try_catch_invariant; [|intros e; apply handler_invariant].
  intros r. destruct (fetch W _) as [res|e]; cbn [bind]; [|discriminate].
  destruct (ok res); cbn [negb].
  - destruct (json res) as [data|e]; cbn [bind]; [|discriminate].
    destruct (codexWindows data) as [pw|e]; cbn [bind]; [|discriminate].
    intros [= <-]. intros H. now contradiction H.
  - intros [= <-]. intros _. reflexivity.
Qed.

(** C1.  Both clients always return a result, and in it a present
    [error] comes with no windows; an absent [error] does not promise any
    window: when the provider answers with an empty object, each client
    returns a result with neither an error nor a window. *)
Theorem provider_result_error_implies_no_windows :
  (exists r, fetchAnthropicUsage W signal = Ok r /\ error_implies_no_windows r) /\
  (exists r, fetchCodexUsage W signal = Ok r /\ error_implies_no_windows r) /\
  (exists r, fetchAnthropicUsage (E := Examples.exampleEngine) Examples.emptyBodyWorld None = Ok r /\
             error r = None /\ windows r = []) /\
  (exists r, fetchCodexUsage (E := Examples.exampleEngine) Examples.emptyBodyWorld None = Ok r /\
             error r = None /\ windows r = []).
Proof.
  split; [apply fetchAnthropicUsage_invariant|].
  split; [apply fetchCodexUsage_invariant|].
  split; eexists; (split; [vm_compute; reflexivity|]); split; reflexivity.
Qed.

(** C4, as the code has it.  Each client hands the signal it is given
    to its usage call.  When that signal has fired and the runtime
    cancels the call, that is when [fetch] rejects with an [AbortError]
    or the body of a 2xx answer cannot be read because of one, a client
    that has credentials returns the error ["Cancelled"] and no windows,
    never an HTTP error or the message of the failure; this holds for
    each client on its own request, whatever becomes of the other call. *)
Theorem cancelled_usage_call (s : AbortSignal) :
  aborted s = true ->
  (truthy (anthropicAuth W) = true ->
   honoursSignal W (anthropicUsageRequest (Some s) (field (anthropicAuth W) "access")) ->
   exists acct,
     fetchAnthropicUsage W (Some s) = Ok (cancelledUsage "Anthropic" ANTHROPIC_LINKS acct)) /\
  (truthy (codexToken W) = true ->
   honoursSignal W (codexUsageRequest (Some s) (codexToken W)) ->
   exists acct,
     fetchCodexUsage W (Some s) = Ok (cancelledUsage "OpenAI Codex" CODEX_LINKS acct)).
Proof.
  intros Hfired. split.
  - unfold anthropicAuth, fetchAnthropicUsage.
    destruct (readPiAuth_value W "anthropic") as [auth Hauth]. rewrite Hauth. cbn [bind].
    intros Ht. rewrite Ht. cbn [negb].
    intros Hc.
    rewrite !get_field by now apply truthy_not_nullish. cbn [bind].
    destruct (extractEmailFromJwt_returns (field auth "access")) as [jwt Hjwt].
    rewrite Hjwt. cbn [bind].
    destruct (profileEmail_returns W (Some s) jwt (field auth "access")) as [prof Hprof].
    rewrite Hprof. cbn [bind].
    eexists.
    destruct (Hc s eq_refl Hfired) as [[e [Hf Ha]] | [res [e [Hf [Hok [Hj Ha]]]]]].
    + rewrite Hf. cbn [bind try_catch]. rewrite Ha. reflexivity.
    + rewrite Hf. cbn [bind]. rewrite Hok. cbn [negb]. rewrite Hj. cbn [bind try_catch].
      rewrite Ha. reflexivity.
  - unfold codexToken, fetchCodexUsage.
    destruct (readPiAuth_value W "openai-codex") as [piAuth Hauth]. rewrite Hauth. cbn [bind].
    destruct (readCodexAuth_returns W) as [codexAuth Hcodex]. rewrite Hcodex. cbn [bind].
    rewrite !get_opt_field. cbn [bind].
    intros Ht. rewrite Ht. cbn [negb].
    intros Hc.
    match goal with |- context [extractEmailFromJwt ?t] =>
      destruct (extractEmailFromJwt_returns t) as [jwt Hjwt]
    end.
    destruct (Hc s eq_refl Hfired) as [[e [Hf Ha]] | [res [e [Hf [Hok [Hj Ha]]]]]];
      rewrite Hjwt; cbn [bind]; eexists.
    + rewrite Hf. cbn [bind try_catch]. rewrite Ha. reflexivity.
    + rewrite Hf. cbn [bind]. rewrite Hok. cbn [negb]. rewrite Hj. cbn [bind try_catch].
      rewrite Ha. reflexivity.
Qed.

End Clients.

(** *** The mapping of the provider bodies *)

Lemma app_lit_nonempty (a b : jstring) (s : string) :
  lit s <> [] -> a ++ lit s ++ b <> [].
Proof.
  intros Hs H. apply app_eq_nil in H as [_ H]. apply app_eq_nil in H as [H _]. contradiction.
Qed.

Section Mapping.
Context {E : Engine} (W : World) (signal : option AbortSignal).

Lemma formatSeconds_nonempty (n : num) : formatSeconds n <> [].
Proof.
  unfold formatSeconds.
  repeat match goal with
         | |- context [if ?c then _ else _] => destruct c
         end;
    try discriminate;
    try (apply app_lit_nonempty; discriminate);
    try (intros H; apply app_eq_nil in H as [_ H]; discriminate).
Qed.

Lemma anthropicWindows_mapped (data : value) :
  nullish data = false ->
  anthropicWindows W data = Ok (flat_map (mappedWindow W data) anthropicFields).
Proof.
  intros Hd. unfold anthropicWindows, anthropicFields, flat_map, mappedWindow.
  cbn [fst snd]. rewrite !(get_field data) by assumption. cbn [bind].
  rewrite !get_opt_field. cbn [bind].
  repeat match goal with
         | |- context [nullish (field (field data ?f) "utilization")] =>
             let H := fresh "Hu" in
             destruct (nullish (field (field data f) "utilization")) eqn:H; cbn [negb bind];
             [| rewrite (get_field (field data f) "resets_at")
                  by (now apply field_not_nullish in H);
                cbn [bind] ]
         end;
    rewrite ?app_nil_l, ?app_nil_r, <- ?app_assoc; reflexivity.
Qed.

(** C6.  A [null] body makes the mapping throw, so that no window is
    produced at all.  For every other Anthropic body the windows are
    those of the fields [five_hour], [seven_day], [seven_day_opus] and
    [seven_day_sonnet] whose utilization is present and not null, labelled
    ["5h session"], ["Weekly"], ["Weekly (Opus)"] and ["Weekly (Sonnet)"],
    in that order, the others being left out, and they are the windows of
    the result the client returns; the body with [five_hour] at 34 with a
    reset time and [seven_day] at 81 without one gives exactly
    ["5h session"] at 34 with a non-empty [resetIn], then ["Weekly"] at 81
    with none. *)
Theorem anthropic_windows_in_fixed_order (data : value) :
  (nullish data = true -> exists e, anthropicWindows W data = Throw e) /\
  (nullish data = false ->
   anthropicWindows W data = Ok (flat_map (mappedWindow W data) anthropicFields)) /\
  (forall res,
      nullish data = false ->
      truthy (anthropicAuth W) = true ->
      fetch W (anthropicUsageRequest signal (field (anthropicAuth W) "access")) = Ok res ->
      ok res = true -> json res = Ok data ->
      exists acct,
        fetchAnthropicUsage W signal
        = Ok (mkUsage (lit "Anthropic") None acct
                      (flat_map (mappedWindow W data) anthropicFields)
                      ANTHROPIC_LINKS None)) /\
  (forall iso, iso <> [] ->
      exists resetIn,
        resetIn <> [] /\
        anthropicWindows W (exampleAnthropicBody iso)
        = Ok [ mkWindow (lit "5h session") (of_Z 34) (Some resetIn);
               mkWindow (lit "Weekly") (of_Z 81) None ]).
Proof.
  split.
  { intros Hd. destruct data; try discriminate; eexists; reflexivity. }
  split; [apply anthropicWindows_mapped|]. split.
  - intros res Hd. unfold anthropicAuth, fetchAnthropicUsage.
    destruct (readPiAuth_value W "anthropic") as [auth Hauth]. rewrite Hauth. cbn [bind].
    intros Ht Hf Hok Hj. rewrite Ht. cbn [negb].
    rewrite !get_field by now apply truthy_not_nullish. cbn [bind].
    destruct (extractEmailFromJwt_returns (field auth "access")) as [jwt Hjwt].
    rewrite Hjwt. cbn [bind].
    destruct (profileEmail_returns W signal jwt (field auth "access")) as [prof Hprof].
    rewrite Hprof. cbn [bind].
    rewrite Hf. cbn [bind]. rewrite Hok. cbn [negb]. rewrite Hj. cbn [bind].
    rewrite anthropicWindows_mapped by assumption. cbn [bind try_catch].
    eexists. reflexivity.
  - intros iso Hiso. exists (formatResetTimestamp W (VStr iso)). split.
    + apply formatSeconds_nonempty.
    + rewrite anthropicWindows_mapped by reflexivity.
      unfold exampleAnthropicBody, anthropicFields, flat_map, mappedWindow.
      destruct iso as [|c iso]; [contradiction|]. reflexivity.
Qed.

Lemma resetOf_resetText (w : value) : resetOf w = Ok (resetText w).
Proof.
  unfold resetOf, resetText. rewrite get_opt_field. cbn [bind]. now destruct (nullish _).
Qed.

Lemma extraWindow_surfaced (extra : value) :
  typedEntry extra -> extraWindow extra = Ok (surfaced extra).
Proof.
  intros [Hobj Hname]. unfold extraWindow, surfaced.
  rewrite !(get_field extra) by assumption. cbn [bind].
  destruct (truthy (field extra "limit_name")) eqn:Hn; cbn [negb orb].
  - destruct (Hname eq_refl) as [n Hn']. rewrite Hn' in *. cbn [truthy] in Hn.
    apply negb_true_iff in Hn. rewrite Hn. cbn [orb].
    destruct (truthy (field extra "rate_limit")) eqn:Hp; cbn [negb]; [|reflexivity].
    rewrite !(get_field (field extra "rate_limit")) by now apply truthy_not_nullish.
    cbn [bind]. rewrite !get_opt_field. cbn [bind].
    fold (usedPercent (field (field extra "rate_limit") "primary_window")).
    fold (usedPercent (field (field extra "rate_limit") "secondary_window")).
    rewrite negb_orb.
    destruct (negb (num_gt _ _) && negb (num_gt _ _)); [reflexivity|].
    cbn [bind]. rewrite resetOf_resetText. reflexivity.
  - destruct (field extra "limit_name") as [| |b|n|s|l|f]; try reflexivity.
    cbn [truthy] in Hn. apply negb_false_iff in Hn. now rewrite Hn.
Qed.

Lemma extraWindows_surfaced (items : list value) :
  Forall typedEntry items -> extraWindows items = Ok (flat_map surfacedList items).
Proof.
  induction 1 as [|extra rest Hx _ IH]; [reflexivity|].
  cbn [extraWindows flat_map]. rewrite extraWindow_surfaced by assumption. cbn [bind].
  rewrite IH. cbn [bind]. unfold surfacedList. now destruct (surfaced extra).
Qed.

(** C7, as the code has it.  Over a list of entries that are objects
    with string names, the loop over [additional_rate_limits] appends, in
    order, the window of every entry that has a name and a rate-limit
    payload and whose primary or secondary window reports usage above
    zero, and skips the others; the window's label is the name with a
    leading ["GPT-"] removed and then its first ["-Codex-"] replaced by one
    space (a later ["-Codex-"] stays), [percentUsed] is the larger of the
    two percentages, an absent one counting as zero, and [resetIn] comes
    from the secondary window's seconds when present.  With the name
    ["GPT-5-Codex-mini"], usage 0 and 0 gives no window and usage 0 and 12
    gives the window ["5 mini"] at 12. *)
Theorem additional_limits_surface_used_models (items : list value) :
  Forall typedEntry items ->
  extraWindows items = Ok (flat_map surfacedList items) /\
  codexWindows (VObj [(lit "additional_rate_limits", VArr items)])
  = Ok (None, flat_map surfacedList items) /\
  (forall a b,
      starts_with (lit "GPT-") (a ++ lit "-Codex-" ++ b) = false ->
      (forall i, (i < List.length a)%nat ->
                 starts_with (lit "-Codex-") (skipn i (a ++ lit "-Codex-" ++ b)) = false) ->
      shortName (a ++ lit "-Codex-" ++ b) = a ++ lit " " ++ b) /\
  (forall n, shortName (lit "GPT-" ++ n) = replace_first (lit "-Codex-") (lit " ") n) /\
  shortName (lit "GPT-5-Codex-mini") = lit "5 mini" /\
  extraWindows [exampleExtra "GPT-5-Codex-mini" 0 0] = Ok [] /\
  extraWindows [exampleExtra "GPT-5-Codex-mini" 0 12]
  = Ok [mkWindow (lit "5 mini") (of_Z 12) None].
Proof.
  intros Htyped. split; [now apply extraWindows_surfaced|]. split.
  - unfold codexWindows.
    set (data := VObj [(lit "additional_rate_limits", VArr items)]).
    change (get data "plan_type") with (@Ok value VUndef).
    change (get data "rate_limit") with (@Ok value VUndef).
    change (get data "additional_rate_limits") with (@Ok value (VArr items)).
    change (get data "code_review_rate_limit") with (@Ok value VUndef).
    cbn [bind get_opt nullish truthy iterate string_of negb].
    rewrite extraWindows_surfaced by assumption. reflexivity.
  - split.
    { intros a b Hprefix Hleft. unfold shortName, replace_prefix. rewrite Hprefix.
      now apply replace_first_leftmost. }
    split.
    { intros n. unfold shortName, replace_prefix.
      rewrite starts_with_app. now rewrite skipn_app_exact. }
    repeat split; reflexivity.
Qed.

End Mapping.

(** *** Worked instances *)

Section Instances.
Import Examples.

(** The theorem of C8 at 93784 seconds, one day, two hours, three
    minutes and four seconds. *)
Lemma formatSeconds_coarsest_units_witness :
  93784 <= SAFE_SECONDS /\
  formatSeconds (E := exampleEngine) (of_Z 93784) = lit "1d 2h".
Proof.
  assert (Hsafe : 93784 <= SAFE_SECONDS) by (vm_compute; discriminate).
  split; [exact Hsafe|].
  pose proof (@formatSeconds_coarsest_units exampleEngine 93784 Hsafe) as [Hrule _].
  rewrite Hrule. reflexivity.
Defined.


(** C3 as stated fails below 20 columns: at width 10 the footer line is
    20 columns wide, its close hint alone taking 14. *)
Lemma renderPanel_narrow_footer_overflows :
  exists lines,
    renderPanel (E := exampleEngine) (Th := ansiTheme) 10 Loading [] = Ok lines /\
    map (visibleWidth (T := unitTerminal)) lines = [10; 10; 10; 10; 10; 10; 20; 10; 10].
Proof. eexists. split; vm_compute; reflexivity. Qed.

(** The theorem of C3 on a 58-column panel with two providers, one with
    a long account and two windows, one with an error. *)
Lemma renderPanel_lines_exact_width_witness :
  20 <= 58 /\
  exists lines,
    renderPanel (E := exampleEngine) (Th := ansiTheme) 58 Done [anthropicResult; codexResult]
    = Ok lines /\
    Forall (fun line => visibleWidth (T := unitTerminal) line = 58) lines.
Proof.
  assert (Hw : 20 <= 58) by lia.
  split; [exact Hw|].
  pose proof (@renderPanel_lines_exact_width exampleEngine unitTerminal ansiTheme
                58 Done [anthropicResult; codexResult] Hw) as [Hwidth _].
  eexists. split; [vm_compute; reflexivity|].
  apply Hwidth. vm_compute. reflexivity.
Defined.

(** C4 as stated fails when the signal fires while the body of a
    non-2xx answer is being read: the rejection of [res.text()] is
    swallowed and both clients report the HTTP status, with an empty body
    snippet, instead of ["Cancelled"]. *)
Lemma cancelled_error_body_reported_as_http :
  aborted firedSignal = true /\
  (forall req, signal req = Some firedSignal ->
               exists res,
                 fetch abortedErrorBodyWorld req = Ok res /\
                 ok res = false /\ text res = Throw AbortError /\
                 is_abort AbortError = true) /\
  (exists r, fetchAnthropicUsage (E := exampleEngine) abortedErrorBodyWorld (Some firedSignal)
             = Ok r /\
             error r = Some (lit "HTTP 500: ") /\ error r <> Some (lit "Cancelled")) /\
  (exists r, fetchCodexUsage (E := exampleEngine) abortedErrorBodyWorld (Some firedSignal)
             = Ok r /\
             error r = Some (lit "HTTP 500: ") /\ error r <> Some (lit "Cancelled")).
Proof.
  split; [reflexivity|]. split.
  - intros req Hs. eexists. unfold abortedErrorBodyWorld, cancellingWorld, fired.
    cbn [fetch]. rewrite Hs. cbn [aborted firedSignal andb].
    repeat split; reflexivity.
  - split; eexists; (split; [vm_compute; reflexivity|]);
      (split; [reflexivity | discriminate]).
Qed.

(** The theorem of C4 on two runs with a fired signal: one in which
    only Anthropic's usage call is cancelled, where the Codex client,
    given the same signal, still reports its answer; and one in which
    every call is.  Without the signal the first run is not cancelled. *)
Lemma cancelled_usage_call_witness :
  aborted firedSignal = true /\
  (exists acct, fetchAnthropicUsage (E := exampleEngine) anthropicAbortedWorld
                                    (Some firedSignal)
                = Ok (cancelledUsage "Anthropic" ANTHROPIC_LINKS acct)) /\
  fetchCodexUsage (E := exampleEngine) anthropicAbortedWorld (Some firedSignal)
  = Ok (mkUsage (lit "OpenAI Codex") None None [] CODEX_LINKS None) /\
  (exists acct, fetchCodexUsage (E := exampleEngine) abortedWorld (Some firedSignal)
                = Ok (cancelledUsage "OpenAI Codex" CODEX_LINKS acct)) /\
  fetchAnthropicUsage (E := exampleEngine) anthropicAbortedWorld None
  = Ok (mkUsage (lit "Anthropic") None None [] ANTHROPIC_LINKS None).
Proof.
  split; [reflexivity|].
  pose proof (@cancelled_usage_call exampleEngine anthropicAbortedWorld firedSignal eq_refl)
    as [Ha _].
  pose proof (@cancelled_usage_call exampleEngine abortedWorld firedSignal eq_refl)
    as [_ Hx].
  split.
  { apply Ha; [vm_compute; reflexivity|].
    intros s _ _. left. exists AbortError. split; vm_compute; reflexivity. }
  split; [vm_compute; reflexivity|].
  split.
  { apply Hx; [vm_compute; reflexivity|].
    intros s _ _. left. exists AbortError. split; vm_compute; reflexivity. }
  vm_compute. reflexivity.
Defined.

(** The theorem of C6 on the body of the specification's example. *)
Lemma anthropic_windows_in_fixed_order_witness :
  nullish (exampleAnthropicBody (lit "2030-01-01T05:00:00Z")) = false /\
  anthropicWindows (E := exampleEngine) emptyBodyWorld
                   (exampleAnthropicBody (lit "2030-01-01T05:00:00Z"))
  = Ok [ mkWindow (lit "5h session") (of_Z 34) (Some (lit "5h"));
         mkWindow (lit "Weekly") (of_Z 81) None ].
Proof.
  split; [reflexivity|].
  pose proof (@anthropic_windows_in_fixed_order exampleEngine emptyBodyWorld None
                (exampleAnthropicBody (lit "2030-01-01T05:00:00Z"))) as [_ [Hmap _]].
  rewrite (Hmap eq_refl). vm_compute. reflexivity.
Defined.

(** C7 as stated fails on a name with two ["-Codex-"] infixes: only the
    first becomes a space. *)
Lemma codex_infix_replaced_once :
  extraWindows (E := exampleEngine) [exampleExtra "GPT-5-Codex-a-Codex-b" 0 12]
  = Ok [mkWindow (lit "5 a-Codex-b") (of_Z 12) None] /\
  occurs (lit "-Codex-") (lit "5 a-Codex-b") = true.
Proof. split; vm_compute; reflexivity. Qed.

(** The theorem of C7 on the two entries of the specification's
    example. *)
Lemma additional_limits_surface_used_models_witness :
  Forall typedEntry [exampleExtra "GPT-5-Codex-mini" 0 0; exampleExtra "GPT-5-Codex-mini" 0 12] /\
  extraWindows (E := exampleEngine)
               [exampleExtra "GPT-5-Codex-mini" 0 0; exampleExtra "GPT-5-Codex-mini" 0 12]
  = Ok [mkWindow (lit "5 mini") (of_Z 12) None].
Proof.
  assert (Ht : Forall typedEntry
                 [exampleExtra "GPT-5-Codex-mini" 0 0; exampleExtra "GPT-5-Codex-mini" 0 12]).
  { repeat constructor; intros _; eexists; reflexivity. }
  split; [exact Ht|].
  pose proof (@additional_limits_surface_used_models exampleEngine _ Ht) as [Hloop _].
  rewrite Hloop. vm_compute. reflexivity.
Defined.

(** The theorem of C5 on a run whose primary store holds no entry for
    the provider asked for and whose legacy store is missing, and on two
    tokens: one without a dot, one whose middle segment is not JSON. *)
Lemma credentials_never_raise_witness :
  readPiAuth (E := exampleEngine) emptyBodyWorld "mistral" = Ok VNull /\
  readCodexAuth (E := exampleEngine) emptyBodyWorld = Ok None /\
  extractEmailFromJwt (E := exampleEngine) (VStr (lit "abc")) = Ok None /\
  extractEmailFromJwt (E := exampleEngine) (VStr (lit "a.b.c")) = Ok None.
Proof.
  pose proof (@credentials_never_raise exampleEngine emptyBodyWorld)
    as [_ [_ [_ [_ [Hmissing [_ [_ [Hkeys [_ [_ [_ [Hshort Hjson]]]]]]]]]]]].
  split; [apply (Hkeys "mistral"%string piAuthText) with
            (fields := [ (lit "anthropic", VObj [(lit "access", VStr (lit "tok"))]);
                         (lit "openai-codex", VObj [(lit "access", VStr (lit "tok"))]) ]);
          reflexivity|].
  split; [apply (Hmissing (mkExn (lit "Error") (lit "ENOENT: no such file or directory")));
          reflexivity|].
  split; [apply Hshort; vm_compute; lia|].
  apply (Hjson (lit "a.b.c") SyntaxError). reflexivity.
Defined.

(** C10 as stated fails on a window whose percentage is not a number,
    which a Codex window without [used_percent] is: no fill count lies
    in [0,8], and yet a row is returned, its gauge empty. *)
Lemma renderUsageRow_row_without_fill_count :
  filledOf (remainingOf (mkWindow (lit "Weekly") NaN None)) = NaN /\
  returns (renderUsageRow (E := exampleEngine) (Th := ansiTheme)
                          (mkWindow (lit "Weekly") NaN None) 6 52).
Proof. split; [reflexivity|]. eexists. vm_compute. reflexivity. Qed.

(** The theorem of C10 at 150 percent, at -10 percent and at the two
    bounds. *)
Lemma renderUsageRow_total_only_in_range_witness :
  (exists e, renderUsageRow (E := exampleEngine) (Th := ansiTheme)
                            (mkWindow (lit "Weekly") (Fin 150) None) 6 52 = Throw e /\
             name e = lit "RangeError") /\
  (exists e, renderUsageRow (E := exampleEngine) (Th := ansiTheme)
                            (mkWindow (lit "Weekly") (Fin (- (10))) None) 6 52 = Throw e /\
             name e = lit "RangeError") /\
  returns (renderUsageRow (E := exampleEngine) (Th := ansiTheme)
                          (mkWindow (lit "Weekly") (Fin (10625 # 100)) None) 6 52) /\
  ~ returns (renderUsageRow (E := exampleEngine) (Th := ansiTheme)
                            (mkWindow (lit "Weekly") (Fin (- (625 # 100))) None) 6 52).
Proof.
  split.
  { pose proof (@renderUsageRow_total_only_in_range exampleEngine unitTerminal ansiTheme
                  (lit "Weekly") None 6 52 150) as [_ [_ [_ Haway]]].
    destruct (Haway eq_refl) as [_ [Habove _]]. apply Habove. reflexivity. }
  split.
  { pose proof (@renderUsageRow_total_only_in_range exampleEngine unitTerminal ansiTheme
                  (lit "Weekly") None 6 52 (- (10))) as [_ [_ [_ Haway]]].
    destruct (Haway eq_refl) as [_ [_ Hbelow]]. apply Hbelow. vm_compute. discriminate. }
  split.
  { pose proof (@renderUsageRow_total_only_in_range exampleEngine unitTerminal ansiTheme
                  (lit "Weekly") None 6 52 (10625 # 100)) as [_ [_ [_ Haway]]].
    destruct (Haway eq_refl) as [Hiff _]. apply Hiff. vm_compute. split; discriminate. }
  intros Hr.
  pose proof (@renderUsageRow_total_only_in_range exampleEngine unitTerminal ansiTheme
                (lit "Weekly") None 6 52 (- (625 # 100))) as [_ [_ [_ Haway]]].
  destruct (Haway eq_refl) as [Hiff _].
  apply Hiff in Hr. vm_compute in Hr. destruct Hr as [_ Hr]. now apply Hr.
Defined.

End Instances.
(** ** Further properties of the clients ([src/providers.ts]) *)

Import Outcome Layout.

Section ClientPaths.
Context {E : Engine} (W : World) (signal : option AbortSignal).

Lemma fetchAnthropicUsage_settled :
  truthy (anthropicAuth W) = true ->
  fetchAnthropicUsage W signal
  = Ok (settled "Anthropic" ANTHROPIC_LINKS (anthropicAccount W signal)
                (fetch W (anthropicUsageRequest signal (field (anthropicAuth W) "access")))
                (fun data => windows <- anthropicWindows W data ;; Ok (None, windows))).
Proof.
  unfold anthropicAccount, anthropicAuth, fetchAnthropicUsage.
  destruct (readPiAuth_value W "anthropic") as [auth Hauth]. rewrite Hauth. cbn [bind].
  intros Ht. rewrite Ht. cbn [negb].
  rewrite !get_field by now apply truthy_not_nullish. cbn [bind].
  destruct (extractEmailFromJwt_returns (field auth "access")) as [jwt Hjwt].
  rewrite Hjwt. cbn [bind]. cbv zeta.
  destruct (profileEmail_returns W signal jwt (field auth "access")) as [prof Hprof].
  rewrite Hprof. cbn [bind].
  assert (Hsame : match jwt with
                  | Some _ => jwt
                  | None => match fetchAnthropicProfileEmail W (field auth "access") signal with
                            | Ok found => found
                            | Throw _ => None
                            end
                  end = prof).
  { destruct jwt; [now injection Hprof | now rewrite Hprof]. }
  rewrite Hsame. unfold settled, failed.
  destruct (fetch W _) as [res|e]; cbn [bind try_catch].
  2:{ now destruct (is_abort e). }
  destruct (ok res); cbn [negb]; [|reflexivity].
  destruct (json res) as [data|e]; cbn [bind try_catch].
  2:{ now destruct (is_abort e). }
  destruct (anthropicWindows W data) as [ws|e]; cbn [bind try_catch]; [reflexivity|].
  now destruct (is_abort e).
Qed.

Lemma fetchAnthropicUsage_no_credentials :
  truthy (anthropicAuth W) = false ->
  fetchAnthropicUsage W signal = Ok (noCredentials "Anthropic" ANTHROPIC_LINKS).
Proof.
  unfold anthropicAuth, fetchAnthropicUsage.
  destruct (readPiAuth_value W "anthropic") as [auth Hauth]. rewrite Hauth. cbn [bind].
  intros Ht. now rewrite Ht.
Qed.

Lemma fetchCodexUsage_no_credentials :
  truthy (codexToken W) = false ->
  fetchCodexUsage W signal = Ok (noCredentials "OpenAI Codex" CODEX_LINKS).
Proof.
  unfold codexToken, fetchCodexUsage.
  destruct (readPiAuth_value W "openai-codex") as [piAuth Hauth]. rewrite Hauth. cbn [bind].
  destruct (readCodexAuth_returns W) as [codexAuth Hcodex]. rewrite Hcodex. cbn [bind].
  rewrite !get_opt_field. cbn [bind].
  intros Ht. now rewrite Ht.
Qed.

Lemma fetchCodexUsage_settled :
  truthy (codexToken W) = true ->
  fetchCodexUsage W signal
  = Ok (settled "OpenAI Codex" CODEX_LINKS (codexAccount W)
                (fetch W (codexUsageRequest signal (codexToken W)))
                codexWindows).
Proof.
  unfold codexAccount, codexToken, fetchCodexUsage.
  destruct (readPiAuth_value W "openai-codex") as [piAuth Hauth]. rewrite Hauth. cbn [bind].
  destruct (readCodexAuth_returns W) as [codexAuth Hcodex]. rewrite Hcodex. cbn [bind].
  rewrite !get_opt_field. cbn [bind].
  intros Ht. rewrite Ht. cbn [negb].
  match goal with |- context [extractEmailFromJwt ?t] =>
    destruct (extractEmailFromJwt_returns t) as [jwt Hjwt] end.
  rewrite Hjwt. cbn [bind]. cbv zeta.
  unfold settled, failed.
  destruct (fetch W _) as [res|e]; cbn [bind try_catch].
  2:{ destruct (is_abort e); destruct codexAuth; reflexivity. }
  destruct (ok res); cbn [negb]; [|destruct codexAuth; reflexivity].
  destruct (json res) as [data|e]; cbn [bind try_catch].
  2:{ destruct (is_abort e); destruct codexAuth; reflexivity. }
  destruct (codexWindows data) as [[plan ws]|e]; cbn [bind try_catch fst snd].
  - destruct codexAuth; reflexivity.
  - destruct (is_abort e); destruct codexAuth; reflexivity.
Qed.
End ClientPaths.

Section Paths.
Context {E : Engine} (W : World) (signal : option AbortSignal).

Lemma settled_account who lnks acct response mapping :
  account (settled who lnks acct response mapping) = acct.
Proof.
  unfold settled, failed. destruct response as [res|e]; [|reflexivity].
  destruct (ok res); [|reflexivity].
  destruct (json res) as [data|e]; [|reflexivity].
  destruct (mapping data) as [[plan ws]|e]; reflexivity.
Qed.

(** X1.  When the two credential files, [~/.pi/agent/auth.json] and
    [~/.codex/auth.json], cannot be read, both clients report
    [No OAuth credentials found] with no windows, no plan and no account,
    whatever the network would have answered and whatever else the
    machine holds: the result does not depend on [fetch]. *)
Theorem no_credential_files_no_network_call (net : Request -> Result Response) :
  (exists e, readFileSync W (piAuthPath W) = Throw e) ->
  (exists e, readFileSync W (codexAuthPath W) = Throw e) ->
  fetchAnthropicUsage (withNetwork W net) signal
  = Ok (noCredentials "Anthropic" ANTHROPIC_LINKS) /\
  fetchCodexUsage (withNetwork W net) signal
  = Ok (noCredentials "OpenAI Codex" CODEX_LINKS).
Proof.
  unfold piAuthPath, codexAuthPath. intros [e He] [e' He']. split.
  - apply fetchAnthropicUsage_no_credentials. unfold anthropicAuth, readPiAuth.
    cbn [homedir readFileSync withNetwork]. now rewrite He.
  - apply fetchCodexUsage_no_credentials. unfold codexToken, readPiAuth, readCodexAuth.
    cbn [homedir readFileSync withNetwork]. rewrite He. now rewrite He'.
Qed.

Lemma len_slice0_bound (s : jstring) (n : Z) : 0 <= n -> len (slice0 s n) <= n.
Proof.
  intros Hn. unfold slice0. destruct (Z.ltb_spec n 0); [lia|].
  rewrite len_firstn. lia.
Qed.

(** X2.  A usage answer that is not 2xx becomes, for both clients, the
    error [HTTP <status>: <snippet>] with no windows and no plan, the
    account kept; the snippet is the first 100 units of the body, at most
    100 long, and empty when the body cannot be read. *)
Theorem http_error_reported_with_snippet (res : Response) :
  ok res = false ->
  (truthy (anthropicAuth W) = true ->
   fetch W (anthropicUsageRequest signal (field (anthropicAuth W) "access")) = Ok res ->
   fetchAnthropicUsage W signal
   = Ok (mkUsage (lit "Anthropic") None (anthropicAccount W signal) [] ANTHROPIC_LINKS
                 (Some (http_error res)))) /\
  (truthy (codexToken W) = true ->
   fetch W (codexUsageRequest signal (codexToken W)) = Ok res ->
   fetchCodexUsage W signal
   = Ok (mkUsage (lit "OpenAI Codex") None (codexAccount W) [] CODEX_LINKS
                 (Some (http_error res)))) /\
  (exists snippet,
      http_error res = lit "HTTP " ++ intToString (status res) ++ lit ": " ++ snippet /\
      len snippet <= 100 /\
      (forall body, text res = Ok body -> snippet = firstn 100 body) /\
      (forall e, text res = Throw e -> snippet = [])).
Proof.
  intros Hok. split; [|split].
  - intros Ht Hf. rewrite fetchAnthropicUsage_settled by assumption.
    unfold settled. now rewrite Hf, Hok.
  - intros Ht Hf. rewrite fetchCodexUsage_settled by assumption.
    unfold settled. now rewrite Hf, Hok.
  - unfold http_error. eexists. split; [reflexivity|]. split.
    + apply len_slice0_bound. lia.
    + split.
      * intros body Hb. now rewrite Hb.
      * intros e He. now rewrite He.
Qed.

(** X3.  A failure that is not an [AbortError], of the usage call or of
    the JSON reader of a 2xx answer, is reported by both clients with the
    failure's own message as the error, no windows and no plan. *)
Theorem failure_message_reported (e : exn) :
  is_abort e = false ->
  (truthy (anthropicAuth W) = true ->
   fetch W (anthropicUsageRequest signal (field (anthropicAuth W) "access")) = Throw e \/
   (exists res, fetch W (anthropicUsageRequest signal (field (anthropicAuth W) "access")) = Ok res /\
                ok res = true /\ json res = Throw e) ->
   fetchAnthropicUsage W signal
   = Ok (mkUsage (lit "Anthropic") None (anthropicAccount W signal) [] ANTHROPIC_LINKS
                 (Some (message e)))) /\
  (truthy (codexToken W) = true ->
   fetch W (codexUsageRequest signal (codexToken W)) = Throw e \/
   (exists res, fetch W (codexUsageRequest signal (codexToken W)) = Ok res /\
                ok res = true /\ json res = Throw e) ->
   fetchCodexUsage W signal
   = Ok (mkUsage (lit "OpenAI Codex") None (codexAccount W) [] CODEX_LINKS
                 (Some (message e)))).
Proof.
  intros Ha. split.
  - intros Ht Hf. rewrite fetchAnthropicUsage_settled by assumption.
    unfold settled, failed.
    destruct Hf as [Hf | [res [Hf [Hok Hj]]]].
    + now rewrite Hf, Ha.
    + now rewrite Hf, Hok, Hj, Ha.
  - intros Ht Hf. rewrite fetchCodexUsage_settled by assumption.
    unfold settled, failed.
    destruct Hf as [Hf | [res [Hf [Hok Hj]]]].
    + now rewrite Hf, Ha.
    + now rewrite Hf, Hok, Hj, Ha.
Qed.

End Paths.

Section Accounts.
Context {E : Engine} (W : World) (signal : option AbortSignal).

Lemma anthropic_result_account :
  truthy (anthropicAuth W) = true ->
  exists r, fetchAnthropicUsage W signal = Ok r /\ account r = anthropicAccount W signal.
Proof.
  intros Ht. rewrite fetchAnthropicUsage_settled by assumption.
  eexists. split; [reflexivity | apply settled_account].
Qed.

Lemma codex_result_account :
  truthy (codexToken W) = true ->
  exists r, fetchCodexUsage W signal = Ok r /\ account r = codexAccount W.
Proof.
  intros Ht. rewrite fetchCodexUsage_settled by assumption.
  eexists. split; [reflexivity | apply settled_account].
Qed.

Lemma fetchAnthropicProfileEmail_answer (token : value) :
  fetchAnthropicProfileEmail W token signal
  = Ok (profileEmailOf (fetch W (anthropicProfileRequest signal token))).
Proof.
  unfold fetchAnthropicProfileEmail, profileEmailOf.
  destruct (fetch W _) as [res|e]; cbn [bind try_catch]; [|reflexivity].
  destruct (ok res); cbn [negb]; [|reflexivity].
  destruct (json res) as [data|e]; cbn [bind try_catch]; [|reflexivity].
  destruct (nullish data) eqn:Hd.
  - rewrite (field_nullish data) by assumption.
    destruct data; try discriminate; reflexivity.
  - rewrite (get_field data) by assumption. cbn [bind].
    rewrite get_opt_field. cbn [bind try_catch].
    destruct (field (field data "account") "email") as [| |b|n|s|items|fields]; try reflexivity.
    cbn [typeof_string truthy string_of nonempty andb].
    destruct (jstring_eqb s []); reflexivity.
Qed.

Lemma readPiAuth_file (provider : string) : readPiAuth W provider = Ok (piEntry W provider).
Proof.
  unfold readPiAuth, piEntry, piAuthPath.
  destruct (readFileSync W _) as [raw|e]; cbn [bind try_catch]; [|reflexivity].
  destruct (JSON_parse raw) as [data|e]; cbn [bind try_catch]; [|reflexivity].
  destruct (nullish data) eqn:Hd.
  - rewrite (field_nullish data) by assumption.
    destruct data; try discriminate; reflexivity.
  - rewrite (get_field data) by assumption. reflexivity.
Qed.

Lemma readCodexAuth_file :
  readCodexAuth W
  = Ok (if truthy (legacyToken W)
        then Some (mkCodexAuth (legacyToken W) (jwtEmailOf (legacyToken W)))
        else None).
Proof.
  unfold readCodexAuth, legacyToken, jwtEmailOf, codexAuthPath.
  destruct (readFileSync W _) as [raw|e]; cbn [bind try_catch]; [|reflexivity].
  destruct (JSON_parse raw) as [data|e]; cbn [bind try_catch]; [|reflexivity].
  destruct (nullish data) eqn:Hd.
  - rewrite (field_nullish data) by assumption.
    destruct data; try discriminate; reflexivity.
  - rewrite (get_field data) by assumption. cbn [bind].
    rewrite get_opt_field. cbn [bind].
    destruct (truthy (field (field data "tokens") "access_token")); [|reflexivity].
    destruct (extractEmailFromJwt_returns (field (field data "tokens") "access_token"))
      as [em Hem].
    rewrite Hem. reflexivity.
Qed.

(** X4.  An Anthropic result made with credentials carries as account
    the email decoded from the access token; when the token holds none,
    the email the profile endpoint answers to the request made with that
    token and the signal, when the answer is 2xx and its [account.email]
    is a non-empty string; and otherwise, also when that call fails, the
    stored [accountId].  The credentials are the entry the primary store
    holds for ["anthropic"]. *)
Theorem anthropic_account_by_priority :
  truthy (anthropicAuth W) = true ->
  anthropicAuth W = piEntry W "anthropic" /\
  exists r,
    fetchAnthropicUsage W signal = Ok r /\
    (forall e, extractEmailFromJwt (field (anthropicAuth W) "access") = Ok (Some e) ->
               account r = Some e) /\
    (extractEmailFromJwt (field (anthropicAuth W) "access") = Ok None ->
     account r
     = or_else (profileEmailOf
                  (fetch W (anthropicProfileRequest signal (field (anthropicAuth W) "access"))))
               (string_of (field (anthropicAuth W) "accountId"))).
Proof.
  intros Ht. split.
  { unfold anthropicAuth. now rewrite readPiAuth_file. }
  destruct (anthropic_result_account Ht) as [r [Hr Hacct]].
  exists r. split; [exact Hr|]. rewrite Hacct. unfold anthropicAccount.
  split.
  - intros e He. now rewrite He.
  - intros He. rewrite He. now rewrite fetchAnthropicProfileEmail_answer.
Qed.

(** X5.  A Codex result made with a token carries as account the email
    decoded from the token that is sent; when that token holds none, the
    email decoded from the token of the legacy store
    [~/.codex/auth.json], when the store has a token; and otherwise the
    [accountId] of the entry the primary store holds for
    ["openai-codex"].  The token sent is the [access] token of that
    entry, or the legacy token when the entry has none. *)
Theorem codex_account_by_priority :
  truthy (codexToken W) = true ->
  codexToken W
  = coalesce (field (piEntry W "openai-codex") "access")
             (if truthy (legacyToken W) then legacyToken W else VUndef) /\
  exists r,
    fetchCodexUsage W signal = Ok r /\
    account r
    = or_else (jwtEmailOf (codexToken W))
              (or_else (legacyEmail W)
                       (string_of (field (piEntry W "openai-codex") "accountId"))).
Proof.
  intros Ht.
  assert (Htok : codexToken W
                 = coalesce (field (piEntry W "openai-codex") "access")
                            (if truthy (legacyToken W) then legacyToken W else VUndef)).
  { unfold codexToken. rewrite readPiAuth_file, readCodexAuth_file.
    now destruct (truthy (legacyToken W)). }
  split; [exact Htok|].
  destruct (codex_result_account Ht) as [r [Hr Hacct]].
  exists r. split; [exact Hr|]. rewrite Hacct. unfold codexAccount, legacyEmail, jwtEmailOf.
  rewrite readPiAuth_file, readCodexAuth_file.
  now destruct (truthy (legacyToken W)).
Qed.

(** X6.  The Codex client sends the [access] token of the primary store
    when it is truthy, and the legacy store's token only when the primary
    one is [null] or [undefined]; a primary token that is present but
    falsy (an empty string) is not replaced by the legacy one: the client
    reports that no credentials were found. *)
Theorem codex_token_precedence (piAuth : value) (legacy : option ReadCodexAuth) :
  readPiAuth W "openai-codex" = Ok piAuth ->
  readCodexAuth W = Ok legacy ->
  (truthy (field piAuth "access") = true ->
   fetchCodexUsage W signal
   = Ok (settled "OpenAI Codex" CODEX_LINKS (codexAccount W)
                 (fetch W (codexUsageRequest signal (field piAuth "access"))) codexWindows)) /\
  (forall c, nullish (field piAuth "access") = true -> legacy = Some c ->
             truthy (accessToken c) = true ->
             fetchCodexUsage W signal
             = Ok (settled "OpenAI Codex" CODEX_LINKS (codexAccount W)
                           (fetch W (codexUsageRequest signal (accessToken c))) codexWindows)) /\
  (nullish (field piAuth "access") = false -> truthy (field piAuth "access") = false ->
   fetchCodexUsage W signal = Ok (noCredentials "OpenAI Codex" CODEX_LINKS)).
Proof.
  intros Hpi Hlegacy.
  assert (Htok : codexToken W
                 = coalesce (field piAuth "access")
                            (match legacy with Some c => accessToken c | None => VUndef end)).
  { unfold codexToken. now rewrite Hpi, Hlegacy. }
  split; [|split].
  - intros Ht.
    assert (Heq : codexToken W = field piAuth "access").
    { rewrite Htok. unfold coalesce. now rewrite (truthy_not_nullish _ Ht). }
    rewrite fetchCodexUsage_settled by (now rewrite Heq). now rewrite Heq.
  - intros c Hn -> Ht.
    assert (Heq : codexToken W = accessToken c).
    { rewrite Htok. unfold coalesce. now rewrite Hn. }
    rewrite fetchCodexUsage_settled by (now rewrite Heq). now rewrite Heq.
  - intros Hn Ht. apply fetchCodexUsage_no_credentials.
    rewrite Htok. unfold coalesce. now rewrite Hn.
Qed.

End Accounts.

Section Jwt.
Context {E : Engine}.

Lemma probe_profile_field (data : value) :
  nullish data = false ->
  probe_profile data
  = Ok (string_of (field (coalesce (field data OPENAI_PROFILE) (field data ANTHROPIC_PROFILE))
                         "email")).
Proof.
  intros Hd. unfold probe_profile, OPENAI_PROFILE, ANTHROPIC_PROFILE.
  rewrite (get_field data "https://api.openai.com/profile") by assumption. cbn [bind].
  unfold coalesce at 1.
  destruct (nullish (field data "https://api.openai.com/profile")) eqn:Hn.
  - rewrite get_field by assumption. cbn [bind].
    set (profile := field data "https://api.anthropic.com/profile").
    destruct profile as [| |b|n|s|items|fields]; try reflexivity;
      try (cbn [typeof_object]; rewrite andb_false_r; reflexivity).
    unfold field, get_opt. cbn [truthy typeof_object has_key andb nullish get].
    destruct (assoc (lit "email") fields) as [em|]; [|reflexivity].
    cbn [bind]. now destruct em.
  - cbn [bind].
    set (profile := field data "https://api.openai.com/profile") in *.
    destruct profile as [| |b|n|s|items|fields]; try reflexivity; try discriminate;
      try (cbn [typeof_object]; rewrite andb_false_r; reflexivity).
    unfold field, get_opt. cbn [truthy typeof_object has_key andb nullish get].
    destruct (assoc (lit "email") fields) as [em|]; [|reflexivity].
    cbn [bind]. now destruct em.
Qed.

Lemma probe_email_field (data : value) :
  nullish data = false -> probe_email data = Ok (string_of (field data "email")).
Proof.
  intros Hd. unfold probe_email. rewrite get_field by assumption. cbn [bind].
  now destruct (field data "email").
Qed.

Lemma probe_auth_field (data : value) :
  nullish data = false ->
  probe_auth data = Ok (nonempty (string_of (field (field data OPENAI_AUTH) "email"))).
Proof.
  intros Hd. unfold probe_auth, OPENAI_AUTH. rewrite get_field by assumption. cbn [bind].
  set (a := field data "https://api.openai.com/auth").
  destruct a as [| |b|n|s|items|fields]; try reflexivity.
  cbn [typeof_object]. rewrite get_opt_field. cbn [bind].
  destruct (field (VObj fields) "email") as [| |b|n|s|items|fs]; try reflexivity.
  - cbn [truthy]. destruct b; reflexivity.
  - destruct n as [q|]; cbn [truthy]; [destruct (Qeq_bool q 0)|]; reflexivity.
  - cbn [truthy typeof_string string_of nonempty andb]. destruct (jstring_eqb s []); reflexivity.
Qed.

(** X7.  For a token of at least two segments whose middle segment
    decodes and parses, the email is taken from the first profile object
    present (OpenAI's, else Anthropic's) when its [email] is a string,
    else from a top-level string [email], else from a non-empty string
    [email] under OpenAI's auth object; a payload that parses to [null]
    gives none. *)
Theorem jwt_email_by_priority (s : jstring) (data : value) :
  (2 <= List.length (split_on 46%N s))%nat ->
  JSON_parse (base64_to_utf8 (normalize_payload (nth 1 (split_on 46%N s) []))) = Ok data ->
  (nullish data = true -> extractEmailFromJwt (VStr s) = Ok None) /\
  (nullish data = false ->
   extractEmailFromJwt (VStr s)
   = Ok (or_else
           (string_of (field (coalesce (field data OPENAI_PROFILE)
                                       (field data ANTHROPIC_PROFILE)) "email"))
           (or_else (string_of (field data "email"))
                    (nonempty (string_of (field (field data OPENAI_AUTH) "email")))))).
Proof.
  intros Hlen Hparse. unfold extractEmailFromJwt, split_token. cbn [bind].
  destruct (Z.ltb_spec (Z.of_nat (List.length (split_on 46%N s))) 2); [lia|].
  rewrite Hparse. cbn [bind]. split.
  - intros Hd. destruct data; try discriminate; reflexivity.
  - intros Hd. rewrite probe_profile_field, probe_email_field, probe_auth_field by assumption.
    cbn [bind].
    destruct (string_of (field (coalesce _ _) "email")); [reflexivity|].
    cbn [bind or_else].
    destruct (string_of (field data "email")); reflexivity.
Qed.

End Jwt.

Lemma rem4_pad (L : Z) : 0 <= L -> 0 <= Z.rem (4 - Z.rem L 4) 4 <= 3 /\
                                   (L + Z.rem (4 - Z.rem L 4) 4) mod 4 = 0.
Proof.
  intros HL. rewrite (Z.rem_mod_nonneg L 4) by lia.
  assert (0 <= L mod 4 < 4) by (apply Z.mod_pos_bound; lia).
  rewrite Z.rem_mod_nonneg by lia.
  Z.div_mod_to_equations. lia.
Qed.

Lemma len_replace_all_cu c d s : len (replace_all_cu c d s) = len s.
Proof. unfold len, replace_all_cu. now rewrite length_map. Qed.

Lemma len_repeat (c : cu) (n : nat) : len (repeat c n) = Z.of_nat n.
Proof. unfold len. now rewrite repeat_length. Qed.

Lemma replace_all_cu_absent c d s :
  forallb (fun x => negb (N.eqb x c)) s = true -> replace_all_cu c d s = s.
Proof.
  induction s as [|x s IH]; [reflexivity|]. cbn [forallb replace_all_cu map].
  intros H. apply andb_prop in H as [Hx Hs]. apply negb_true_iff in Hx. rewrite Hx.
  f_equal. now apply IH.
Qed.

Lemma normalize_payload_url_safe_free (payload : jstring) :
  url_safe_free (normalize_payload payload) = true.
Proof.
  unfold url_safe_free, normalize_payload. cbv zeta. rewrite forallb_app. apply andb_true_intro. split.
  - unfold replace_all_cu. rewrite map_map. apply forallb_forall. intros x Hx.
    apply in_map_iff in Hx as [y [<- _]].
    destruct (N.eqb_spec y 45%N) as [->|H45]; [reflexivity|].
    destruct (N.eqb_spec y 95%N) as [->|H95]; [reflexivity|].
    apply N.eqb_neq in H45, H95. now rewrite H45, H95.
  - apply forallb_forall. intros x Hx. apply repeat_spec in Hx. now subst x.
Qed.


Lemma Math_max_of_Z (a b : Z) : Math_max (of_Z a) (of_Z b) = of_Z (Z.max a b).
Proof.
  unfold Math_max, of_Z.
  change (Qle_bool (inject_Z a) (inject_Z b)) with (num_le (of_Z a) (of_Z b)).
  rewrite num_le_of_Z. destruct (Z.leb_spec a b); f_equal; f_equal; lia.
Qed.

Section Durations.
Context {E : Engine} (W : World) (signal : option AbortSignal).

(** X9.  A reset timestamp that is not a date is shown as [<1m]; a
    valid one as the short form of the whole seconds left, never
    negative; one less than a second ahead, or in the past, as [now]. *)
Theorem formatResetTimestamp_edges (iso : value) :
  (Date_getTime iso = NaN -> formatResetTimestamp W iso = lit "<1m") /\
  (forall reset now,
      Date_getTime iso = Fin reset -> Date_now W = Fin now ->
      formatResetTimestamp W iso
      = formatSeconds (of_Z (Z.max 0 (Qfloor ((reset - now) / inject_Z 1000)))) /\
      ((reset < now + inject_Z 1000)%Q -> formatResetTimestamp W iso = lit "now")).
Proof.
  split.
  - intros Hnan. unfold formatResetTimestamp. rewrite Hnan. reflexivity.
  - intros reset now Hr Hn. unfold formatResetTimestamp. rewrite Hr, Hn.
    cbn [num_sub lift2 num_div of_Z Math_floor].
    fold (of_Z (Qfloor ((reset - now) / inject_Z 1000))). fold (of_Z 0).
    rewrite Math_max_of_Z. split; [reflexivity|].
    intros Hclose.
    assert (Hk : Qfloor ((reset - now) / inject_Z 1000) < 1).
    { apply Qfloor_lt. unfold Qdiv. change (/ inject_Z 1000)%Q with (1 # 1000)%Q.
      change (inject_Z 1000) with (1000 # 1)%Q in Hclose. change (inject_Z 1) with (1 # 1)%Q.
      lra. }
    replace (Z.max 0 (Qfloor ((reset - now) / inject_Z 1000))) with 0 by lia.
    reflexivity.
Qed.


(** X11.  The primary store reader never returns [undefined] (a missing
    entry is [null]); a legacy credential, when returned, holds a truthy
    token and the email decoded from that very token. *)
Theorem credential_readers_results (provider : string) :
  (exists auth, readPiAuth W provider = Ok auth /\ auth <> VUndef) /\
  (forall c, readCodexAuth W = Ok (Some c) ->
             truthy (accessToken c) = true /\
             extractEmailFromJwt (accessToken c) = Ok (email c)).
Proof.
  split.
  - unfold readPiAuth.
    destruct (readFileSync W _) as [raw|e]; cbn [bind try_catch]; [|now exists VNull].
    destruct (JSON_parse raw) as [data|e]; cbn [bind try_catch]; [|now exists VNull].
    destruct (get data provider) as [entry|e]; cbn [bind try_catch]; [|now exists VNull].
    exists (coalesce entry VNull). split; [reflexivity|].
    destruct entry; cbn; discriminate.
  - intros c. unfold readCodexAuth.
    destruct (readFileSync W _) as [raw|e]; cbn [bind try_catch]; [|discriminate].
    destruct (JSON_parse raw) as [data|e]; cbn [bind try_catch]; [|discriminate].
    destruct (get data "tokens") as [tokens|e]; cbn [bind try_catch]; [|discriminate].
    destruct (get_opt tokens "access_token") as [tok|e]; cbn [bind try_catch]; [|discriminate].
    destruct (truthy tok) eqn:Ht; cbn [try_catch]; [|discriminate].
    destruct (extractEmailFromJwt_returns tok) as [em Hem]. rewrite Hem. cbn [bind try_catch].
    intros [= <-]. cbn [accessToken email]. now split.
Qed.

End Durations.

Section CodexMapping.
Context {E : Engine}.

Lemma codexWindow_field (lbl : string) (w : value) :
  truthy w = true ->
  codexWindow lbl w = Ok (mkWindow (lit lbl) (toNumber (field w "used_percent")) (resetText w)).
Proof.
  intros Hw. unfold codexWindow. rewrite get_field by now apply truthy_not_nullish.
  cbn [bind]. now rewrite resetOf_resetText.
Qed.

(** X12.  For a Codex body whose model-specific limits, when present,
    are a list of well-typed entries, the mapping returns the plan when
    it is a string and the windows in the order [5h session], [Weekly],
    the model-specific ones in their order, [Code Review]; each main
    window is there when the provider sent it, the code-review one only
    when its usage is above zero. *)
Theorem codex_windows_in_fixed_order (data : value) :
  nullish data = false ->
  typedExtras (field data "additional_rate_limits") ->
  codexWindows data
  = Ok (string_of (field data "plan_type"),
        mainWindow "5h session" (field (field data "rate_limit") "primary_window")
        ++ mainWindow "Weekly" (field (field data "rate_limit") "secondary_window")
        ++ extraWindowsOf (field data "additional_rate_limits")
        ++ reviewWindow (field (field data "code_review_rate_limit") "primary_window")).
Proof.
  intros Hd Hextras. unfold codexWindows, mainWindow, reviewWindow.
  rewrite !(get_field data) by assumption. cbn [bind].
  rewrite !get_opt_field. cbn [bind].
  set (pw := field (field data "rate_limit") "primary_window").
  set (sw := field (field data "rate_limit") "secondary_window").
  set (cr := field (field data "code_review_rate_limit") "primary_window").
  set (additional := field data "additional_rate_limits") in *.
  assert (Hx : (if truthy additional
                then items <- iterate additional ;; extras <- extraWindows items ;; Ok extras
                else Ok []) = Ok (extraWindowsOf additional)).
  { destruct Hextras as [Hf | [items [-> Ht]]].
    - rewrite Hf. destruct additional as [| |b|n|s|items|fields]; try reflexivity; discriminate.
    - cbn [truthy iterate bind extraWindowsOf]. now rewrite extraWindows_surfaced. }
  destruct (truthy pw) eqn:Hpw; [rewrite codexWindow_field by assumption|]; cbn [bind];
    (destruct (truthy sw) eqn:Hsw; [rewrite codexWindow_field by assumption|]; cbn [bind]);
    (destruct (truthy additional) eqn:Hadd;
     [ destruct (iterate additional) as [items|e]; cbn [bind] in Hx |- *; [|discriminate];
       destruct (extraWindows items) as [extras|e]; cbn [bind] in Hx |- *; [|discriminate];
       injection Hx as ->
     | injection Hx as Hx; rewrite <- Hx ]);
    cbn [bind];
    (destruct (truthy cr) eqn:Hcr; cbn [andb];
     [ rewrite (get_field cr) by (now apply truthy_not_nullish); cbn [bind];
       destruct (num_gt (toNumber (field cr "used_percent")) (of_Z 0));
       [rewrite codexWindow_field by assumption; cbn [bind]|]
     | ]);
    rewrite ?app_nil_l, ?app_nil_r, <- ?app_assoc; reflexivity.
Qed.

Lemma extraWindows_null_entry (items : list value) :
  In VNull items -> exists e, extraWindows items = Throw e.
Proof.
  induction items as [|x rest IH]; [contradiction|]. intros [-> | Hin]; cbn [extraWindows].
  - eexists. reflexivity.
  - destruct (extraWindow x) as [o|e]; cbn [bind]; [|now exists e].
    destruct (IH Hin) as [e He]. rewrite He. cbn [bind]. now exists e.
Qed.

Lemma codexWindows_null_entry (data : value) (items : list value) :
  field data "additional_rate_limits" = VArr items -> In VNull items ->
  exists e, codexWindows data = Throw e.
Proof.
  intros Hadd Hin.
  assert (Hd : nullish data = false).
  { destruct (nullish data) eqn:Hn; [|reflexivity].
    rewrite field_nullish in Hadd by assumption. discriminate. }
  destruct (extraWindows_null_entry items Hin) as [e0 He0].
  unfold codexWindows. rewrite !(get_field data) by assumption. cbn [bind].
  rewrite !get_opt_field. cbn [bind]. rewrite Hadd. cbn [truthy iterate bind].
  rewrite He0. cbn [bind].
  repeat match goal with
         | |- context [if ?c then _ else _] => destruct c; cbn [bind]
         | |- context [bind ?m _] => destruct m; cbn [bind]
         end; eexists; reflexivity.
Qed.
End CodexMapping.

(** ** Further properties of the panel ([src/index.ts]) *)

Lemma fold_left_sum_shift (links : list ProviderLink) (acc : Z) :
  fold_left (fun sum l => sum + len (link_label l) + 2) links acc
  = acc + fold_left (fun sum l => sum + len (link_label l) + 2) links 0.
Proof.
  revert acc. induction links as [|l links IH]; intros acc; cbn [fold_left]; [lia|].
  rewrite (IH (acc + len (link_label l) + 2)), (IH (0 + len (link_label l) + 2)). lia.
Qed.

Section Links.
Context {E : Engine} {T : Terminal} {Th : Theme}.

Lemma linkToken_width (l : ProviderLink) :
  forallb narrow (link_label l) = true ->
  visibleWidth (linkToken l) = len (link_label l) + 2.
Proof.
  intros Hn. unfold linkToken.
  rewrite visibleWidth_hyperlink, !visibleWidth_app, !fg_width.
  rewrite (visibleWidth_narrow (link_label l)) by assumption.
  rewrite !visibleWidth_narrow by reflexivity. change (len (lit "[")) with 1.
  change (len (lit "]")) with 1. lia.
Qed.

Lemma join_space_cons (p : styled) (q : styled) (rest : list styled) :
  join_space (p :: q :: rest) = p ++ plain (lit " ") ++ join_space (q :: rest).
Proof. reflexivity. Qed.

Lemma renderLinks_width (links : list ProviderLink) :
  narrowLinks links ->
  visibleWidth (renderLinks links) = linksVisibleWidth links.
Proof.
  unfold renderLinks, linksVisibleWidth. fold linkToken.
  change (fun l : ProviderLink =>
            let label := fg "dim" (plain (lit "[")) ++ fg "muted" (plain (link_label l))
                         ++ fg "dim" (plain (lit "]")) in
            hyperlink (url l) label) with linkToken.
  induction 1 as [|l rest Hl Hrest IH]; [reflexivity|].
  destruct rest as [|l' rest'].
  - cbn [map join_space List.length fold_left]. rewrite linkToken_width by assumption.
    destruct (Z.eqb_spec (Z.of_nat 1) 0); lia.
  - cbn [map] in *. rewrite join_space_cons, !visibleWidth_app, linkToken_width by assumption.
    rewrite (visibleWidth_narrow (lit " ")) by reflexivity. change (len (lit " ")) with 1.
    rewrite IH. cbn [List.length fold_left].
    destruct (Z.eqb_spec (Z.of_nat (S (List.length rest'))) 0); [lia|].
    destruct (Z.eqb_spec (Z.of_nat (S (S (List.length rest')))) 0); [lia|].
    rewrite (fold_left_sum_shift rest' (0 + len (link_label l) + 2 + len (link_label l') + 2)).
    rewrite (fold_left_sum_shift rest' (0 + len (link_label l') + 2)). lia.
Qed.

(** X14.  For links whose labels are single-column text, the width the
    layout computes for the link cluster is the visible width of the
    cluster it draws. *)
Theorem linksVisibleWidth_is_rendered_width (links : list ProviderLink) :
  narrowLinks links ->
  visibleWidth (renderLinks links) = linksVisibleWidth links.
Proof. apply renderLinks_width. Qed.
End Links.

Lemma fold_left_max_ge (wins : list UsageWindow) (acc : Z) :
  acc <= fold_left (fun acc' win => Z.max acc' (len (label win))) wins acc.
Proof.
  revert acc. induction wins as [|w wins IH]; intros acc; cbn [fold_left]; [lia|].
  specialize (IH (Z.max acc (len (label w)))). lia.
Qed.

Lemma fold_left_max_in (wins : list UsageWindow) (acc : Z) (w : UsageWindow) :
  In w wins -> len (label w) <= fold_left (fun acc' win => Z.max acc' (len (label win))) wins acc.
Proof.
  revert acc. induction wins as [|x wins IH]; intros acc; [contradiction|].
  intros [-> | Hin]; cbn [fold_left].
  - pose proof (fold_left_max_ge wins (Z.max acc (len (label w)))). lia.
  - now apply IH.
Qed.

Lemma fold_left_max_attained (wins : list UsageWindow) (acc : Z) :
  fold_left (fun acc' win => Z.max acc' (len (label win))) wins acc = acc \/
  exists w, In w wins /\
            fold_left (fun acc' win => Z.max acc' (len (label win))) wins acc = len (label w).
Proof.
  revert acc. induction wins as [|x wins IH]; intros acc; cbn [fold_left]; [now left|].
  destruct (IH (Z.max acc (len (label x)))) as [Heq | [w [Hin Heq]]].
  - rewrite Heq. destruct (Z.max_spec acc (len (label x))) as [[_ Hm] | [_ Hm]]; rewrite Hm.
    + right. exists x. split; [now left | reflexivity].
    + now left.
  - right. exists w. split; [now right | assumption].
Qed.

Lemma labelFold_ge (results : list ProviderUsage) (acc : Z) : acc <= labelFold acc results.
Proof.
  unfold labelFold. revert acc. induction results as [|r results IH]; intros acc; cbn [fold_left]; [lia|].
  pose proof (fold_left_max_ge (windows r) acc).
  specialize (IH (fold_left (fun acc' win => Z.max acc' (len (label win))) (windows r) acc)). lia.
Qed.

Lemma labelFold_in (results : list ProviderUsage) (acc : Z) r w :
  In r results -> In w (windows r) -> len (label w) <= labelFold acc results.
Proof.
  unfold labelFold. revert acc. induction results as [|x results IH]; intros acc; [contradiction|].
  intros [-> | Hin] Hw; cbn [fold_left].
  - pose proof (fold_left_max_in (windows r) acc w Hw).
    pose proof (labelFold_ge results
                  (fold_left (fun acc' win => Z.max acc' (len (label win))) (windows r) acc)).
    unfold labelFold in *. lia.
  - now apply IH.
Qed.

Lemma labelFold_attained (results : list ProviderUsage) (acc : Z) :
  labelFold acc results = acc \/
  exists r w, In r results /\ In w (windows r) /\ labelFold acc results = len (label w).
Proof.
  unfold labelFold. revert acc. induction results as [|x results IH]; intros acc; cbn [fold_left]; [now left|].
  destruct (IH (fold_left (fun acc' win => Z.max acc' (len (label win))) (windows x) acc))
    as [Heq | [r [w [Hr [Hw Heq]]]]].
  - rewrite Heq. destruct (fold_left_max_attained (windows x) acc) as [Ha | [w [Hw Ha]]].
    + now left.
    + right. exists x, w. split; [now left|]. split; assumption.
  - right. exists r, w. split; [now right|]. split; assumption.
Qed.

(** X15.  The label column is as wide as the longest label over all
    windows of all results: no label is longer, every label is padded to
    exactly that width, and the width is 0 or the length of one of the
    labels. *)
Theorem shared_label_column_is_longest_label (results : list ProviderUsage) :
  (forall r w, In r results -> In w (windows r) ->
               len (label w) <= sharedLabelWidthOf results /\
               len (padEnd (label w) (sharedLabelWidthOf results)) = sharedLabelWidthOf results) /\
  (sharedLabelWidthOf results = 0 \/
   exists r w, In r results /\ In w (windows r) /\ sharedLabelWidthOf results = len (label w)).
Proof.
  change (sharedLabelWidthOf results) with (labelFold 0 results). split.
  - intros r w Hr Hw. pose proof (labelFold_in results 0 r w Hr Hw) as Hle.
    split; [exact Hle|]. unfold padEnd. rewrite len_app. unfold spaces, len at 2.
    rewrite repeat_length. unfold len in *. lia.
  - apply labelFold_attained.
Qed.

Lemma returns_bind {A B} (m : Result A) (k : A -> Result B) :
  returns (bind m k) <-> exists a, m = Ok a /\ returns (k a).
Proof.
  split.
  - destruct m as [a|e]; cbn [bind]; [intros H; now exists a | intros [b Hb]; discriminate].
  - intros [a [-> H]]. exact H.
Qed.

Lemma not_returns_Throw {A} (e : exn) : ~ returns (@Throw A e).
Proof. intros [a Ha]. discriminate. Qed.

Section Totality.
Context {E : Engine} {T : Terminal} {Th : Theme}.

Lemma windowRows_shape (width : Z) (wins : list UsageWindow) (lw : Z) :
  (Forall drawable wins ->
   exists rows, windowRows width wins lw = Ok rows /\ List.length rows = List.length wins) /\
  (returns (windowRows width wins lw) -> Forall drawable wins).
Proof.
  induction wins as [|win wins [IHok IHret]]; cbn [windowRows].
  - split; [intros _; now exists [] | constructor].
  - split.
    + intros Hd. inversion Hd as [|? ? Hwin Hrest]; subst.
      destruct (renderUsageRow_drawable win lw (innerW width - 2) Hwin) as [r Hr].
      destruct (IHok Hrest) as [rows [Hrows Hlen]].
      rewrite Hr, Hrows. cbn [bind]. eexists. split; [reflexivity|]. cbn. now rewrite Hlen.
    + intros Hret. apply returns_bind in Hret as [r [Hr Hret]].
      apply returns_bind in Hret as [rows [Hrows _]].
      constructor.
      * apply (renderUsageRow_returns_iff win lw (innerW width - 2)). now exists r.
      * apply IHret. now exists rows.
Qed.

Lemma bodyRows_shape (width : Z) (result : ProviderUsage) (lw : Z) :
  (Forall drawable (displayed result) ->
   exists rows, bodyRows width result lw = Ok rows /\
                List.length rows = Nat.max 1 (List.length (displayed result))) /\
  (returns (bodyRows width result lw) -> Forall drawable (displayed result)).
Proof.
  assert (Hwins : (Forall drawable (windows result) ->
                   exists rows,
                     match windows result with
                     | [] => Ok [row width (fg "muted" (plain (lit "No usage data available")))]
                     | _ :: _ => windowRows width (windows result) lw
                     end = Ok rows /\
                     List.length rows = Nat.max 1 (List.length (windows result))) /\
                  (returns match windows result with
                           | [] => Ok [row width (fg "muted" (plain (lit "No usage data available")))]
                           | _ :: _ => windowRows width (windows result) lw
                           end -> Forall drawable (windows result))).
  { destruct (windowRows_shape width (windows result) lw) as [Hok Hret].
    destruct (windows result) as [|w ws] eqn:Hws.
    - split; [intros _; eexists; split; reflexivity | constructor].
    - split; [|exact Hret].
      intros Hd. destruct (Hok Hd) as [rows [Hrows Hlen]]. exists rows. split; [exact Hrows|].
      rewrite Hlen. cbn [List.length]. lia. }
  unfold bodyRows, displayed.
  destruct (error result) as [e|].
  - destruct (is_empty e) eqn:He; cbn [negb].
    + destruct (windows result); exact Hwins.
    + split; [intros _; eexists; split; reflexivity | constructor].
  - destruct (windows result); exact Hwins.
Qed.

Lemma headingRow_returns (width : Z) (result : ProviderUsage) :
  returns (headingRow width result).
Proof.
  unfold headingRow. rewrite str_repeat_of_Z by lia. cbn [bind]. eexists; reflexivity.
Qed.

Lemma emptyRow_negative (width : Z) : width < 2 -> ~ returns (emptyRow width).
Proof.
  intros Hw. unfold emptyRow, innerW. rewrite str_repeat_negative by lia. cbn [bind].
  apply not_returns_Throw.
Qed.

Lemma addVerticalPad_length (width : Z) (n : nat) :
  2 <= width -> exists rows, addVerticalPad width n = Ok rows /\ List.length rows = n.
Proof.
  intros Hw. induction n as [|n [rows [Hrows Hlen]]]; cbn [addVerticalPad].
  - now exists [].
  - destruct (emptyRow_width width Hw) as [r [Hr _]]. rewrite Hr, Hrows. cbn [bind].
    eexists. split; [reflexivity|]. cbn. now rewrite Hlen.
Qed.

Lemma providerRows_shape (width : Z) (results : list ProviderUsage) (lw : Z) :
  2 <= width ->
  ((forall r, In r results -> Forall drawable (displayed r)) ->
   exists rows, providerRows width results lw = Ok rows /\
                List.length rows = providersHeight results) /\
  (returns (providerRows width results lw) ->
   forall r, In r results -> Forall drawable (displayed r)).
Proof.
  intros Hw. induction results as [|result rest [IHok IHret]]; cbn [providerRows].
  - split; [intros _; now exists [] | intros _ r []].
  - destruct (headingRow_returns width result) as [h Hh]. rewrite Hh. cbn [bind].
    destruct (emptyRow_width width Hw) as [sp [Hsp _]]. rewrite Hsp. cbn [bind].
    destruct (bodyRows_shape width result lw) as [Hbok Hbret].
    destruct (addVerticalPad_length width (Z.to_nat verticalPadding) Hw) as [sep [Hsep Hseplen]].
    split.
    + intros Hd.
      destruct (Hbok (Hd result (or_introl eq_refl))) as [body [Hbody Hblen]].
      destruct (IHok (fun r Hr => Hd r (or_intror Hr))) as [others [Hothers Holen]].
      rewrite Hbody. cbn [bind].
      destruct rest as [|r2 rest'].
      * cbn [bind providerRows] in *. injection Hothers as <-.
        eexists. split; [reflexivity|].
        cbn [List.length app providersHeight]. rewrite length_app. cbn [List.length].
        unfold bodyHeight. lia.
      * rewrite Hsep. cbn [bind]. rewrite Hothers. cbn [bind].
        eexists. split; [reflexivity|].
        cbn [List.length app]. rewrite !length_app, Hblen, Hseplen, Holen.
        change (providersHeight (result :: r2 :: rest'))
          with (bodyHeight result + 2 + providersHeight (r2 :: rest'))%nat.
        unfold bodyHeight. change (Z.to_nat verticalPadding) with 2%nat. lia.
    + intros Hret r [<- | Hin].
      * apply Hbret. apply returns_bind in Hret as [body [Hbody _]]. now exists body.
      * apply IHret; [|exact Hin].
        apply returns_bind in Hret as [body [_ Hret]].
        apply returns_bind in Hret as [sep' [_ Hret]].
        apply returns_bind in Hret as [others [Hothers _]]. now exists others.
Qed.

(** X16.  The panel has 9 lines while loading or failed, and 8 plus the
    rows of the providers once loaded.  It is not drawn below a width of
    2.  From 2 on it is drawn whenever, once loaded, every window that
    reaches the screen has a percentage from -6 to 106 or none; and when
    none of these percentages is next to a half-way point of the gauge
    formula, it is drawn exactly when each of them is above -6.25 and at
    most 106.25, or is not a number. *)
Theorem renderPanel_returns_iff (width : Z) (state : RenderState)
    (results : list ProviderUsage) :
  (returns (renderPanel width state results) -> 2 <= width) /\
  (2 <= width ->
   (state = Done -> forall r, In r results -> Forall nearScale (displayed r)) ->
   returns (renderPanel width state results)) /\
  ((forall r, In r results -> Forall tieFree (displayed r)) ->
   (returns (renderPanel width state results)
    <-> 2 <= width /\
        (state = Done -> forall r, In r results -> Forall drawable (displayed r)))) /\
  (forall lines, renderPanel width state results = Ok lines ->
                 List.length lines = panelHeight state results).
Proof.
  assert (Hmain :
    (returns (renderPanel width state results)
     <-> 2 <= width /\
         (state = Done -> forall r, In r results -> Forall drawable (displayed r))) /\
    (forall lines, renderPanel width state results = Ok lines ->
                   List.length lines = panelHeight state results)).
  { unfold renderPanel.
    destruct (Z.lt_ge_cases width 2) as [Hsmall|Hw].
    { assert (Htop : borderLine width BOX_TL BOX_TR = Throw (InvalidCount (width - 2))).
      { unfold borderLine, innerW. now rewrite str_repeat_negative by lia. }
      rewrite Htop. cbn [bind].
      split; [|intros lines Hl; discriminate].
      split; [intros Hr; now apply not_returns_Throw in Hr | lia]. }
    destruct (borderLine_width width BOX_TL BOX_TR Hw eq_refl eq_refl) as [top [Htop _]].
    destruct (borderLine_width width BOX_BL BOX_BR Hw eq_refl eq_refl) as [bot [Hbot _]].
    destruct (addVerticalPad_length width (Z.to_nat verticalPadding) Hw) as [p2 [Hp2 Hp2len]].
    destruct (addVerticalPad_length width (Z.to_nat bottomEdgePadding) Hw) as [p1 [Hp1 Hp1len]].
    rewrite Htop, Hbot, Hp2, Hp1. cbn [bind].
    change (Z.to_nat verticalPadding) with 2%nat in Hp2len.
    change (Z.to_nat bottomEdgePadding) with 1%nat in Hp1len.
    destruct state.
    - cbn [bind]. split.
      + split; [intros _; split; [lia | discriminate] | intros _; eexists; reflexivity].
      + intros lines [= <-]. repeat (first [rewrite length_app | progress cbn [List.length app]]).
        unfold panelHeight. lia.
    - destruct (providerRows_shape width results (sharedLabelWidthOf results) Hw) as [Hok Hret].
      split.
      + split.
        * intros Hr. split; [lia|]. intros _. apply Hret.
          apply returns_bind in Hr as [rows [Hrows _]]. now exists rows.
        * intros [_ Hd]. destruct (Hok (Hd eq_refl)) as [rows [Hrows _]].
          rewrite Hrows. cbn [bind]. eexists; reflexivity.
      + intros lines.
        destruct (providerRows width results (sharedLabelWidthOf results)) as [rows|e] eqn:Hrows;
          cbn [bind]; [|discriminate].
        intros [= <-].
        assert (Hd : forall r, In r results -> Forall drawable (displayed r)).
        { apply Hret. now exists rows. }
        destruct (Hok Hd) as [rows' [Hrows' Hlen]]. injection Hrows' as <-.
        repeat (first [rewrite length_app | progress cbn [List.length app]]).
        unfold panelHeight. lia.
    - cbn [bind]. split.
      + split; [intros _; split; [lia | discriminate] | intros _; eexists; reflexivity].
      + intros lines [= <-]. repeat (first [rewrite length_app | progress cbn [List.length app]]).
        unfold panelHeight. lia. }
  destruct Hmain as [Hiff Hheight].
  split; [intros Hr; now apply Hiff in Hr|].
  split.
  { intros Hw Hnear. apply Hiff. split; [exact Hw|].
    intros Hdone r Hr. apply (Forall_impl _ nearScale_drawable). now apply Hnear. }
  split; [intros _; exact Hiff | exact Hheight].
Qed.
End Totality.

Lemma Qfloor_sub_Z (a b : Z) : Qfloor (inject_Z a - inject_Z b) = a - b.
Proof.
  unfold Qfloor, Qminus, Qplus, Qopp, inject_Z. cbn [Qnum Qden].
  change (Z.pos (1 * 1)) with 1. rewrite Z.div_1_r. lia.
Qed.

Lemma small_int_text (z : Z) :
  -6 <= z <= 106 ->
  len (intToString z) <= 3 /\ forallb narrow (intToString z) = true.
Proof.
  intros Hz.
  assert (Hin : In z (map (fun k => -6 + Z.of_nat k) (seq 0 113))).
  { apply in_map_iff. exists (Z.to_nat (z + 6)). split; [lia | apply in_seq; lia]. }
  assert (Hall : forallb (fun z => (len (intToString z) <=? 3)
                                   && forallb narrow (intToString z))
                         (map (fun k => -6 + Z.of_nat k) (seq 0 113)) = true)
    by (vm_compute; reflexivity).
  rewrite forallb_forall in Hall. specialize (Hall z Hin).
  apply andb_prop in Hall as [Hl Hn]. apply Z.leb_le in Hl. now split.
Qed.

Lemma forallb_narrow_spaces (n : nat) : forallb narrow (spaces n) = true.
Proof. induction n; [reflexivity|]. cbn [spaces repeat forallb]. exact IHn. Qed.

Lemma len_spaces (n : nat) : len (spaces n) = Z.of_nat n.
Proof. unfold len, spaces. now rewrite repeat_length. Qed.

Section RowWidth.
Context {E : Engine} {T : Terminal} {Th : Theme}.

Lemma numToString_sub_Z (a b : Z) :
  Z.abs (a - b) <= SAFE_INTEGER ->
  numToString (Fin (inject_Z a - inject_Z b)) = intToString (a - b).
Proof.
  intros Hsmall. unfold numToString, is_integer. rewrite Qfloor_sub_Z.
  assert (H : Qeq_bool (inject_Z a - inject_Z b) (inject_Z (a - b)) = true).
  { apply Qeq_bool_iff. unfold Qeq, Qminus, Qplus, Qopp, inject_Z. cbn [Qnum Qden]. lia. }
  rewrite H. apply Z.leb_le in Hsmall. now rewrite Hsmall.
Qed.

(** X17.  On a terminal where the two gauge characters take one column,
    a usage row with a whole percentage between -6 and 106 and a label
    that fits the label column is [labelWidth + 21] columns wide, plus 11
    and the reset text when the window has one: labels, gauges and
    percentages line up from row to row. *)
Theorem usage_row_columns (win : UsageWindow) (labelWidth maxWidth p : Z) :
  colw GAUGE_FULL = 1%nat -> colw GAUGE_EMPTY = 1%nat ->
  percentUsed win = of_Z p -> -6 <= p <= 106 ->
  forallb narrow (label win) = true -> len (label win) <= labelWidth ->
  (forall r, resetIn win = Some r -> forallb narrow r = true) ->
  exists row,
    renderUsageRow win labelWidth maxWidth = Ok row /\
    visibleWidth row = labelWidth + 21 + resetWidth win.
Proof.
  intros Hfull Hempty Hp Hrange Hlabel Hlen Hreset.
  destruct win as [l q r]. cbn [percentUsed label resetIn] in *. subst q.
  assert (Hfill : 0 <= fillCount (inject_Z p) <= 8).
  { split; [apply fillCount_nonneg | apply fillCount_le8].
    - assert (H : (inject_Z p <= inject_Z 106)%Q) by (rewrite <- Zle_Qle; lia).
      change (inject_Z 106) with (106 # 1)%Q in H. lra.
    - assert (H : (inject_Z (-6) <= inject_Z p)%Q) by (rewrite <- Zle_Qle; lia).
      change (inject_Z (-6)) with (- (6 # 1))%Q in H. lra. }
  unfold of_Z. rewrite renderUsageRow_in_range by assumption.
  eexists. split; [reflexivity|].
  set (k := Z.to_nat (fillCount (inject_Z p))).
  assert (Hk : (k <= 8)%nat) by (unfold k; lia).
  unfold usageRow, resetSuffix, resetWidth. cbn [label resetIn].
  change (remainingOf (mkWindow l (Fin (inject_Z p)) r)) with (Fin (inject_Z 100 - inject_Z p)).
  rewrite numToString_sub_Z
    by (assert (H53 : 1000 <= SAFE_INTEGER) by discriminate; lia).
  destruct (small_int_text (100 - p) ltac:(lia)) as [Hdigits Hnarrow].
  rewrite !visibleWidth_app, !fg_width.
  assert (Hgauge : forall c n, colw c = 1%nat -> visibleWidth (plain (repeat c n)) = Z.of_nat n).
  { intros c n Hc. unfold visibleWidth. f_equal. induction n as [|n IH]; [reflexivity|].
    cbn [repeat]. change (cols (plain (c :: repeat c n))) with (colw c + cols (plain (repeat c n)))%nat.
    rewrite Hc, IH. reflexivity. }
  rewrite !Hgauge by assumption.
  rewrite (visibleWidth_narrow (padEnd l labelWidth)).
  2:{ unfold padEnd. rewrite forallb_app, Hlabel. apply forallb_narrow_spaces. }
  rewrite (visibleWidth_narrow (padStart _ 4)).
  2:{ unfold padStart. rewrite forallb_app, forallb_narrow_spaces, forallb_app, Hnarrow.
      reflexivity. }
  rewrite !visibleWidth_narrow by reflexivity.
  unfold padEnd, padStart. rewrite !len_app, !len_spaces.
  change (len (lit "%")) with 1. change (len (lit " ")) with 1.
  change (len (lit "[")) with 1. change (len (lit "]")) with 1.
  change (len (lit " left")) with 5.
  assert (Hl0 : 0 <= len l) by (unfold len; lia).
  assert (Hd0 : 0 <= len (intToString (100 - p))) by (unfold len; lia).
  destruct r as [r|].
  - unfold is_empty. destruct (jstring_eqb r []) eqn:Hr.
    + rewrite visibleWidth_nil. lia.
    + rewrite fg_width, visibleWidth_narrow.
      2:{ rewrite forallb_app. rewrite (Hreset r eq_refl). reflexivity. }
      rewrite len_app. change (len (lit " resets in ")) with 11. lia.
  - rewrite visibleWidth_nil. lia.
Qed.

(** X18.  A Codex window object without [used_percent] still gives a
    window, whose percentage is not a number; its row is drawn with an
    empty gauge [[]] and the text [NaN%] in the colour of the healthy
    state. *)
Theorem window_without_percentage_renders_NaN (lbl : string) (w : value) (labelWidth maxWidth : Z) :
  truthy w = true -> field w "used_percent" = VUndef ->
  exists win,
    codexWindow lbl w = Ok win /\
    percentUsed win = NaN /\
    renderUsageRow win labelWidth maxWidth
    = Ok (fg "text" (plain (padEnd (lit lbl) labelWidth)) ++ plain (lit " ")
          ++ (fg "dim" (plain (lit "[")) ++ fg "success" (plain []) ++ fg "dim" (plain [])
              ++ fg "dim" (plain (lit "]")))
          ++ plain (lit " ")
          ++ fg "success" (plain (lit "NaN%"))
          ++ plain (lit " left")
          ++ resetSuffix win).
Proof.
  intros Hw Hused. eexists. split; [|split].
  - rewrite codexWindow_field by assumption. rewrite Hused. reflexivity.
  - reflexivity.
  - reflexivity.
Qed.

End RowWidth.

Lemma is_empty_len (s : jstring) : is_empty s = true <-> len s = 0.
Proof.
  destruct s; cbn; split; intros H; try reflexivity; discriminate.
Qed.

Section Heading.
Context {E : Engine} {T : Terminal} {Th : Theme}.

Lemma truncateToWidth_exact_fit (t : styled) (w : Z) :
  visibleWidth t = w -> truncateToWidth t w [] true = t.
Proof.
  intros Hw. unfold truncateToWidth. rewrite Hw, Z.leb_refl, Z.sub_diag.
  apply app_nil_r.
Qed.

End Heading.

(** ** Properties of the overlay handler ([src/index.ts]) *)

Section Load.
Context {E : Engine} (W : World) (signal : option AbortSignal).

Lemma settled_shape who lnks acct response mapping :
  provider (settled who lnks acct response mapping) = lit who /\
  links (settled who lnks acct response mapping) = lnks /\
  error_implies_no_windows (settled who lnks acct response mapping).
Proof.
  unfold settled, failed, error_implies_no_windows.
  destruct response as [res|e]; [|repeat split].
  destruct (ok res); [|repeat split].
  destruct (json res) as [data|e]; [|repeat split].
  destruct (mapping data) as [[plan ws]|e]; repeat split.
  cbn [error]. intros H. now contradiction H.
Qed.

Lemma anthropic_result_shape :
  exists r, fetchAnthropicUsage W signal = Ok r /\
            provider r = lit "Anthropic" /\ links r = ANTHROPIC_LINKS /\
            error_implies_no_windows r.
Proof.
  destruct (truthy (anthropicAuth W)) eqn:Ht.
  - rewrite fetchAnthropicUsage_settled by assumption. eexists. split; [reflexivity|].
    apply settled_shape.
  - rewrite fetchAnthropicUsage_no_credentials by assumption. eexists. split; [reflexivity|].
    repeat split.
Qed.

Lemma codex_result_shape :
  exists r, fetchCodexUsage W signal = Ok r /\
            provider r = lit "OpenAI Codex" /\ links r = CODEX_LINKS /\
            error_implies_no_windows r.
Proof.
  destruct (truthy (codexToken W)) eqn:Ht.
  - rewrite fetchCodexUsage_settled by assumption. eexists. split; [reflexivity|].
    apply settled_shape.
  - rewrite fetchCodexUsage_no_credentials by assumption. eexists. split; [reflexivity|].
    repeat split.
Qed.

(** X13.  A [null] among the model-specific limits of a Codex body
    makes the whole result an error with no windows and no plan: the
    windows already collected from the main limits are dropped. *)
Theorem codex_null_entry_voids_result (res : Response) (data : value) (items : list value) :
  truthy (codexToken W) = true ->
  fetch W (codexUsageRequest signal (codexToken W)) = Ok res ->
  ok res = true -> json res = Ok data ->
  field data "additional_rate_limits" = VArr items -> In VNull items ->
  exists msg,
    fetchCodexUsage W signal
    = Ok (mkUsage (lit "OpenAI Codex") None (codexAccount W) [] CODEX_LINKS (Some msg)).
Proof.
  intros Ht Hf Hok Hj Hadd Hin.
  destruct (codexWindows_null_entry data items Hadd Hin) as [e He].
  rewrite fetchCodexUsage_settled by assumption.
  unfold settled, failed. rewrite Hf, Hok, Hj, He. eexists. reflexivity.
Qed.

Lemma codex_success (res : Response) (data : value) plan ws :
  truthy (codexToken W) = true ->
  fetch W (codexUsageRequest signal (codexToken W)) = Ok res ->
  ok res = true -> json res = Ok data -> codexWindows data = Ok (plan, ws) ->
  fetchCodexUsage W signal = Ok (mkUsage (lit "OpenAI Codex") plan (codexAccount W) ws CODEX_LINKS None).
Proof.
  intros Ht Hf Hok Hj Hm. rewrite fetchCodexUsage_settled by assumption.
  unfold settled. now rewrite Hf, Hok, Hj, Hm.
Qed.
End Load.

Section Handler.
Import Overlay.
Context {E : Engine} (W : World).

(** X20.  Whatever the files and the network do, both calls of the
    overlay, made with the signal of its controller, fulfil, so the panel
    leaves [loading] for [done], never for [error], with exactly two
    results: Anthropic's first, Codex's second, each with its provider's
    name and links. *)
Theorem overlay_always_reaches_done (controller : AbortSignal) (panel : PanelState) :
  exists a c,
    settle W controller panel = mkPanel Done [a; c] /\
    fetchAnthropicUsage W (Some controller) = Ok a /\
    fetchCodexUsage W (Some controller) = Ok c /\
    provider a = lit "Anthropic" /\ provider c = lit "OpenAI Codex" /\
    links a = ANTHROPIC_LINKS /\ links c = CODEX_LINKS.
Proof.
  destruct (anthropic_result_shape W (Some controller)) as [a [Ha [Hpa [Hla _]]]].
  destruct (codex_result_shape W (Some controller)) as [c [Hc [Hpc [Hlc _]]]].
  exists a, c. unfold settle. cbn [Promise_all]. rewrite Ha, Hc. cbn [bind].
  repeat split; assumption.
Qed.

End Handler.

(** ** The further properties on concrete runs *)

Section RunInstances.
Import Examples Runs.

(** The theorem of X1 on a machine that holds a file but neither
    credential file, with a network that would answer 503. *)
Lemma no_credential_files_no_network_call_witness :
  readFileSync noCredentialsWorld (lit "/home/u/notes.txt") = Ok (lit "remember the milk") /\
  fetchAnthropicUsage (E := exampleEngine)
                      (withNetwork noCredentialsWorld (fun _ => Ok unavailable)) None
  = Ok (noCredentials "Anthropic" ANTHROPIC_LINKS) /\
  fetchCodexUsage (E := exampleEngine)
                  (withNetwork noCredentialsWorld (fun _ => Ok unavailable)) None
  = Ok (noCredentials "OpenAI Codex" CODEX_LINKS).
Proof.
  split; [reflexivity|].
  apply (@no_credential_files_no_network_call exampleEngine noCredentialsWorld None);
    eexists; reflexivity.
Defined.

(** The theorem of X2 on a 503 answer with a body of 150 units: 100 of
    them are reported. *)
Lemma http_error_reported_with_snippet_witness :
  ok unavailable = false /\
  fetchAnthropicUsage (E := exampleEngine) unavailableWorld None
  = Ok (mkUsage (lit "Anthropic") None None [] ANTHROPIC_LINKS
                (Some (lit "HTTP 503: " ++ repeat 120%N 100))) /\
  fetchCodexUsage (E := exampleEngine) unavailableWorld None
  = Ok (mkUsage (lit "OpenAI Codex") None None [] CODEX_LINKS
                (Some (lit "HTTP 503: " ++ repeat 120%N 100))).
Proof.
  pose proof (@http_error_reported_with_snippet exampleEngine unavailableWorld None unavailable
                eq_refl) as [Ha [Hc _]].
  split; [reflexivity|]. split.
  - rewrite Ha by (vm_compute; reflexivity). vm_compute. reflexivity.
  - rewrite Hc by (vm_compute; reflexivity). vm_compute. reflexivity.
Defined.

(** The theorem of X3 when the network is down. *)
Lemma failure_message_reported_witness :
  is_abort fetchFailed = false /\
  fetchAnthropicUsage (E := exampleEngine) offlineWorld None
  = Ok (mkUsage (lit "Anthropic") None None [] ANTHROPIC_LINKS (Some (lit "fetch failed"))) /\
  fetchCodexUsage (E := exampleEngine) offlineWorld None
  = Ok (mkUsage (lit "OpenAI Codex") None None [] CODEX_LINKS (Some (lit "fetch failed"))).
Proof.
  pose proof (@failure_message_reported exampleEngine offlineWorld None fetchFailed eq_refl)
    as [Ha Hc].
  split; [reflexivity|]. split.
  - rewrite Ha; [vm_compute; reflexivity | vm_compute; reflexivity | left; reflexivity].
  - rewrite Hc; [vm_compute; reflexivity | vm_compute; reflexivity | left; reflexivity].
Defined.

(** The theorem of X4 on three runs.  When the token holds an email it
    is the account, although the profile endpoint would give another;
    when it holds none the account is the profile's email; when the
    profile endpoint answers 503 it is the stored [accountId]. *)
Lemma anthropic_account_by_priority_witness :
  (exists r, fetchAnthropicUsage (E := accountEngine) tokenEmailWorld None = Ok r /\
             account r = Some (lit "a@b.c")) /\
  (exists r, fetchAnthropicUsage (E := accountEngine) profileEmailWorld None = Ok r /\
             account r = Some (lit "p@q.r")) /\
  (exists r, fetchAnthropicUsage (E := accountEngine) accountIdWorld None = Ok r /\
             account r = Some (lit "acct-1")).
Proof.
  split; [|split].
  - destruct (@anthropic_account_by_priority accountEngine tokenEmailWorld None
                ltac:(vm_compute; reflexivity)) as [_ [r [Hr [Htoken _]]]].
    exists r. split; [exact Hr|]. apply Htoken. vm_compute. reflexivity.
  - destruct (@anthropic_account_by_priority accountEngine profileEmailWorld None
                ltac:(vm_compute; reflexivity)) as [_ [r [Hr [_ Hnext]]]].
    exists r. split; [exact Hr|]. rewrite Hnext by (vm_compute; reflexivity).
    vm_compute. reflexivity.
  - destruct (@anthropic_account_by_priority accountEngine accountIdWorld None
                ltac:(vm_compute; reflexivity)) as [_ [r [Hr [_ Hnext]]]].
    exists r. split; [exact Hr|]. rewrite Hnext by (vm_compute; reflexivity).
    vm_compute. reflexivity.
Defined.

(** The theorem of X5 on three runs.  When the token sent holds an
    email it is the account; when it holds none and the legacy store has
    a token with an email, that email is; without a legacy store it is
    the [accountId] of the primary store. *)
Lemma codex_account_by_priority_witness :
  (exists r, fetchCodexUsage (E := accountEngine) tokenEmailWorld None = Ok r /\
             account r = Some (lit "a@b.c")) /\
  (codexToken (E := accountEngine) legacyWorld = VStr (lit "tok") /\
   exists r, fetchCodexUsage (E := accountEngine) legacyWorld None = Ok r /\
             account r = Some (lit "a@b.c")) /\
  (exists r, fetchCodexUsage (E := accountEngine) accountIdWorld None = Ok r /\
             account r = Some (lit "acct-2")).
Proof.
  split; [|split].
  - destruct (@codex_account_by_priority accountEngine tokenEmailWorld None
                ltac:(vm_compute; reflexivity)) as [_ [r [Hr Hacct]]].
    exists r. split; [exact Hr|]. rewrite Hacct. vm_compute. reflexivity.
  - destruct (@codex_account_by_priority accountEngine legacyWorld None
                ltac:(vm_compute; reflexivity)) as [Htok [r [Hr Hacct]]].
    split; [rewrite Htok; vm_compute; reflexivity|].
    exists r. split; [exact Hr|]. rewrite Hacct. vm_compute. reflexivity.
  - destruct (@codex_account_by_priority accountEngine accountIdWorld None
                ltac:(vm_compute; reflexivity)) as [_ [r [Hr Hacct]]].
    exists r. split; [exact Hr|]. rewrite Hacct. vm_compute. reflexivity.
Defined.

(** The theorem of X6 on a run with the primary store only: its token
    is the one sent. *)
Lemma codex_token_precedence_witness :
  fetchCodexUsage (E := exampleEngine) emptyBodyWorld None
  = Ok (settled "OpenAI Codex" CODEX_LINKS (codexAccount (E := exampleEngine) emptyBodyWorld)
                (fetch emptyBodyWorld (codexUsageRequest None (VStr (lit "tok"))))
                (codexWindows (E := exampleEngine))).
Proof.
  pose proof (@codex_token_precedence exampleEngine emptyBodyWorld None
                (VObj [(lit "access", VStr (lit "tok"))]) None eq_refl eq_refl) as [Hpi _].
  apply Hpi. reflexivity.
Defined.

(** The theorem of X7 on a token whose payload is [{"email":"a@b.c"}]. *)
Lemma jwt_email_by_priority_witness :
  (2 <= List.length (split_on 46%N jwtToken))%nat /\
  extractEmailFromJwt (E := jwtEngine) (VStr jwtToken) = Ok (Some (lit "a@b.c")).
Proof.
  assert (Hlen : (2 <= List.length (split_on 46%N jwtToken))%nat) by (vm_compute; lia).
  split; [exact Hlen|].
  pose proof (@jwt_email_by_priority jwtEngine jwtToken jwtPayload Hlen
                ltac:(vm_compute; reflexivity)) as [_ Hfound].
  rewrite Hfound by reflexivity. vm_compute. reflexivity.
Defined.

(** The theorem of X9 five hours before the reset, and half a second
    after it. *)
Lemma formatResetTimestamp_edges_witness :
  formatResetTimestamp (E := exampleEngine) emptyBodyWorld (VStr (lit "2026-01-01T05:00:00Z"))
  = lit "5h" /\
  formatResetTimestamp (E := exampleEngine)
                       (mkWorld (homedir emptyBodyWorld) (readFileSync emptyBodyWorld)
                                (fetch emptyBodyWorld) (of_Z 18000500))
                       (VStr (lit "2026-01-01T05:00:00Z"))
  = lit "now".
Proof.
  split.
  - pose proof (@formatResetTimestamp_edges exampleEngine emptyBodyWorld
                  (VStr (lit "2026-01-01T05:00:00Z"))) as [_ Hvalid].
    destruct (Hvalid (inject_Z 18000000) (inject_Z 0) eq_refl eq_refl) as [Hform _].
    rewrite Hform. vm_compute. reflexivity.
  - pose proof (@formatResetTimestamp_edges exampleEngine
                  (mkWorld (homedir emptyBodyWorld) (readFileSync emptyBodyWorld)
                           (fetch emptyBodyWorld) (of_Z 18000500))
                  (VStr (lit "2026-01-01T05:00:00Z"))) as [_ Hvalid].
    destruct (Hvalid (inject_Z 18000000) (inject_Z 18000500) eq_refl eq_refl) as [_ Hpast].
    apply Hpast. vm_compute. reflexivity.
Defined.


(** The theorem of X12 on a body with both main windows, one
    model-specific limit in use and an unused code-review limit. *)
Lemma codex_windows_in_fixed_order_witness :
  nullish codexBody = false /\
  codexWindows (E := exampleEngine) codexBody
  = Ok (Some (lit "plus"),
        [ mkWindow (lit "5h session") (of_Z 12) (Some (lit "1h 30m"));
          mkWindow (lit "Weekly") (of_Z 40) None;
          mkWindow (lit "5 mini") (of_Z 12) None ]).
Proof.
  split; [reflexivity|].
  rewrite (@codex_windows_in_fixed_order exampleEngine codexBody eq_refl).
  - vm_compute. reflexivity.
  - right. exists [exampleExtra "GPT-5-Codex-mini" 0 12]. split; [reflexivity|].
    repeat constructor; intros _; eexists; reflexivity.
Defined.

(** The theorem of X13 on a 2xx answer whose list of model-specific
    limits is [[null]], after a primary window at 12 percent. *)
Lemma codex_null_entry_voids_result_witness :
  In VNull [VNull] /\
  exists msg,
    fetchCodexUsage (E := exampleEngine) brokenCodexWorld None
    = Ok (mkUsage (lit "OpenAI Codex") None None [] CODEX_LINKS (Some msg)).
Proof.
  split; [now left|].
  apply (@codex_null_entry_voids_result exampleEngine brokenCodexWorld None brokenCodexAnswer
           brokenCodexBody [VNull]); try reflexivity.
  now left.
Defined.

(** The theorem of X14 on Anthropic's two links: 11 columns, a space and
    8 columns. *)
Lemma linksVisibleWidth_is_rendered_width_witness :
  narrowLinks ANTHROPIC_LINKS /\
  visibleWidth (T := unitTerminal) (renderLinks (Th := ansiTheme)
                                                ANTHROPIC_LINKS) = 20.
Proof.
  assert (Hn : narrowLinks ANTHROPIC_LINKS) by (repeat constructor).
  split; [exact Hn|].
  rewrite (@linksVisibleWidth_is_rendered_width unitTerminal ansiTheme
             ANTHROPIC_LINKS Hn).
  reflexivity.
Defined.

(** The theorem of X16 on a loaded panel of two providers, which is
    drawn at width 58 and is 17 lines tall, and on one with a window at
    150 percent, which is not drawn. *)
Lemma renderPanel_returns_iff_witness :
  returns (renderPanel (E := exampleEngine) (Th := ansiTheme) 58 Done
                       [anthropicResult; codexResult]) /\
  (forall lines,
      renderPanel (E := exampleEngine) (Th := ansiTheme) 58 Done [anthropicResult; codexResult]
      = Ok lines ->
      List.length lines = 17%nat) /\
  ~ returns (renderPanel (E := exampleEngine) (Th := ansiTheme) 58 Done [overdrawnResult]).
Proof.
  pose proof (@renderPanel_returns_iff exampleEngine unitTerminal ansiTheme 58 Done
                [anthropicResult; codexResult]) as [_ [Hnear [_ Hheight]]].
  pose proof (@renderPanel_returns_iff exampleEngine unitTerminal ansiTheme 58 Done
                [overdrawnResult]) as [_ [_ [Hiff _]]].
  split; [|split; [exact Hheight|]].
  - apply Hnear; [lia|]. intros _ r [<- | [<- | []]].
    + apply Forall_cons; [vm_compute; split; discriminate|].
      apply Forall_cons; [vm_compute; split; discriminate | apply Forall_nil].
    + apply Forall_nil.
  - intros Hr. apply Hiff in Hr.
    + destruct Hr as [_ Hd]. specialize (Hd eq_refl overdrawnResult (or_introl eq_refl)).
      inversion Hd as [|win wins Hwin _]. vm_compute in Hwin. destruct Hwin as [Hwin _].
      now apply Hwin.
    + intros r [<- | []]. apply Forall_cons; [reflexivity | apply Forall_nil].
Defined.

(** The theorem of X17 on the weekly window at 81 percent with a reset
    text of five units: 10 + 21 + 16 columns. *)
Lemma usage_row_columns_witness :
  exists row,
    renderUsageRow (E := exampleEngine) (Th := ansiTheme)
                   (mkWindow (lit "Weekly") (of_Z 81) (Some (lit "2d 4h"))) 10 52 = Ok row /\
    visibleWidth (T := unitTerminal) row = 47.
Proof.
  apply (@usage_row_columns exampleEngine unitTerminal ansiTheme
           (mkWindow (lit "Weekly") (of_Z 81) (Some (lit "2d 4h"))) 10 52 81);
    try reflexivity; try lia.
  - vm_compute. discriminate.
  - intros r [= <-]. reflexivity.
Defined.

(** The theorem of X18 on a window object that only has
    [reset_after_seconds]. *)
Lemma window_without_percentage_renders_NaN_witness :
  truthy windowWithoutPercent = true /\
  exists win,
    codexWindow (E := exampleEngine) "Weekly" windowWithoutPercent = Ok win /\
    percentUsed win = NaN /\
    returns (renderUsageRow (E := exampleEngine) (Th := ansiTheme) win 10 52).
Proof.
  split; [reflexivity|].
  destruct (@window_without_percentage_renders_NaN exampleEngine unitTerminal ansiTheme
              "Weekly" windowWithoutPercent 10 52 eq_refl eq_refl) as [win [Hwin [Hnan Hrow]]].
  exists win. split; [exact Hwin|]. split; [exact Hnan|]. rewrite Hrow. eexists. reflexivity.
Defined.


End RunInstances.
